(** * Host identity resolution of the vSphere provider

    A shallow embedding of the [hostsystem] helper package
    ([vsphere/internal/helper/hostsystem/host_system_helper.go]), of the
    import function of the iSCSI software adapter resource and of the
    vCenter DNS update function, together with the properties that the
    specification states about them.

    The Go code talks to vCenter/ESXi through blocking calls of the govmomi
    client.  Every such call is an explicit request node of a program tree
    ([Prog]); the server side is a handler that answers requests and may
    change its own state between two requests.  Running a program against a
    handler yields the outcome of the Go function, the list of requests that
    were issued, in order, and the final state of the server.

    One call of the client library is one request.  A call that runs into
    its context deadline is a call that fails.  Log output is not part of
    the model; what [os.Exit] is preceded by on standard output is.  Helpers
    of the provider that are defined in other packages ([viapi], [iscsi])
    and [host.Name()] of govmomi are parameters of the embedding. *)

From Stdlib Require Import ZArith String Ascii List Bool Lia.
From stdpp Require Import base option gmap strings.
Import ListNotations.
Local Open Scope Z_scope.
Local Open Scope string_scope.

Set Implicit Arguments.

(** ** Data of the vSphere object model *)

(** [types.ManagedObjectReference]. *)
Record ManagedObjectReference : Type := MoRef {
  ref_Type : string;
  ref_Value : string
}.

(** [ManagedObjectReference.String()], used by the [%s] verb. *)
Definition ref_String (r : ManagedObjectReference) : string :=
  ref_Type r +:+ ":" +:+ ref_Value r.

Definition ref_eqb (a b : ManagedObjectReference) : bool :=
  String.eqb (ref_Type a) (ref_Type b) && String.eqb (ref_Value a) (ref_Value b).

(** The part of [govmomi.Client] that the helpers read:
    [client.ServiceContent.About.ApiType]. *)
Record Client : Type := { ApiType : string }.

(** [object.Common]: what every client-side handle is made of, the client
    it was created with, the reference of the object and its inventory
    path. *)
Record Common : Type := {
  c : Client;
  r : ManagedObjectReference;
  InventoryPath : string
}.

(** [object.HostSystem], a handle of a host. *)
Record HostSystem : Type := { hs_Common : Common }.

(** [host.Reference()] and [host.Client()]. *)
Definition Reference (host : HostSystem) : ManagedObjectReference :=
  r (hs_Common host).
Definition Client_of (host : HostSystem) : Client := c (hs_Common host).

(** [object.Datacenter] and [view.ContainerView] handles. *)
Record Datacenter : Type := { dc_Reference : ManagedObjectReference }.
Record ContainerView : Type := { view_Reference : ManagedObjectReference }.

(** [list.Element], the answer of the finder for a reference. *)
Record Element : Type := { el_Path : string }.

(** [mo.HostSystem], the server-side properties of a host. *)
Record mo_HostSystem : Type := {
  Self : ManagedObjectReference;
  mo_Name : string;
  Runtime_InMaintenanceMode : bool;
  Runtime_ConnectionState : string;
  ConfigManager_StorageSystem : option ManagedObjectReference
}.

(** [types.HostStorageDeviceInfo]. *)
Record HostStorageDeviceInfo : Type := {
  SoftwareInternetScsiEnabled : bool
}.

(** [mo.HostStorageSystem].  [StorageDeviceInfo] is a pointer; [None] is
    the [nil] pointer. *)
Record mo_HostStorageSystem : Type := {
  hss_Self : ManagedObjectReference;
  StorageDeviceInfo : option HostStorageDeviceInfo
}.

(** [object.HostStorageSystem] handle. *)
Record HostStorageSystem : Type := { hss_Reference : ManagedObjectReference }.

(** [object.Task] handle and the [Info] of [mo.Task]. *)
Record Task : Type := { task_Reference : ManagedObjectReference }.
Record mo_Task : Type := { Info_State : string; Info_Error : string }.

(** The iSCSI host bus adapter returned by the [iscsi] helper. *)
Record IscsiAdapter : Type := { Device : string; IScsiName : string }.

(** ** Errors *)

(** An error produced by govmomi: a SOAP fault or a transport failure. *)
Inductive api_error : Type := ApiError (text : string).

(** Go [error] values seen by this package: its two sentinels, an error
    made by [fmt.Errorf], or an error handed over by the client library. *)
Inductive error : Type :=
| ErrHostnameNotFound
| ErrHostnameOrIDNotFound
| Errorf (msg : string)
| FromApi (e : api_error).

Definition Error (e : error) : string :=
  match e with
  | ErrHostnameNotFound => "could not find host with given hostname"
  | ErrHostnameOrIDNotFound => "could not find host based off of id or hostname"
  | Errorf msg => msg
  | FromApi (ApiError text) => text
  end.

(** [errors.Is(err, target)] for a sentinel target: none of the errors above
    wraps another one ([fmt.Errorf] is used with [%s], not [%w]). *)
Definition errors_Is (err target : error) : bool :=
  match err, target with
  | ErrHostnameNotFound, ErrHostnameNotFound => true
  | ErrHostnameOrIDNotFound, ErrHostnameOrIDNotFound => true
  | _, _ => false
  end.

(** ** Terraform resource data *)

(** A value of a resource attribute: a string ([schema.TypeString]) or the
    list of the elements of a set of strings ([schema.TypeSet]). *)
Inductive tfvalue : Type :=
| VString (s : string)
| VSet (elems : list string).

(** [schema.ResourceData]: the resource ID and the attributes.  A key that
    is absent from the map reads as the [nil] interface value. *)
Record ResourceData : Type := {
  rd_Id : string;
  rd_Attrs : gmap string tfvalue
}.

Definition Get (d : ResourceData) (key : string) : option tfvalue :=
  rd_Attrs d !! key.

Definition Set_ (d : ResourceData) (key : string) (v : tfvalue) : ResourceData :=
  {| rd_Id := rd_Id d; rd_Attrs := <[key := v]> (rd_Attrs d) |}.

Definition SetId (d : ResourceData) (id : string) : ResourceData :=
  {| rd_Id := id; rd_Attrs := rd_Attrs d |}.

(** [v != ""] on an interface value: only the string [""] is equal to it. *)
Definition is_empty_string (v : tfvalue) : bool :=
  match v with
  | VString s => String.eqb s ""
  | VSet _ => false
  end.

(** [d.Get(key) != nil && d.Get(key) != ""]. *)
Definition attr_present (d : ResourceData) (key : string) : bool :=
  match Get d key with
  | None => false
  | Some v => negb (is_empty_string v)
  end.

(** ** Payload of the REST requests *)

Unset Elimination Schemes.
Inductive json : Type :=
| JString (s : string)
| JList (items : list json)
| JObject (fields : list (string * json)).
Set Elimination Schemes.

(** ** Requests to the server *)

(** Every blocking call that leaves the process.  The arguments are the
    ones the Go code passes. *)
Inductive Request : Type :=
| Finder_Element (ref : ManagedObjectReference)
| Finder_DatacenterList (path : string)
| CreateContainerView (container : ManagedObjectReference)
    (kind : list string) (recursive : bool)
| RetrieveWithFilter (v : ContainerView) (kind ps : list string)
| HostSystem_Properties (host : ManagedObjectReference)
| HostStorageSystem_Properties (hss : ManagedObjectReference)
| HostSystem_EnterMaintenanceMode (host : ManagedObjectReference)
    (timeout : Z) (evacuate : bool)
| HostSystem_ExitMaintenanceMode (host : ManagedObjectReference) (timeout : Z)
| Task_Wait (t : Task)
| Task_Properties (t : Task)
| RestUpdateRequest (method path : string) (body : json).

(** What each request is answered with. *)
Definition Response (r : Request) : Type :=
  match r with
  | Finder_Element _ => (Element + api_error)%type
  | Finder_DatacenterList _ => (list Datacenter + api_error)%type
  | CreateContainerView _ _ _ => (ContainerView + api_error)%type
  | RetrieveWithFilter _ _ _ => (list mo_HostSystem + api_error)%type
  | HostSystem_Properties _ => (mo_HostSystem + api_error)%type
  | HostStorageSystem_Properties _ => (mo_HostStorageSystem + api_error)%type
  | HostSystem_EnterMaintenanceMode _ _ _ => (Task + api_error)%type
  | HostSystem_ExitMaintenanceMode _ _ => (Task + api_error)%type
  | Task_Wait _ => option api_error
  | Task_Properties _ => (mo_Task + api_error)%type
  | RestUpdateRequest _ _ _ => option error
  end.

(** ** Programs *)

(** A Go function body: it returns, issues a request and goes on with the
    answer, ends the process with [os.Exit] after printing to standard
    output, or panics. *)
Inductive Prog (T : Type) : Type :=
| Ret (x : T)
| Do (r : Request) (k : Response r -> Prog T)
| Exit (stdout : string) (code : Z)
| Panic.

Arguments Ret {T} x.
Arguments Do {T} r k.
Arguments Exit {T} stdout code.
Arguments Panic {T}.

Fixpoint bind {A B : Type} (m : Prog A) (f : A -> Prog B) : Prog B :=
  match m with
  | Ret x => f x
  | Do r k => Do r (fun a => bind (k a) f)
  | Exit out c => Exit out c
  | Panic => Panic
  end.

Declare Scope prog_scope.
Delimit Scope prog_scope with prog.
Notation "x <- m ;; k" := (bind m (fun x => k))
  (at level 100, m at next level, right associativity) : prog_scope.
Local Open Scope prog_scope.

Definition call (r : Request) : Prog (Response r) := Do r Ret.

(** How a run of a program ends. *)
Inductive Outcome (T : Type) : Type :=
| Returned (x : T)
| Exited (stdout : string) (code : Z)
| Panicked.

Arguments Returned {T} x.
Arguments Exited {T} stdout code.
Arguments Panicked {T}.

(** A server: it answers a request in its current state and moves on. *)
Definition Handler (W : Type) : Type := forall r : Request, W -> Response r * W.

(** The result of a run: outcome, requests issued and final server state. *)
Record Run (W T : Type) : Type := {
  outcome : Outcome T;
  trace : list Request;
  final : W
}.

Fixpoint run {W T : Type} (h : Handler W) (p : Prog T) (w : W) : Run W T :=
  match p with
  | Ret x => {| outcome := Returned x; trace := []; final := w |}
  | Do r k =>
      let aw := h r w in
      let rest := run h (k (fst aw)) (snd aw) in
      {| outcome := outcome rest; trace := r :: trace rest; final := final rest |}
  | Exit out c => {| outcome := Exited out c; trace := []; final := w |}
  | Panic => {| outcome := Panicked; trace := []; final := w |}
  end.

(** A server without state: every request has one fixed answer. *)
Definition Oracle : Type := forall r : Request, Response r.

Definition static (o : Oracle) : Handler unit := fun r w => (o r, w).

(** ** The [hostsystem] package *)

(** [HostReturn] carries the name of the attribute that identifies the host
    together with its value. *)
Record HostReturn : Type := {
  IDName : string;
  Value : string
}.

(** The zero value [HostReturn{}]. *)
Definition HostReturn_zero : HostReturn := {| IDName := ""; Value := "" |}.

(** Early exit of a loop body: go on with the loop state, or leave the
    enclosing function with a result. *)
Inductive flow (S R : Type) : Type :=
| Continue (s : S)
| Return (res : R).

Arguments Continue {S R} s.
Arguments Return {S R} res.

(** The local variables [counter] and [host] of [FromHostname].  The
    counter is a Go [int]; it never exceeds 2. *)
Record scan : Type := {
  counter : Z;
  host : option HostSystem
}.

(** [strings.Split(s, ":")]. *)
Fixpoint strings_Split_colon (s : string) : list string :=
  match s with
  | EmptyString => [""]
  | String ch rest =>
      if Ascii.eqb ch ":" then "" :: strings_Split_colon rest
      else match strings_Split_colon rest with
           | [] => [String ch ""]
           | x :: xs => String ch x :: xs
           end
  end.

(** [finder.ObjectReference(ctx, ref)] of govmomi: the finder asks the
    server for the element behind [ref]; on success it builds a handle for
    that same reference ([object.NewReference]) and stores the inventory
    path of the element in it. *)
Definition finder_ObjectReference (client : Client) (ref : ManagedObjectReference)
  : Prog (Common + api_error) :=
  a <- call (Finder_Element ref);;
  match a with
  | inr err => Ret (inr err)
  | inl e => Ret (inl {| c := client; r := ref; InventoryPath := el_Path e |})
  end.

(** The type assertion to [object.HostSystem]: [object.NewReference] makes
    a host handle exactly for references of type ["HostSystem"]; on any
    other handle the assertion panics. *)
Definition assert_HostSystem (o : Common) : Prog HostSystem :=
  if String.eqb (ref_Type (r o)) "HostSystem"
  then Ret {| hs_Common := o |}
  else Panic.

(** The type assertion to [string] on an attribute value. *)
Definition assert_string (v : option tfvalue) : Prog string :=
  match v with
  | Some (VString s) => Ret s
  | _ => Panic
  end.

(** The type assertion to [schema.Set] followed by [List()]. *)
Definition assert_Set_List (v : option tfvalue) : Prog (list string) :=
  match v with
  | Some (VSet l) => Ret l
  | _ => Panic
  end.

(** A Go result pair [(value, err)] with exactly one side set is a sum;
    these give back the two components. *)
Definition value_of {A : Type} (res : A + error) : option A :=
  match res with inl a => Some a | inr _ => None end.
Definition err_of {A : Type} (res : A + error) : option error :=
  match res with inl _ => None | inr e => Some e end.

Section HostSystemHelper.

(** Helpers of other packages of the provider, and of govmomi, that the
    code below calls; they are kept abstract. *)

(** [viapi.IsManagedObjectNotFoundError]: the classification of an error
    as the fault "managed object not found". *)
Variable IsManagedObjectNotFoundError : error -> bool.

(** [viapi.VimValidateVirtualCenter]: [nil] on a vCenter connection. *)
Variable VimValidateVirtualCenter : Client -> option error.

(** [host.Name()] of govmomi, computed from the handle. *)
Variable Name : HostSystem -> string.

(** [int32(timeout.Seconds())] for a [time.Duration] in nanoseconds. *)
Variable int32_Seconds : Z -> Z.

(** [iscsi.GetIscsiSoftwareAdater]. *)
Variable GetIscsiSoftwareAdater :
  mo_HostStorageSystem -> string -> IscsiAdapter + error.

(** [FromID] locates a host by its managed object reference ID.  The log
    lines of the Go code are left out throughout. *)
Definition FromID (client : Client) (id : string) : Prog (HostSystem + error) :=
  let ref := {| ref_Type := "HostSystem"; ref_Value := id |} in
  res <- finder_ObjectReference client ref;;
  match res with
  | inr err => Ret (inr (FromApi err))
  | inl hs => h <- assert_HostSystem hs;; Ret (inl h)
  end.

(** The inner loop of [FromHostname], over the hosts of one datacenter. *)
Fixpoint FromHostname_hosts (client : Client) (hostname : string)
    (moHosts : list mo_HostSystem) (st : scan) : Prog (flow scan error) :=
  match moHosts with
  | [] => Ret (Continue st)
  | h :: rest =>
      if String.eqb (mo_Name h) hostname then
        let counter' := counter st + 1 in
        if counter' >? 1 then
          Ret (Return (Errorf ("more than one host with hostname '" +:+ hostname
                               +:+ "' was found")))
        else
          res <- finder_ObjectReference client (Self h);;
          match res with
          | inr err =>
              Ret (Return (Errorf ("error trying to retrieve host object reference: "
                                   +:+ Error (FromApi err))))
          | inl ref =>
              x <- assert_HostSystem ref;;
              FromHostname_hosts client hostname rest
                {| counter := counter'; host := Some x |}
          end
      else FromHostname_hosts client hostname rest st
  end.

(** The outer loop of [FromHostname], over the datacenters. *)
Fixpoint FromHostname_datacenters (client : Client) (hostname : string)
    (dcs : list Datacenter) (st : scan) : Prog (flow scan error) :=
  match dcs with
  | [] => Ret (Continue st)
  | dc :: rest =>
      v <- call (CreateContainerView (dc_Reference dc) ["HostSystem"] true);;
      match v with
      | inr err =>
          Exit ("error trying to create container: " +:+ Error (FromApi err)) 1
      | inl dcView =>
          hs <- call (RetrieveWithFilter dcView ["HostSystem"] ["name"]);;
          match hs with
          | inr err =>
              Exit ("error trying to retrieve hosts: " +:+ Error (FromApi err)) 1
          | inl moHosts =>
              f <- FromHostname_hosts client hostname moHosts st;;
              match f with
              | Return e => Ret (Return e)
              | Continue st' => FromHostname_datacenters client hostname rest st'
              end
          end
      end
  end.

(** [FromHostname] locates a host by hostname. *)
Definition FromHostname (client : Client) (hostname : string)
  : Prog (HostSystem + error) :=
  l <- call (Finder_DatacenterList "*");;
  match l with
  | inr err => Ret (inr (FromApi err))
  | inl dcs =>
      f <- FromHostname_datacenters client hostname dcs
             {| counter := 0; host := None |};;
      match f with
      | Return e => Ret (inr e)
      | Continue st =>
          match host st with
          | Some h => Ret (inl h)
          | None => Ret (inr ErrHostnameNotFound)
          end
      end
  end.

(** [FromHostnameOrID] locates a host by ID or by hostname, depending on
    the attributes of the resource data. *)
Definition FromHostnameOrID (client : Client) (d : ResourceData)
  : Prog (option HostSystem * HostReturn * option error) :=
  if attr_present d "host_system_id" then
    let tfIDName := "host_system_id" in
    tfVal <- assert_string (Get d tfIDName);;
    res <- FromID client tfVal;;
    Ret (value_of res, {| IDName := tfIDName; Value := tfVal |}, err_of res)
  else if attr_present d "hostname" then
    let tfIDName := "hostname" in
    tfVal <- assert_string (Get d tfIDName);;
    res <- FromHostname client tfVal;;
    Ret (value_of res, {| IDName := tfIDName; Value := tfVal |}, err_of res)
  else
    Ret (None, HostReturn_zero,
         Some (Errorf "no valid tf id attribute passed.  One of the following should be passed from resource: 'host_system_id', 'hostname'")).

(** [CheckIfHostnameOrID] finds out whether an identifier is the ID or
    the hostname of a host. *)
Definition CheckIfHostnameOrID (client : Client) (tfID : string)
  : Prog (option HostSystem * HostReturn * option error) :=
  res <- FromID client tfID;;
  match res with
  | inr err =>
      if negb (IsManagedObjectNotFoundError err) then
        Ret (None, HostReturn_zero, Some err)
      else
        res2 <- FromHostname client tfID;;
        match res2 with
        | inr err2 =>
            if negb (errors_Is err2 ErrHostnameNotFound) then
              Ret (None, HostReturn_zero, Some err2)
            else
              Ret (None, HostReturn_zero, Some ErrHostnameOrIDNotFound)
        | inl host =>
            Ret (Some host, {| IDName := "hostname"; Value := Name host |}, None)
        end
  | inl host =>
      Ret (Some host,
           {| IDName := "host_system_id"; Value := ref_Value (Reference host) |},
           None)
  end.

(** [Properties] fetches the properties of a host. *)
Definition Properties (host : HostSystem) : Prog (mo_HostSystem + error) :=
  p <- call (HostSystem_Properties (Reference host));;
  match p with
  | inr err => Ret (inr (FromApi err))
  | inl props => Ret (inl props)
  end.

(** [HostStorageSystemProperties]. *)
Definition HostStorageSystemProperties (hss : HostStorageSystem)
  : Prog (mo_HostStorageSystem + error) :=
  p <- call (HostStorageSystem_Properties (hss_Reference hss));;
  match p with
  | inr err => Ret (inr (FromApi err))
  | inl props => Ret (inl props)
  end.

(** [GetHostStorageSystemFromHost]; the dereference of the storage system
    pointer panics on [nil]. *)
Definition GetHostStorageSystemFromHost (client : Client) (host : HostSystem)
  : Prog (HostStorageSystem + error) :=
  p <- Properties host;;
  match p with
  | inr err =>
      Ret (inr (Errorf ("error trying to retrieve host system properties for host '"
                        +:+ Name host +:+ "': " +:+ Error err)))
  | inl hsProps =>
      match ConfigManager_StorageSystem hsProps with
      | None => Panic
      | Some ref => Ret (inl {| hss_Reference := ref |})
      end
  end.

(** [GetHostStorageSystemPropertiesFromHost]. *)
Definition GetHostStorageSystemPropertiesFromHost (client : Client)
    (host : HostSystem) : Prog (mo_HostStorageSystem + error) :=
  h <- GetHostStorageSystemFromHost client host;;
  match h with
  | inr err => Ret (inr err)
  | inl hss =>
      p <- HostStorageSystemProperties hss;;
      match p with
      | inr err =>
          Ret (inr (Errorf ("error trying to retrieve host storage system properties for host '"
                            +:+ Name host +:+ "': " +:+ Error err)))
      | inl hssProps => Ret (inl hssProps)
      end
  end.

(** [HostInMaintenance]. *)
Definition HostInMaintenance (host : HostSystem) : Prog (bool + error) :=
  p <- Properties host;;
  match p with
  | inr err => Ret (inr err)
  | inl hostObject => Ret (inl (Runtime_InMaintenanceMode hostObject))
  end.

(** [EnterMaintenanceMode] puts a host into maintenance mode. *)
Definition EnterMaintenanceMode (host : HostSystem) (timeout : Z)
    (evacuate : bool) : Prog (option error) :=
  let evacuate :=
    match VimValidateVirtualCenter (Client_of host) with
    | Some _ => false
    | None => evacuate
    end in
  m <- HostInMaintenance host;;
  match m with
  | inr err => Ret (Some err)
  | inl maintMode =>
      if maintMode then Ret None
      else
        t <- call (HostSystem_EnterMaintenanceMode (Reference host)
                     (int32_Seconds timeout) evacuate);;
        match t with
        | inr err => Ret (Some (FromApi err))
        | inl task =>
            w <- call (Task_Wait task);;
            match w with
            | Some err => Ret (Some (FromApi err))
            | None =>
                p <- call (Task_Properties task);;
                match p with
                | inr err => Ret (Some (FromApi err))
                | inl to =>
                    if negb (String.eqb (Info_State to) "success") then
                      Ret (Some (Errorf ("error while putting host("
                                         +:+ ref_String (Reference host)
                                         +:+ ") in maintenance mode: "
                                         +:+ Info_Error to)))
                    else Ret None
                end
            end
        end
  end.

(** [ExitMaintenanceMode] takes a host out of maintenance mode. *)
Definition ExitMaintenanceMode (host : HostSystem) (timeout : Z)
  : Prog (option error) :=
  m <- HostInMaintenance host;;
  match m with
  | inr err => Ret (Some err)
  | inl maintMode =>
      if negb maintMode then Ret None
      else
        t <- call (HostSystem_ExitMaintenanceMode (Reference host)
                     (int32_Seconds timeout));;
        match t with
        | inr err => Ret (Some (FromApi err))
        | inl task =>
            w <- call (Task_Wait task);;
            match w with
            | Some err => Ret (Some (FromApi err))
            | None =>
                p <- call (Task_Properties task);;
                match p with
                | inr err => Ret (Some (FromApi err))
                | inl to =>
                    if negb (String.eqb (Info_State to) "success") then
                      Ret (Some (Errorf ("error while getting host("
                                         +:+ ref_String (Reference host)
                                         +:+ ") out of maintenance mode: "
                                         +:+ Info_Error to)))
                    else Ret None
                end
            end
        end
  end.

(** ** The iSCSI software adapter resource *)

(** [resourceVSphereIscsiSoftwareAdapterImport]: the import ID has the
    form [<host_system_id | hostname>:<adapter_name>].  The Go function
    changes [d] in place and returns it in a slice. *)
Definition resourceVSphereIscsiSoftwareAdapterImport (client : Client)
    (d : ResourceData) : Prog (list ResourceData + error) :=
  let idSplit := strings_Split_colon (rd_Id d) in
  if negb (Nat.eqb (length idSplit) 2) then
    Ret (inr (Errorf "invalid import format.  Format should be <host_system_id | hostname>:<adapter_name>"))
  else
    x <- CheckIfHostnameOrID client (nth 0 idSplit "");;
    match x with
    | (_, _, Some err) =>
        Ret (inr (Errorf ("error retrieving host for iscsi import: " +:+ Error err)))
    | (None, _, None) => Panic
    | (Some host, hr, None) =>
        p <- GetHostStorageSystemPropertiesFromHost client host;;
        match p with
        | inr err =>
            Ret (inr (Errorf ("error retrieving host system storage properties on import for host '"
                              +:+ Name host +:+ "': " +:+ Error err)))
        | inl hssProps =>
            match GetIscsiSoftwareAdater hssProps (Name host) with
            | inr err =>
                Ret (inr (Errorf ("error retrieving iscsi software adapter on import for host '"
                                  +:+ Name host +:+ "': " +:+ Error err)))
            | inl adapter =>
                let d1 := SetId d (Value hr +:+ ":" +:+ Device adapter) in
                let d2 := Set_ d1 (IDName hr) (VString (Value hr)) in
                Ret (inl [d2])
            end
        end
    end.

(** ** The vCenter DNS resource *)

Definition vsphereVcenterDnsID : string := "tf-vcenter-dns".
Definition dnsServersPath : string := "/appliance/networking/dns/servers".
Definition http_MethodPut : string := "PUT".

(** [vsphereVcenterDNSUpdate]: the first payload is the one of older
    vCenter versions, the second the one of newer versions. *)
Definition vsphereVcenterDNSUpdate (d : ResourceData) : Prog (option error) :=
  servers <- assert_Set_List (Get d "servers");;
  e1 <- call (RestUpdateRequest http_MethodPut dnsServersPath
                (JObject [("config",
                           JObject [("mode", JString "is_static");
                                    ("servers", JList (map JString servers))])]));;
  match e1 with
  | None => Ret None
  | Some _ =>
      servers <- assert_Set_List (Get d "servers");;
      e2 <- call (RestUpdateRequest http_MethodPut dnsServersPath
                    (JObject [("mode", JString "is_static");
                              ("servers", JList (map JString servers))]));;
      match e2 with
      | Some err =>
          Ret (Some (Errorf ("error making update request for dns server config: "
                             +:+ Error err)))
      | None => Ret None
      end
  end.

(** [resourceVSphereVcenterDNSCreate] and [resourceVSphereVcenterDNSUpdate];
    the resource data after the call is returned next to the error. *)
Definition resourceVSphereVcenterDNSCreate (d : ResourceData)
  : Prog (ResourceData * option error) :=
  err <- vsphereVcenterDNSUpdate d;;
  match err with
  | Some e => Ret (d, Some e)
  | None => Ret (SetId d vsphereVcenterDnsID, None)
  end.

Definition resourceVSphereVcenterDNSUpdate (d : ResourceData)
  : Prog (ResourceData * option error) :=
  err <- vsphereVcenterDNSUpdate d;;
  Ret (d, err).

End HostSystemHelper.

(** ** More of the provider *)

(** [types.DatastoreHostMount]: the host on which a datastore is mounted
    and the access mode of the mount. *)
Record DatastoreHostMount : Type := {
  Key : ManagedObjectReference;
  MountInfo_AccessMode : string
}.

Section ProviderRest.

Variable IsManagedObjectNotFoundError : error -> bool.
Variable Name : HostSystem -> string.
Variable GetIscsiSoftwareAdater :
  mo_HostStorageSystem -> string -> IscsiAdapter + error.

(** [hostSystemNameFromID] returns the name of a host via its managed
    object reference ID. *)
Definition hostSystemNameFromID (client : Client) (id : string)
  : Prog (string + error) :=
  res <- FromID client id;;
  match res with
  | inr err => Ret (inr err)
  | inl hs => Ret (inl (Name hs))
  end.

(** [NameOrID]: the name of the host, or the ID when the name cannot be
    fetched. *)
Definition NameOrID (client : Client) (id : string) : Prog string :=
  res <- hostSystemNameFromID client id;;
  match res with
  | inr _ => Ret id
  | inl name => Ret name
  end.

(** [GetConnectionState]. *)
Definition GetConnectionState (host : HostSystem) : Prog (string + error) :=
  p <- Properties host;;
  match p with
  | inr err => Ret (inr err)
  | inl hostProps => Ret (inl (Runtime_ConnectionState hostProps))
  end.

(** [iscsiSoftwareAdapterRead]: the Go function changes [d] in place; the
    resource data after the call is returned next to the error.  A [nil]
    host next to a [nil] error would be dereferenced, and so is the pointer
    [hssProps.StorageDeviceInfo]: on [nil] the function panics. *)
Definition iscsiSoftwareAdapterRead (client : Client) (d : ResourceData)
    (isDataSource : bool) : Prog (ResourceData * option error) :=
  x <- FromHostnameOrID client d;;
  match x with
  | (_, _, Some err) =>
      Ret (d, Some (Errorf ("error retrieving host for iscsi read: " +:+ Error err)))
  | (None, _, None) => Panic
  | (Some host, _, None) =>
      p <- GetHostStorageSystemPropertiesFromHost Name client host;;
      match p with
      | inr err => Ret (d, Some err)
      | inl hssProps =>
          match StorageDeviceInfo hssProps with
          | None => Panic
          | Some info =>
              if SoftwareInternetScsiEnabled info then
                match GetIscsiSoftwareAdater hssProps (Name host) with
                | inr err => Ret (d, Some err)
                | inl adapter =>
                    let d1 := Set_ d "iscsi_name" (VString (IScsiName adapter)) in
                    let d2 := Set_ d1 "adapter_id" (VString (Device adapter)) in
                    Ret (d2, None)
                end
              else if isDataSource then
                Ret (d, Some (Errorf ("iscsi software adapter is not enabled for host '"
                                      +:+ Name host +:+ "'")))
              else Ret (d, None)
          end
      end
  end.

(** [resourceVSphereIscsiSoftwareAdapterRead]. *)
Definition resourceVSphereIscsiSoftwareAdapterRead (client : Client)
    (d : ResourceData) : Prog (ResourceData * option error) :=
  iscsiSoftwareAdapterRead client d false.

(** [resourceVSphereVcenterDNSDelete]. *)
Definition resourceVSphereVcenterDNSDelete : Prog (option error) :=
  e <- call (RestUpdateRequest http_MethodPut dnsServersPath
               (JObject [("config",
                          JObject [("mode", JString "is_static");
                                   ("servers", JList [])])]));;
  match e with
  | Some err => Ret (Some (Errorf ("error deleting dns server config: " +:+ Error err)))
  | None => Ret None
  end.

(** The loop of [resourceVSphereNasDatastoreRead] over [props.Host] that
    collects the mounted hosts, started with the hosts collected so far. *)
Fixpoint nasMountedHosts (client : Client) (hostTfID : string)
    (mounts : list DatastoreHostMount) (mountedHosts : list string)
  : Prog (list string + error) :=
  match mounts with
  | [] => Ret (inl mountedHosts)
  | mount :: rest =>
      if String.eqb hostTfID "host_system_ids" then
        nasMountedHosts client hostTfID rest
          (mountedHosts ++ [ref_Value (Key mount)])%list
      else
        x <- CheckIfHostnameOrID IsManagedObjectNotFoundError Name client
               (ref_Value (Key mount));;
        match x with
        | (_, _, Some err) =>
            Ret (inr (Errorf ("error finding host for datastore: " +:+ Error err)))
        | (None, _, None) => Panic
        | (Some host, _, None) =>
            nasMountedHosts client hostTfID rest (mountedHosts ++ [Name host])%list
        end
  end.

(** The loop of [resourceVSphereNasDatastoreImport] over [props.Host] that
    settles the access mode, started with the access mode found so far.
    The error is made by [errors.New]. *)
Fixpoint nasImportAccessMode (mounts : list DatastoreHostMount) (accessMode : string)
  : string + error :=
  match mounts with
  | [] => inl accessMode
  | hostMount :: rest =>
      if String.eqb accessMode "" then
        nasImportAccessMode rest (MountInfo_AccessMode hostMount)
      else if negb (String.eqb accessMode "")
              && negb (String.eqb accessMode (MountInfo_AccessMode hostMount)) then
        inr (Errorf "access_mode is inconsistent across configured hosts")
      else nasImportAccessMode rest accessMode
  end.

End ProviderRest.

(** The number of colons of a string. *)
Fixpoint colons (s : string) : nat :=
  match s with
  | EmptyString => 0
  | String ch rest => (if Ascii.eqb ch ":" then 1 else 0) + colons rest
  end.

(** The requests of kind [Finder_Element]. *)
Definition is_Element (rq : Request) : bool :=
  match rq with Finder_Element _ => true | _ => false end.

(** The number of object lookups in a list of requests. *)
Definition lookups (t : list Request) : nat := length (List.filter is_Element t).

(** The object lookups that a scan of [FromHostname] may still make: one
    as long as no host with the name was counted, none afterwards. *)
Definition lookup_budget (st : scan) : nat :=
  if (1 <=? counter st)%Z then 0%nat else 1%nat.

(** ** Notions used by the properties *)

(** The reference that [FromID] builds from an ID. *)
Definition host_ref (id : string) : ManagedObjectReference :=
  {| ref_Type := "HostSystem"; ref_Value := id |}.

(** The handle that the finder builds for an element. *)
Definition handle (client : Client) (ref : ManagedObjectReference) (e : Element)
  : HostSystem :=
  {| hs_Common := {| c := client; r := ref; InventoryPath := el_Path e |} |}.

(** What [CheckIfHostnameOrID] returns once [FromHostname] has returned. *)
Definition after_hostname (Name : HostSystem -> string) (res2 : HostSystem + error)
  : option HostSystem * HostReturn * option error :=
  match res2 with
  | inr err2 =>
      if negb (errors_Is err2 ErrHostnameNotFound)
      then (None, HostReturn_zero, Some err2)
      else (None, HostReturn_zero, Some ErrHostnameOrIDNotFound)
  | inl host => (Some host, {| IDName := "hostname"; Value := Name host |}, None)
  end.

(** The outcome of a program against fixed answers. *)
Definition eval {T : Type} (o : Oracle) (p : Prog T) : Outcome T :=
  outcome (run (static o) p tt).

(** The lookup that a [HostReturn] stands for, with the result packed the
    way [FromHostnameOrID] packs it. *)
Definition lookup_by (client : Client) (hr : HostReturn)
  : Prog (option HostSystem * HostReturn * option error) :=
  res <- (if String.eqb (IDName hr) "host_system_id"
          then FromID client (Value hr)
          else FromHostname client (Value hr));;
  Ret (value_of res, hr, err_of res).

(** The resource data that the import leaves behind for a resolution. *)
Definition imported (d : ResourceData) (hr : HostReturn) (adapter : IscsiAdapter)
  : ResourceData :=
  Set_ (SetId d (Value hr +:+ ":" +:+ Device adapter)) (IDName hr) (VString (Value hr)).

(** ** The hosts that a session sees *)

(** The hosts of the datacenters [dcs], datacenter after datacenter, as a
    server without state lists them through container views of kind
    ["HostSystem"]; [None] when a view cannot be created or read. *)
Fixpoint hosts_of_datacenters (o : Oracle) (dcs : list Datacenter)
  : option (list mo_HostSystem) :=
  match dcs with
  | [] => Some []
  | dc :: rest =>
      match o (CreateContainerView (dc_Reference dc) ["HostSystem"] true) with
      | inr _ => None
      | inl dcView =>
          match o (RetrieveWithFilter dcView ["HostSystem"] ["name"]) with
          | inr _ => None
          | inl moHosts =>
              match hosts_of_datacenters o rest with
              | None => None
              | Some more => Some (moHosts ++ more)%list
              end
          end
      end
  end.

(** All hosts of all datacenters that the session can list. *)
Definition visible_hosts (o : Oracle) : option (list mo_HostSystem) :=
  match o (Finder_DatacenterList "*") with
  | inr _ => None
  | inl dcs => hosts_of_datacenters o dcs
  end.

(** The hosts of the datacenters whose hosts can be listed, whatever
    happens with the other datacenters. *)
Fixpoint listed_in (o : Oracle) (dcs : list Datacenter) : list mo_HostSystem :=
  match dcs with
  | [] => []
  | dc :: rest =>
      match o (CreateContainerView (dc_Reference dc) ["HostSystem"] true) with
      | inr _ => listed_in o rest
      | inl dcView =>
          match o (RetrieveWithFilter dcView ["HostSystem"] ["name"]) with
          | inr _ => listed_in o rest
          | inl moHosts => (moHosts ++ listed_in o rest)%list
          end
      end
  end.

Definition listed_hosts (o : Oracle) : list mo_HostSystem :=
  match o (Finder_DatacenterList "*") with
  | inr _ => []
  | inl dcs => listed_in o dcs
  end.

(** The handle in a scan state of [FromHostname] was built for a host
    among [seen] that has the name, from the answer to its lookup. *)
Definition found_in (o : Oracle) (client : Client) (hostname : string)
    (seen : list mo_HostSystem) (st : scan) : Prop :=
  forall x, host st = Some x ->
    exists m e, In m seen /\ mo_Name m = hostname /\
                o (Finder_Element (Self m)) = inl e /\
                x = handle client (Self m) e.

(** The name of a handle is the name under which the host is listed. *)
Definition names_agree (Name : HostSystem -> string) (o : Oracle) (client : Client)
    (hs : list mo_HostSystem) : Prop :=
  forall m e, In m hs -> o (Finder_Element (Self m)) = inl e ->
              Name (handle client (Self m) e) = mo_Name m.

(** The hosts of a list that carry a given name. *)
Definition named (hostname : string) (hs : list mo_HostSystem) : list mo_HostSystem :=
  List.filter (fun m => String.eqb (mo_Name m) hostname) hs.

(** Host entries refer to objects of type ["HostSystem"]. *)
Definition host_typed (hs : list mo_HostSystem) : Prop :=
  Forall (fun m => ref_Type (Self m) = "HostSystem") hs.

(** Some host with the name refers to an object of another type. *)
Definition ill_typed_match (hostname : string) (hs : list mo_HostSystem) : Prop :=
  exists m, In m (named hostname hs) /\ ref_Type (Self m) <> "HostSystem".

(** The state of the scan of [FromHostname] after the hosts [seen]: the
    counter is the number of hosts with the name, and the handle, if any,
    is the one of the only such host. *)
Definition scanned (hostname : string) (seen : list mo_HostSystem) (st : scan) : Prop :=
  counter st = Z.of_nat (length (named hostname seen)) /\
  match host st with
  | None => named hostname seen = []
  | Some x => exists m, named hostname seen = [m] /\ Reference x = Self m
  end.

(** Requests by kind. *)
Definition is_DatacenterList (rq : Request) : bool :=
  match rq with Finder_DatacenterList _ => true | _ => false end.

Definition is_mode_change (rq : Request) : bool :=
  match rq with
  | HostSystem_EnterMaintenanceMode _ _ _ => true
  | HostSystem_ExitMaintenanceMode _ _ => true
  | _ => false
  end.

Definition is_dns_put (rq : Request) : bool :=
  match rq with
  | RestUpdateRequest method path _ =>
      String.eqb method "PUT" && String.eqb path "/appliance/networking/dns/servers"
  | _ => false
  end.

(** The two payloads of the DNS update. *)
Definition dns_payload_nested (servers : list string) : json :=
  JObject [("config", JObject [("mode", JString "is_static");
                               ("servers", JList (map JString servers))])].

Definition dns_payload_flat (servers : list string) : json :=
  JObject [("mode", JString "is_static");
           ("servers", JList (map JString servers))].

(** ** A small vCenter to run the code against *)

Module Sample.

(** The abstract helpers, made concrete. *)
Definition IsManagedObjectNotFoundError (e : error) : bool :=
  match e with
  | FromApi (ApiError text) => String.eqb text "ManagedObjectNotFound"
  | _ => false
  end.

Definition VimValidateVirtualCenter (cl : Client) : option error :=
  if String.eqb (ApiType cl) "VirtualCenter" then None
  else Some (Errorf "this operation is only supported on vCenter").

(** Sample inventory paths are host names. *)
Definition Name (h : HostSystem) : string := InventoryPath (hs_Common h).

Definition int32_Seconds (ns : Z) : Z := ns / 1000000000.

Definition GetIscsiSoftwareAdater (p : mo_HostStorageSystem) (hostname : string)
  : IscsiAdapter + error :=
  match StorageDeviceInfo p with
  | Some {| SoftwareInternetScsiEnabled := true |} =>
      inl {| Device := "vmhba64"; IScsiName := "iqn.1998-01.com.vmware:" +:+ hostname |}
  | _ =>
      inr (Errorf ("could not find iscsi software adapter for host '" +:+ hostname +:+ "'"))
  end.

Definition client : Client := {| ApiType := "VirtualCenter" |}.

Definition mkHost (id name : string) (maint : bool) : mo_HostSystem :=
  {| Self := MoRef "HostSystem" id;
     mo_Name := name;
     Runtime_InMaintenanceMode := maint;
     Runtime_ConnectionState := "connected";
     ConfigManager_StorageSystem := Some (MoRef "HostStorageSystem" ("storageSystem-" +:+ id)) |}.

(** A vCenter: datacenters with their hosts, whether the finder can be
    reached, whether container views can be created, and whether the DNS
    endpoint wants the flat payload. *)
Record vcenter : Type := {
  vc_datacenters : list (Datacenter * list mo_HostSystem);
  vc_finder_up : bool;
  vc_views_up : bool;
  vc_flat_dns : bool
}.

Definition vc_hosts (vc : vcenter) : list mo_HostSystem :=
  concat (map snd (vc_datacenters vc)).

Definition is_config_payload (body : json) : bool :=
  match body with
  | JObject ((key, _) :: _) => String.eqb key "config"
  | _ => false
  end.

(** The answers of the vCenter. *)
Definition simulate (vc : vcenter) : Oracle := fun rq =>
  match rq as rq0 return Response rq0 with
  | Finder_Element ref =>
      if vc_finder_up vc then
        match List.find (fun m => ref_eqb (Self m) ref) (vc_hosts vc) with
        | Some m => inl {| el_Path := mo_Name m |}
        | None => inr (ApiError "ManagedObjectNotFound")
        end
      else inr (ApiError "connection reset by peer")
  | Finder_DatacenterList _ =>
      if vc_finder_up vc then inl (map fst (vc_datacenters vc))
      else inr (ApiError "connection reset by peer")
  | CreateContainerView container _ _ =>
      if vc_views_up vc
      then inl {| view_Reference := MoRef "ContainerView" (ref_Value container) |}
      else inr (ApiError "connection reset by peer")
  | RetrieveWithFilter v _ _ =>
      match List.find (fun p => String.eqb (ref_Value (dc_Reference (fst p)))
                                  (ref_Value (view_Reference v)))
              (vc_datacenters vc) with
      | Some p => inl (snd p)
      | None => inr (ApiError "ManagedObjectNotFound")
      end
  | HostSystem_Properties ref =>
      match List.find (fun m => ref_eqb (Self m) ref) (vc_hosts vc) with
      | Some m => inl m
      | None => inr (ApiError "ManagedObjectNotFound")
      end
  | HostStorageSystem_Properties ref =>
      inl {| hss_Self := ref;
             StorageDeviceInfo := Some {| SoftwareInternetScsiEnabled := true |} |}
  | HostSystem_EnterMaintenanceMode ref _ _ =>
      inl {| task_Reference := MoRef "Task" ("enter-" +:+ ref_Value ref) |}
  | HostSystem_ExitMaintenanceMode ref _ =>
      inl {| task_Reference := MoRef "Task" ("exit-" +:+ ref_Value ref) |}
  | Task_Wait _ => None
  | Task_Properties _ => inl {| Info_State := "success"; Info_Error := "" |}
  | RestUpdateRequest _ _ body =>
      if vc_flat_dns vc && is_config_payload body
      then Some (Errorf "400 Bad Request")
      else None
  end.

Definition dcEast : Datacenter := {| dc_Reference := MoRef "Datacenter" "datacenter-2" |}.
Definition dcWest : Datacenter := {| dc_Reference := MoRef "Datacenter" "datacenter-7" |}.

(** Two datacenters, every host name used once. *)
Definition lab : vcenter :=
  {| vc_datacenters :=
       [(dcEast, [mkHost "host-10" "esxi-01" true; mkHost "host-11" "esxi-02" false]);
        (dcWest, [mkHost "host-20" "esxi-03" false])];
     vc_finder_up := true;
     vc_views_up := true;
     vc_flat_dns := true |}.

(** The same name in both datacenters. *)
Definition twins : vcenter :=
  {| vc_datacenters :=
       [(dcEast, [mkHost "host-10" "esxi-01" false]);
        (dcWest, [mkHost "host-20" "esxi-01" false])];
     vc_finder_up := true;
     vc_views_up := true;
     vc_flat_dns := false |}.

(** A vCenter whose view manager is out of reach. *)
Definition broken_views : vcenter :=
  {| vc_datacenters := [(dcEast, [mkHost "host-10" "esxi-01" false])];
     vc_finder_up := true;
     vc_views_up := false;
     vc_flat_dns := false |}.

(** A vCenter that drops every finder request. *)
Definition unreachable : vcenter :=
  {| vc_datacenters := [(dcEast, [mkHost "host-10" "esxi-01" false])];
     vc_finder_up := false;
     vc_views_up := true;
     vc_flat_dns := false |}.

(** Host handles as the finder of [client] builds them. *)
Definition mkHandle (id path : string) : HostSystem :=
  {| hs_Common := {| c := client; r := MoRef "HostSystem" id; InventoryPath := path |} |}.

Definition attrs (l : list (string * tfvalue)) : gmap string tfvalue :=
  list_to_map l.

Definition by_id : ResourceData :=
  {| rd_Id := "host-10:vmhba64";
     rd_Attrs := attrs [("host_system_id", VString "host-10");
                        ("hostname", VString "esxi-02")] |}.

Definition by_hostname : ResourceData :=
  {| rd_Id := "esxi-03:vmhba64";
     rd_Attrs := attrs [("host_system_id", VString "");
                        ("hostname", VString "esxi-03")] |}.

Definition by_unknown_id : ResourceData :=
  {| rd_Id := "host-99:vmhba64";
     rd_Attrs := attrs [("host_system_id", VString "host-99")] |}.

Definition by_nothing : ResourceData :=
  {| rd_Id := ""; rd_Attrs := attrs [("host_system_id", VString "")] |}.

Definition to_import : ResourceData :=
  {| rd_Id := "esxi-03:vmhba64"; rd_Attrs := attrs [] |}.

Definition dns_servers : list string := ["10.0.0.53"; "10.0.1.53"].

Definition dns : ResourceData :=
  {| rd_Id := "tf-vcenter-dns";
     rd_Attrs := attrs [("servers", VSet dns_servers)] |}.

(** The first request of the DNS update for these servers. *)
Definition dns_put_nested : Request :=
  RestUpdateRequest "PUT" "/appliance/networking/dns/servers"
    (dns_payload_nested dns_servers).

(** The server of a vCenter as a handler. *)
Definition server (vc : vcenter) : Handler unit := static (simulate vc).

(** More sample data: an import ID with another adapter name, a
    connection to a single ESXi host, vCenters whose hosts have the
    software adapter switched off or whose views fail, an empty list of
    DNS servers, and the mounts of a NAS datastore. *)
Definition to_import_other : ResourceData :=
  {| rd_Id := "esxi-03:vmhba1"; rd_Attrs := attrs [] |}.

Definition vmhba64 : IscsiAdapter :=
  {| Device := "vmhba64"; IScsiName := "iqn.1998-01.com.vmware:esxi-03" |}.

Definition esxi : Client := {| ApiType := "HostAgent" |}.

Definition esxiHandle (id path : string) : HostSystem :=
  {| hs_Common := {| c := esxi; r := MoRef "HostSystem" id; InventoryPath := path |} |}.

Definition iscsi_off (o : Oracle) : Oracle := fun rq =>
  match rq as rq0 return Response rq0 -> Response rq0 with
  | HostStorageSystem_Properties ref =>
      fun _ => inl {| hss_Self := ref;
                      StorageDeviceInfo := Some {| SoftwareInternetScsiEnabled := false |} |}
  | _ => fun answer => answer
  end (o rq).

(** Three datacenters, the same name in the first and in the last. *)
Definition dcMid : Datacenter := {| dc_Reference := MoRef "Datacenter" "datacenter-5" |}.

Definition far_twins : vcenter :=
  {| vc_datacenters :=
       [(dcEast, [mkHost "host-10" "esxi-01" false]);
        (dcMid, [mkHost "host-15" "esxi-05" false]);
        (dcWest, [mkHost "host-20" "esxi-01" false])];
     vc_finder_up := true;
     vc_views_up := true;
     vc_flat_dns := false |}.

(** Three datacenters, the same name in the first and in the second. *)
Definition near_twins : vcenter :=
  {| vc_datacenters :=
       [(dcEast, [mkHost "host-10" "esxi-01" false]);
        (dcMid, [mkHost "host-15" "esxi-01" false]);
        (dcWest, [mkHost "host-20" "esxi-03" false])];
     vc_finder_up := true;
     vc_views_up := true;
     vc_flat_dns := false |}.

(** A vCenter on which the view of one datacenter cannot be created. *)
Definition view_down (container : string) (o : Oracle) : Oracle := fun rq =>
  match rq as rq0 return Response rq0 -> Response rq0 with
  | CreateContainerView c _ _ =>
      fun answer =>
        if String.eqb (ref_Value c) container
        then inr (ApiError "connection reset by peer")
        else answer
  | _ => fun answer => answer
  end (o rq).

(** The view between the two hosts named ["esxi-01"] is down. *)
Definition outage_between : Oracle := view_down "datacenter-5" (simulate far_twins).

(** The view behind the two hosts named ["esxi-01"] is down. *)
Definition outage_behind : Oracle := view_down "datacenter-7" (simulate near_twins).

(** An import by the ID of the host. *)
Definition to_import_by_id : ResourceData :=
  {| rd_Id := "host-20:vmhba64"; rd_Attrs := attrs [] |}.

(** What the import of ["esxi-03:vmhba64"] leaves behind. *)
Definition imported_by_name : ResourceData :=
  {| rd_Id := "esxi-03:vmhba64";
     rd_Attrs := attrs [("hostname", VString "esxi-03")] |}.

(** The storage system of the host ["host-20"] as the sample vCenter
    answers. *)
Definition storage_20 : mo_HostStorageSystem :=
  {| hss_Self := MoRef "HostStorageSystem" "storageSystem-host-20";
     StorageDeviceInfo := Some {| SoftwareInternetScsiEnabled := true |} |}.

(** A vCenter that answers without the storage device information. *)
Definition iscsi_unknown (o : Oracle) : Oracle := fun rq =>
  match rq as rq0 return Response rq0 -> Response rq0 with
  | HostStorageSystem_Properties ref =>
      fun _ => inl {| hss_Self := ref; StorageDeviceInfo := None |}
  | _ => fun answer => answer
  end (o rq).

Definition dns_none : ResourceData :=
  {| rd_Id := "tf-vcenter-dns"; rd_Attrs := attrs [("servers", VSet [])] |}.

Definition mounts : list DatastoreHostMount :=
  [ {| Key := MoRef "HostSystem" "host-10"; MountInfo_AccessMode := "readWrite" |};
    {| Key := MoRef "HostSystem" "host-20"; MountInfo_AccessMode := "readWrite" |} ].

Definition mounts_late_mode : list DatastoreHostMount :=
  [ {| Key := MoRef "HostSystem" "host-10"; MountInfo_AccessMode := "" |};
    {| Key := MoRef "HostSystem" "host-20"; MountInfo_AccessMode := "readOnly" |} ].

Definition mounts_unknown : list DatastoreHostMount :=
  [ {| Key := MoRef "HostSystem" "host-99"; MountInfo_AccessMode := "readWrite" |} ].


End Sample.

(** ** Properties *)

Unset Implicit Arguments.

Section Correctness.

Variable IsManagedObjectNotFoundError : error -> bool.
Variable VimValidateVirtualCenter : Client -> option error.
Variable Name : HostSystem -> string.
Variable int32_Seconds : Z -> Z.
Variable GetIscsiSoftwareAdater :
  mo_HostStorageSystem -> string -> IscsiAdapter + error.

(** A proof depends on the helpers that its statement names, and on no
    other. *)
#[local] Set Default Proof Using "Type".

(** *** Runs of composed programs *)

Lemma run_bind {W A B : Type} (h : Handler W) (m : Prog A) (f : A -> Prog B) (w : W) :
  run h (bind m f) w =
  match outcome (run h m w) with
  | Returned x =>
      let rest := run h (f x) (final (run h m w)) in
      {| outcome := outcome rest;
         trace := trace (run h m w) ++ trace rest;
         final := final rest |}
  | Exited out code =>
      {| outcome := Exited out code;
         trace := trace (run h m w); final := final (run h m w) |}
  | Panicked =>
      {| outcome := Panicked;
         trace := trace (run h m w); final := final (run h m w) |}
  end.
Proof.
  revert w. induction m as [x | rq k IH | out code | ]; intros w; simpl.
  - destruct (run h (f x) w); reflexivity.
  - rewrite IH. destruct (outcome (run h (k (h rq w).1) (h rq w).2)); reflexivity.
  - reflexivity.
  - reflexivity.
Qed.

(** [FromID] is one lookup of the reference made of the ID. *)
Lemma run_FromID (W : Type) (h : Handler W) (w : W) (client : Client) (id : string) :
  run h (FromID client id) w =
  {| outcome :=
       Returned match fst (h (Finder_Element (host_ref id)) w) with
                | inl e => inl (handle client (host_ref id) e)
                | inr err => inr (FromApi err)
                end;
     trace := [Finder_Element (host_ref id)];
     final := snd (h (Finder_Element (host_ref id)) w) |}.
Proof.
  unfold FromID, finder_ObjectReference, call, host_ref. simpl.
  destruct (h _ w) as [[e | err] w1]; reflexivity.
Qed.

(** [FromHostname] starts by listing the datacenters. *)
Lemma trace_FromHostname (W : Type) (h : Handler W) (w : W)
    (client : Client) (hostname : string) :
  exists rest,
    trace (run h (FromHostname client hostname) w) = Finder_DatacenterList "*" :: rest.
Proof.
  unfold FromHostname, call. simpl. eexists. reflexivity.
Qed.

(** The run of [CheckIfHostnameOrID], case by case on the answer to the
    lookup by ID. *)
Lemma run_CheckIfHostnameOrID (W : Type) (h : Handler W) (w : W)
    (client : Client) (tfID : string) :
  let first := Finder_Element (host_ref tfID) in
  let w1 := snd (h first w) in
  let res := run h (CheckIfHostnameOrID IsManagedObjectNotFoundError Name client tfID) w in
  match fst (h first w) with
  | inl e =>
      outcome res =
        Returned (Some (handle client (host_ref tfID) e),
                  {| IDName := "host_system_id"; Value := tfID |}, None)
      /\ trace res = [first] /\ final res = w1
  | inr err =>
      if IsManagedObjectNotFoundError (FromApi err) then
        let sub := run h (FromHostname client tfID) w1 in
        outcome res =
          match outcome sub with
          | Returned res2 => Returned (after_hostname Name res2)
          | Exited out code => Exited out code
          | Panicked => Panicked
          end
        /\ trace res = first :: trace sub /\ final res = final sub
      else
        outcome res = Returned (None, HostReturn_zero, Some (FromApi err))
        /\ trace res = [first] /\ final res = w1
  end.
Proof.
  intros first w1 res. subst res w1 first.
  unfold CheckIfHostnameOrID. rewrite run_bind, run_FromID.
  remember (FromHostname client tfID) as search. simpl.
  destruct (h (Finder_Element (host_ref tfID)) w) as [[e | err] w1]; simpl.
  - auto.
  - destruct (IsManagedObjectNotFoundError (FromApi err)); simpl.
    + rewrite run_bind.
      destruct (outcome (run h search w1)) as [[host | err2] | out code | ];
        simpl; try (rewrite app_nil_r; auto); auto.
      destruct (errors_Is err2 ErrHostnameNotFound); simpl; rewrite app_nil_r; auto.
    + auto.
Qed.

(** C1: [CheckIfHostnameOrID] first looks the identifier up as a managed
    object reference ID; the search by hostname is made if and only if
    that lookup fails with an error classified as "managed object not
    found"; any other error of the lookup by ID is returned as it is and
    nothing else is requested. *)
Theorem CheckIfHostnameOrID_id_first :
  forall (W : Type) (h : Handler W) (w : W) (client : Client) (tfID : string),
    let first := Finder_Element (host_ref tfID) in
    let res := run h (CheckIfHostnameOrID IsManagedObjectNotFoundError Name client tfID) w in
    (exists rest, trace res = first :: rest) /\
    (In (Finder_DatacenterList "*") (trace res) <->
       exists err, fst (h first w) = inr err /\
                   IsManagedObjectNotFoundError (FromApi err) = true) /\
    (forall err, fst (h first w) = inr err ->
       IsManagedObjectNotFoundError (FromApi err) = true ->
       trace res = first :: trace (run h (FromHostname client tfID) (snd (h first w)))) /\
    (forall err, fst (h first w) = inr err ->
       IsManagedObjectNotFoundError (FromApi err) = false ->
       outcome res = Returned (None, HostReturn_zero, Some (FromApi err)) /\
       trace res = [first]).
Proof.
  intros W h w client tfID first res.
  generalize (run_CheckIfHostnameOrID W h w client tfID).
  subst res first. cbv zeta.
  set (res := run h _ w). clearbody res.
  destruct (h (Finder_Element (host_ref tfID)) w) as [[e | err] w1];
    cbn [fst snd]; intros R.
  - destruct R as (_ & T & _). rewrite T.
    split; [eexists; reflexivity | split; [split | split]].
    + intros [D | []]. discriminate D.
    + intros (err & E & _). discriminate E.
    + intros err E. discriminate E.
    + intros err E. discriminate E.
  - destruct (IsManagedObjectNotFoundError (FromApi err)) eqn:C.
    + destruct R as (_ & T & _). rewrite T.
      split; [eexists; reflexivity | split; [split | split]].
      * intros _. exists err. auto.
      * intros _. right.
        destruct (trace_FromHostname W h w1 client tfID) as [rest ->].
        left. reflexivity.
      * reflexivity.
      * intros err' E C'. injection E as <-. congruence.
    + destruct R as (O & T & _). rewrite T, O.
      split; [eexists; reflexivity | split; [split | split]].
      * intros [D | []]. discriminate D.
      * intros (err' & E & C'). injection E as <-. congruence.
      * intros err' E C'. injection E as <-. congruence.
      * intros err' E C'. injection E as <-. auto.
Qed.


(** *** Runs against a server without state *)

Lemma eval_bind {A B : Type} (o : Oracle) (m : Prog A) (f : A -> Prog B) :
  eval o (bind m f) =
  match eval o m with
  | Returned x => eval o (f x)
  | Exited out code => Exited out code
  | Panicked => Panicked
  end.
Proof.
  unfold eval. rewrite run_bind.
  destruct (outcome (run (static o) m tt)); try reflexivity.
  cbn [outcome]. destruct (final (run (static o) m tt)). reflexivity.
Qed.

Lemma eval_call (o : Oracle) (rq : Request) : eval o (call rq) = Returned (o rq).
Proof. reflexivity. Qed.

Lemma eval_Ret {T : Type} (o : Oracle) (x : T) : eval o (Ret x) = Returned x.
Proof. reflexivity. Qed.

Lemma named_app (hostname : string) (l1 l2 : list mo_HostSystem) :
  named hostname (l1 ++ l2) = (named hostname l1 ++ named hostname l2)%list.
Proof. apply List.filter_app. Qed.

Lemma named_cons_eq (hostname : string) (m : mo_HostSystem) (l : list mo_HostSystem) :
  String.eqb (mo_Name m) hostname = true ->
  named hostname (m :: l) = m :: named hostname l.
Proof. intros E. unfold named. simpl. rewrite E. reflexivity. Qed.

Lemma named_cons_ne (hostname : string) (m : mo_HostSystem) (l : list mo_HostSystem) :
  String.eqb (mo_Name m) hostname = false ->
  named hostname (m :: l) = named hostname l.
Proof. intros E. unfold named. simpl. rewrite E. reflexivity. Qed.

(** The inner loop keeps the scan state in step with the hosts read; it
    leaves [FromHostname] only with an error made on the spot, and only
    when a host of the datacenter has the name. *)
Lemma scan_hosts (o : Oracle) (client : Client) (hostname : string) :
  forall (ms seen : list mo_HostSystem) (st : scan),
    scanned hostname seen st ->
    match eval o (FromHostname_hosts client hostname ms st) with
    | Returned (Continue st') => scanned hostname (seen ++ ms) st'
    | Returned (Return e) =>
        (exists msg, e = Errorf msg) /\ named hostname ms <> []
    | Exited _ _ => False
    | Panicked => ill_typed_match hostname ms
    end.
Proof.
  induction ms as [ | m rest IH]; intros seen st S.
  - simpl. rewrite app_nil_r. exact S.
  - cbn [FromHostname_hosts].
    destruct (String.eqb (mo_Name m) hostname) eqn:E.
    + destruct (counter st + 1 >? 1) eqn:G.
      * rewrite eval_Ret. split; [eexists; reflexivity | ].
        rewrite (named_cons_eq _ _ _ E). discriminate.
      * assert (N : named hostname seen = []).
        { destruct S as [C _]. rewrite Z.gtb_ltb in G.
          apply Z.ltb_ge in G.
          destruct (named hostname seen); [reflexivity | simpl in C; lia]. }
        unfold finder_ObjectReference. rewrite !eval_bind, eval_call.
        destruct (o (Finder_Element (Self m))) as [e | err]; rewrite !eval_Ret.
        -- unfold assert_HostSystem. cbn [r].
           destruct (String.eqb (ref_Type (Self m)) "HostSystem") eqn:Ty.
           ++ rewrite eval_bind, eval_Ret.
              assert (S' : scanned hostname (seen ++ [m])
                             {| counter := counter st + 1;
                                host := Some {| hs_Common :=
                                  {| c := client; r := Self m; InventoryPath := el_Path e |} |} |}).
              { split; cbn [counter host].
                - rewrite named_app, N, (named_cons_eq _ _ _ E). destruct S as [C _].
                  rewrite N in C. simpl in *. lia.
                - exists m. rewrite named_app, N, (named_cons_eq _ _ _ E). auto. }
              specialize (IH (seen ++ [m])%list _ S').
              rewrite <- app_assoc in IH. simpl in IH.
              destruct (eval o _) as [[st' | e'] | out code | ]; auto.
              ** destruct IH as [M _]. split; [exact M | ].
                 rewrite (named_cons_eq _ _ _ E). discriminate.
              ** destruct IH as (m' & I & T). exists m'.
                 rewrite (named_cons_eq _ _ _ E). split; [right; exact I | exact T].
           ++ rewrite eval_bind. cbn. exists m.
              rewrite (named_cons_eq _ _ _ E). apply String.eqb_neq in Ty.
              split; [left; reflexivity | exact Ty].
        -- split; [eexists; reflexivity | ].
           rewrite (named_cons_eq _ _ _ E). discriminate.
    + assert (S' : scanned hostname (seen ++ [m]) st).
      { destruct S as [C H]. unfold scanned.
        rewrite named_app, (named_cons_ne _ _ _ E). simpl. rewrite app_nil_r. auto. }
      specialize (IH (seen ++ [m])%list _ S').
      rewrite <- app_assoc in IH. simpl in IH.
      unfold ill_typed_match. rewrite (named_cons_ne _ _ _ E).
      destruct (eval o _) as [[st' | e'] | out code | ]; auto.
Qed.


(** The outer loop: when it runs to its end, every datacenter could be
    listed and the scan state stands for all hosts read; it ends the
    process exactly on a view that cannot be created or read. *)
Lemma scan_datacenters (o : Oracle) (client : Client) (hostname : string) :
  forall (dcs : list Datacenter) (seen : list mo_HostSystem) (st : scan),
    scanned hostname seen st ->
    match eval o (FromHostname_datacenters client hostname dcs st) with
    | Returned (Continue st') =>
        exists hs, hosts_of_datacenters o dcs = Some hs /\
                   scanned hostname (seen ++ hs) st'
    | Returned (Return e) =>
        (exists msg, e = Errorf msg) /\
        forall hs, hosts_of_datacenters o dcs = Some hs -> named hostname hs <> []
    | Exited _ code => code = 1 /\ hosts_of_datacenters o dcs = None
    | Panicked =>
        forall hs, hosts_of_datacenters o dcs = Some hs -> ill_typed_match hostname hs
    end.
Proof.
  induction dcs as [ | dc rest IH]; intros seen st S.
  - simpl. exists []. rewrite app_nil_r. auto.
  - cbn [FromHostname_datacenters hosts_of_datacenters].
    rewrite eval_bind, eval_call.
    destruct (o (CreateContainerView (dc_Reference dc) ["HostSystem"] true))
      as [dcView | err]; [ | split; reflexivity].
    rewrite eval_bind, eval_call.
    destruct (o (RetrieveWithFilter dcView ["HostSystem"] ["name"]))
      as [moHosts | err]; [ | split; reflexivity].
    rewrite eval_bind.
    pose proof (scan_hosts o client hostname moHosts seen st S) as H.
    destruct (eval o (FromHostname_hosts client hostname moHosts st))
      as [[st' | e] | out code | ]; try contradiction.
    + specialize (IH (seen ++ moHosts)%list st' H).
      destruct (eval o (FromHostname_datacenters client hostname rest st'))
        as [[st'' | e] | out code | ].
      * destruct IH as (more & -> & S''). exists (moHosts ++ more)%list.
        rewrite app_assoc. auto.
      * destruct IH as [M N]. split; [exact M | ].
        intros hs. destruct (hosts_of_datacenters o rest) as [more | ]; [ | discriminate].
        intros [= <-]. rewrite named_app. specialize (N more eq_refl).
        destruct (named hostname more); [congruence | ].
        intros A. apply app_eq_nil in A. destruct A; discriminate.
      * destruct IH as [-> ->]. auto.
      * intros hs. destruct (hosts_of_datacenters o rest) as [more | ]; [ | discriminate].
        intros [= <-]. destruct (IH more eq_refl) as (m & I & T).
        exists m. rewrite named_app. split; [apply in_or_app; right; exact I | exact T].
    + rewrite eval_Ret. destruct H as [M N]. split; [exact M | ].
      intros hs. destruct (hosts_of_datacenters o rest) as [more | ]; [ | discriminate].
      intros [= <-]. rewrite named_app.
      intros A. apply app_eq_nil in A. destruct A as [A _]. exact (N A).
    + intros hs. destruct (hosts_of_datacenters o rest) as [more | ]; [ | discriminate].
      intros [= <-]. destruct H as (m & I & T).
      exists m. rewrite named_app. split; [apply in_or_app; left; exact I | exact T].
Qed.

Lemma scanned_start (hostname : string) :
  scanned hostname [] {| counter := 0; host := None |}.
Proof. split; reflexivity. Qed.

(** Every way [FromHostname] can end against a server without state. *)
Lemma eval_FromHostname (o : Oracle) (client : Client) (hostname : string) :
  match eval o (FromHostname client hostname) with
  | Returned (inl x) =>
      exists hs m, visible_hosts o = Some hs /\ named hostname hs = [m] /\
                   Reference x = Self m
  | Returned (inr e) =>
      match o (Finder_DatacenterList "*") with
      | inr err => e = FromApi err
      | inl _ =>
          (e = ErrHostnameNotFound /\
           exists hs, visible_hosts o = Some hs /\ named hostname hs = [])
          \/ ((exists msg, e = Errorf msg) /\
              forall hs, visible_hosts o = Some hs -> named hostname hs <> [])
      end
  | Exited _ code =>
      code = 1 /\ visible_hosts o = None /\
      exists dcs, o (Finder_DatacenterList "*") = inl dcs
  | Panicked => forall hs, visible_hosts o = Some hs -> ill_typed_match hostname hs
  end.
Proof.
  unfold FromHostname, visible_hosts. rewrite eval_bind, eval_call.
  destruct (o (Finder_DatacenterList "*")) as [dcs | err].
  - rewrite eval_bind.
    pose proof (scan_datacenters o client hostname dcs [] _ (scanned_start hostname)) as H.
    destruct (eval o (FromHostname_datacenters client hostname dcs _))
      as [[st' | e] | out code | ].
    + destruct H as (hs & V & [C H]). simpl in H.
      destruct (host st') as [x | ]; rewrite eval_Ret.
      * destruct H as (m & N & R). exists hs, m. auto.
      * left. split; [reflexivity | ]. exists hs. auto.
    + rewrite eval_Ret. right. exact H.
    + destruct H as [-> V]. split; [reflexivity | ]. split; [exact V | ].
      exists dcs. reflexivity.
    + exact H.
  - rewrite eval_Ret. reflexivity.
Qed.


Lemma ill_typed_match_not_typed (hostname : string) (hs : list mo_HostSystem) :
  ill_typed_match hostname hs -> ~ host_typed hs.
Proof.
  intros (m & I & T) H. apply List.filter_In in I. destruct I as [I _].
  unfold host_typed in H. rewrite List.Forall_forall in H. exact (T (H m I)).
Qed.

(** [FromHostname] returns its sentinel exactly when every datacenter
    could be listed and no host has the name. *)
Lemma FromHostname_not_found_iff (o : Oracle) (client : Client) (hostname : string) :
  eval o (FromHostname client hostname) = Returned (inr ErrHostnameNotFound) <->
  exists hs, visible_hosts o = Some hs /\ named hostname hs = [].
Proof.
  pose proof (eval_FromHostname o client hostname) as H. split.
  - intros E. rewrite E in H.
    destruct (o (Finder_DatacenterList "*")) as [dcs | err]; [ | discriminate H].
    destruct H as [[_ H] | [[msg M] _]]; [exact H | discriminate M].
  - intros (hs & V & N).
    destruct (eval o (FromHostname client hostname)) as [[x | e] | out code | ].
    + destruct H as (hs' & m & V' & N' & _). congruence.
    + destruct (o (Finder_DatacenterList "*")) as [dcs | err] eqn:L.
      * destruct H as [[-> _] | [_ H]]; [reflexivity | ].
        exfalso. exact (H hs V N).
      * unfold visible_hosts in V. rewrite L in V. discriminate V.
    + destruct H as (_ & V' & _). congruence.
    + destruct (H hs V) as (m & I & _). rewrite N in I. destruct I.
Qed.

(** *** Where the handle of a search by hostname comes from *)

Lemma found_in_app (o : Oracle) (client : Client) (hostname : string)
    (seen more : list mo_HostSystem) (st : scan) :
  found_in o client hostname seen st ->
  found_in o client hostname (seen ++ more) st.
Proof.
  intros F x Hx. destruct (F x Hx) as (m & e & M & R). exists m, e.
  split; [apply in_or_app; left; exact M | exact R].
Qed.

Lemma found_hosts (o : Oracle) (client : Client) (hostname : string) :
  forall (ms seen : list mo_HostSystem) (st : scan),
    found_in o client hostname seen st ->
    match eval o (FromHostname_hosts client hostname ms st) with
    | Returned (Continue st') => found_in o client hostname (seen ++ ms) st'
    | _ => True
    end.
Proof.
  induction ms as [ | m rest IH]; intros seen st F.
  - simpl. rewrite app_nil_r. exact F.
  - cbn [FromHostname_hosts].
    destruct (String.eqb (mo_Name m) hostname) eqn:E.
    + destruct (counter st + 1 >? 1); [rewrite eval_Ret; exact I | ].
      unfold finder_ObjectReference. rewrite !eval_bind, eval_call.
      destruct (o (Finder_Element (Self m))) as [e | err] eqn:L; rewrite !eval_Ret;
        [ | exact I].
      unfold assert_HostSystem. cbn [r].
      destruct (String.eqb (ref_Type (Self m)) "HostSystem");
        [ | rewrite eval_bind; cbn; exact I].
      rewrite eval_bind, eval_Ret.
      assert (F' : found_in o client hostname (seen ++ [m])
                     {| counter := counter st + 1;
                        host := Some {| hs_Common :=
                          {| c := client; r := Self m; InventoryPath := el_Path e |} |} |}).
      { intros x Hx. cbn [host] in Hx. injection Hx as <-. exists m, e.
        split; [apply in_or_app; right; left; reflexivity | ].
        split; [apply String.eqb_eq; exact E | split; [exact L | reflexivity]]. }
      specialize (IH (seen ++ [m])%list _ F').
      rewrite <- app_assoc in IH. exact IH.
    + specialize (IH (seen ++ [m])%list st (found_in_app o client hostname seen [m] st F)).
      rewrite <- app_assoc in IH. exact IH.
Qed.

Lemma found_datacenters (o : Oracle) (client : Client) (hostname : string) :
  forall (dcs : list Datacenter) (seen : list mo_HostSystem) (st : scan),
    found_in o client hostname seen st ->
    match eval o (FromHostname_datacenters client hostname dcs st) with
    | Returned (Continue st') =>
        exists hs, hosts_of_datacenters o dcs = Some hs /\
                   found_in o client hostname (seen ++ hs) st'
    | _ => True
    end.
Proof.
  induction dcs as [ | dc rest IH]; intros seen st F.
  - simpl. exists []. rewrite app_nil_r. auto.
  - cbn [FromHostname_datacenters hosts_of_datacenters].
    rewrite eval_bind, eval_call.
    destruct (o (CreateContainerView (dc_Reference dc) ["HostSystem"] true))
      as [dcView | err]; [ | exact I].
    rewrite eval_bind, eval_call.
    destruct (o (RetrieveWithFilter dcView ["HostSystem"] ["name"]))
      as [moHosts | err]; [ | exact I].
    rewrite eval_bind.
    pose proof (found_hosts o client hostname moHosts seen st F) as H.
    destruct (eval o (FromHostname_hosts client hostname moHosts st))
      as [[st' | e] | out code | ]; try exact I.
    specialize (IH (seen ++ moHosts)%list st' H).
    destruct (eval o (FromHostname_datacenters client hostname rest st'))
      as [[st'' | e] | out code | ]; try exact I.
    destruct IH as (more & -> & F''). exists (moHosts ++ more)%list.
    rewrite app_assoc. auto.
Qed.

(** A host that [FromHostname] returns is the handle built from the
    lookup of a listed host that has the name. *)
Lemma FromHostname_handle (o : Oracle) (client : Client) (hostname : string)
    (x : HostSystem) :
  eval o (FromHostname client hostname) = Returned (inl x) ->
  exists hs m e,
    visible_hosts o = Some hs /\ In m hs /\ mo_Name m = hostname /\
    o (Finder_Element (Self m)) = inl e /\ x = handle client (Self m) e.
Proof.
  unfold FromHostname, visible_hosts. rewrite eval_bind, eval_call.
  destruct (o (Finder_DatacenterList "*")) as [dcs | err];
    [ | rewrite eval_Ret; discriminate].
  rewrite eval_bind.
  assert (F0 : found_in o client hostname [] {| counter := 0; host := None |})
    by (intros y Hy; discriminate Hy).
  pose proof (found_datacenters o client hostname dcs [] _ F0) as H.
  destruct (eval o (FromHostname_datacenters client hostname dcs _))
    as [[st' | e] | out code | ]; try (cbv beta iota; discriminate).
  destruct H as (hs & V & F). change ([] ++ hs)%list with hs in F.
  destruct (host st') as [y | ] eqn:Hy; rewrite eval_Ret; [ | discriminate].
  intros E. injection E as <-.
  destruct (F y Hy) as (m & e & M & Nm & L & R).
  exists hs, m, e. auto.
Qed.

(** C5: a host returned by [FromHostname] is the handle of the one and
    only listed host whose name is the requested hostname, and a host
    returned by [FromID] is the handle of the reference made of the
    requested ID. *)
Theorem resolution_matches_identifier :
  (forall (o : Oracle) (client : Client) (hostname : string) (x : HostSystem),
     outcome (run (static o) (FromHostname client hostname) tt) = Returned (inl x) ->
     exists hs m,
       visible_hosts o = Some hs /\ named hostname hs = [m] /\
       mo_Name m = hostname /\ Reference x = Self m) /\
  (forall (W : Type) (h : Handler W) (w : W) (client : Client) (id : string)
          (x : HostSystem),
     outcome (run h (FromID client id) w) = Returned (inl x) ->
     ref_Type (Reference x) = "HostSystem" /\ ref_Value (Reference x) = id).
Proof.
  split.
  - intros o client hostname x E.
    pose proof (eval_FromHostname o client hostname) as H. unfold eval in H.
    rewrite E in H. destruct H as (hs & m & V & N & R).
    exists hs, m. repeat split; try assumption.
    assert (I : In m (named hostname hs)) by (rewrite N; left; reflexivity).
    apply List.filter_In in I. destruct I as [_ I]. apply String.eqb_eq. exact I.
  - intros W h w client id x E. rewrite run_FromID in E. cbn [outcome] in E.
    destruct (fst (h (Finder_Element (host_ref id)) w)) as [e | err];
      inversion E; subst. split; reflexivity.
Qed.


(** *** Runs of [FromHostnameOrID] *)

Lemma run_bind_Ret {W A B : Type} (h : Handler W) (m : Prog A) (f : A -> B) (w : W) :
  run h (x <- m;; Ret (f x)) w =
  {| outcome := match outcome (run h m w) with
                | Returned x => Returned (f x)
                | Exited out code => Exited out code
                | Panicked => Panicked
                end;
     trace := trace (run h m w);
     final := final (run h m w) |}.
Proof.
  rewrite run_bind. destruct (outcome (run h m w)); try reflexivity.
  simpl. rewrite app_nil_r. reflexivity.
Qed.

Lemma attr_present_string (d : ResourceData) (key s : string) :
  Get d key = Some (VString s) -> s <> "" -> attr_present d key = true.
Proof.
  intros G N. unfold attr_present. rewrite G. simpl.
  apply String.eqb_neq in N. rewrite N. reflexivity.
Qed.

Lemma attr_absent (d : ResourceData) (key : string) :
  Get d key = None \/ Get d key = Some (VString "") -> attr_present d key = false.
Proof. intros [G | G]; unfold attr_present; rewrite G; reflexivity. Qed.

(** With a non-empty ID attribute the function is the lookup by ID. *)
Lemma FromHostnameOrID_by_id (client : Client) (d : ResourceData) (id : string) :
  Get d "host_system_id" = Some (VString id) -> id <> "" ->
  FromHostnameOrID client d =
  lookup_by client {| IDName := "host_system_id"; Value := id |}.
Proof.
  intros G N. unfold FromHostnameOrID, lookup_by.
  rewrite (attr_present_string _ _ _ G N), G. reflexivity.
Qed.

(** Without an ID attribute and with a non-empty hostname attribute the
    function is the search by hostname. *)
Lemma FromHostnameOrID_by_hostname (client : Client) (d : ResourceData) (hn : string) :
  attr_present d "host_system_id" = false ->
  Get d "hostname" = Some (VString hn) -> hn <> "" ->
  FromHostnameOrID client d =
  lookup_by client {| IDName := "hostname"; Value := hn |}.
Proof.
  intros A G N. unfold FromHostnameOrID, lookup_by.
  rewrite A, (attr_present_string _ _ _ G N), G. reflexivity.
Qed.

(** C6: with both attributes non-empty [FromHostnameOrID] resolves by
    [host_system_id] only: the one request is the lookup of that ID, and
    the program is the same for every resource data with this ID,
    whatever its hostname attribute holds.  With both attributes nil or
    empty it returns an error and requests nothing. *)
Theorem FromHostnameOrID_id_precedence :
  (forall (W : Type) (h : Handler W) (w : W) (client : Client)
          (d : ResourceData) (id hn : string),
     Get d "host_system_id" = Some (VString id) -> id <> "" ->
     Get d "hostname" = Some (VString hn) -> hn <> "" ->
     let res := run h (FromHostnameOrID client d) w in
     trace res = [Finder_Element (host_ref id)] /\
     (exists host err,
        outcome res =
        Returned (host, {| IDName := "host_system_id"; Value := id |}, err)) /\
     (forall d' : ResourceData,
        Get d' "host_system_id" = Get d "host_system_id" ->
        FromHostnameOrID client d' = FromHostnameOrID client d)) /\
  (forall (W : Type) (h : Handler W) (w : W) (client : Client) (d : ResourceData),
     (Get d "host_system_id" = None \/ Get d "host_system_id" = Some (VString "")) ->
     (Get d "hostname" = None \/ Get d "hostname" = Some (VString "")) ->
     let res := run h (FromHostnameOrID client d) w in
     trace res = [] /\
     exists msg, outcome res = Returned (None, HostReturn_zero, Some (Errorf msg))).
Proof.
  split.
  - intros W h w client d id hn Gi Ni Gh Nh res. subst res.
    rewrite (FromHostnameOrID_by_id client d id Gi Ni).
    unfold lookup_by. cbn [IDName Value String.eqb Ascii.eqb Bool.eqb].
    rewrite run_bind_Ret, run_FromID. cbn [outcome trace].
    split; [reflexivity | split].
    + eexists _, _. reflexivity.
    + intros d' G'. rewrite Gi in G'.
      rewrite (FromHostnameOrID_by_id client d' id G' Ni). reflexivity.
  - intros W h w client d Ai Ah res. subst res.
    unfold FromHostnameOrID. rewrite (attr_absent _ _ Ai), (attr_absent _ _ Ah).
    split; [reflexivity | eexists; reflexivity].
Qed.

(** C8: when [CheckIfHostnameOrID] returns an error, the [HostReturn]
    next to it is the zero value; when [FromHostnameOrID] has picked an
    attribute and the lookup fails, the [HostReturn] next to the error
    holds the name and the value of that attribute. *)
Theorem HostReturn_next_to_error :
  (forall (W : Type) (h : Handler W) (w : W) (client : Client) (tfID : string)
          (host : option HostSystem) (hr : HostReturn) (e : error),
     outcome (run h (CheckIfHostnameOrID IsManagedObjectNotFoundError Name client tfID) w)
     = Returned (host, hr, Some e) ->
     host = None /\ IDName hr = "" /\ Value hr = "") /\
  (forall (W : Type) (h : Handler W) (w : W) (client : Client)
          (d : ResourceData) (id : string) (e : error),
     Get d "host_system_id" = Some (VString id) -> id <> "" ->
     outcome (run h (FromID client id) w) = Returned (inr e) ->
     outcome (run h (FromHostnameOrID client d) w)
     = Returned (None, {| IDName := "host_system_id"; Value := id |}, Some e)) /\
  (forall (W : Type) (h : Handler W) (w : W) (client : Client)
          (d : ResourceData) (hn : string) (e : error),
     (Get d "host_system_id" = None \/ Get d "host_system_id" = Some (VString "")) ->
     Get d "hostname" = Some (VString hn) -> hn <> "" ->
     outcome (run h (FromHostname client hn) w) = Returned (inr e) ->
     outcome (run h (FromHostnameOrID client d) w)
     = Returned (None, {| IDName := "hostname"; Value := hn |}, Some e)).
Proof.
  split; [ | split].
  - intros W h w client tfID host hr e.
    generalize (run_CheckIfHostnameOrID W h w client tfID). cbv zeta.
    set (res := run h _ w). clearbody res.
    destruct (h (Finder_Element (host_ref tfID)) w) as [[el | err] w1];
      cbn [fst snd].
    + intros (O & _) E. rewrite O in E. discriminate E.
    + destruct (IsManagedObjectNotFoundError (FromApi err)).
      * intros (O & _) E. rewrite O in E.
        destruct (outcome (run h (FromHostname client tfID) w1))
          as [[x | err2] | out code | ]; try discriminate E.
        unfold after_hostname in E.
        destruct (negb (errors_Is err2 ErrHostnameNotFound));
          inversion E; subst; auto.
      * intros (O & _) E. rewrite O in E. inversion E; subst. auto.
  - intros W h w client d id e G N E.
    rewrite (FromHostnameOrID_by_id client d id G N).
    unfold lookup_by. cbn [IDName Value String.eqb Ascii.eqb Bool.eqb].
    rewrite run_bind_Ret. cbn [outcome]. rewrite E. reflexivity.
  - intros W h w client d hn e A G N E.
    rewrite (FromHostnameOrID_by_hostname client d hn (attr_absent _ _ A) G N).
    unfold lookup_by. cbn [IDName Value String.eqb Ascii.eqb Bool.eqb].
    rewrite run_bind_Ret. cbn [outcome]. rewrite E. reflexivity.
Qed.


(** *** Maintenance mode *)

(** C9: for a host that reports to be in maintenance mode,
    [EnterMaintenanceMode] returns [nil] after the one request that reads
    the properties of the host, without the request that changes the
    mode; likewise [ExitMaintenanceMode] for a host that reports not to
    be in maintenance mode. *)
Theorem maintenance_mode_idempotent :
  (forall (W : Type) (h : Handler W) (w : W) (host : HostSystem)
          (timeout : Z) (evacuate : bool) (props : mo_HostSystem),
     fst (h (HostSystem_Properties (Reference host)) w) = inl props ->
     Runtime_InMaintenanceMode props = true ->
     let res := run h (EnterMaintenanceMode VimValidateVirtualCenter int32_Seconds
                         host timeout evacuate) w in
     outcome res = Returned None /\
     trace res = [HostSystem_Properties (Reference host)] /\
     existsb is_mode_change (trace res) = false) /\
  (forall (W : Type) (h : Handler W) (w : W) (host : HostSystem)
          (timeout : Z) (props : mo_HostSystem),
     fst (h (HostSystem_Properties (Reference host)) w) = inl props ->
     Runtime_InMaintenanceMode props = false ->
     let res := run h (ExitMaintenanceMode int32_Seconds host timeout) w in
     outcome res = Returned None /\
     trace res = [HostSystem_Properties (Reference host)] /\
     existsb is_mode_change (trace res) = false).
Proof.
  split.
  - intros W h w host timeout evacuate props A M res. subst res.
    unfold EnterMaintenanceMode, HostInMaintenance, Properties, call.
    revert A. simpl.
    destruct (h (HostSystem_Properties (Reference host)) w) as [[p | err] w1];
      cbn [fst snd]; intros A; inversion A; subst.
    simpl. rewrite M. simpl. auto.
  - intros W h w host timeout props A M res. subst res.
    unfold ExitMaintenanceMode, HostInMaintenance, Properties, call.
    revert A. simpl.
    destruct (h (HostSystem_Properties (Reference host)) w) as [[p | err] w1];
      cbn [fst snd]; intros A; inversion A; subst.
    simpl. rewrite M. simpl. auto.
Qed.

(** *** The DNS update *)

(** C7, as the code has it: the DNS update sends its PUT at most twice,
    first with the servers nested under ["config"] and, only when that
    request fails, once more with the flat payload; it returns [nil] when
    either request succeeds and an error when the second one fails too.
    The two requests differ, and create and update send what the update
    function sends. *)
Theorem vsphereVcenterDNSUpdate_two_payloads :
  forall (W : Type) (h : Handler W) (w : W) (d : ResourceData)
         (servers : list string),
    Get d "servers" = Some (VSet servers) ->
    let put1 := RestUpdateRequest "PUT" "/appliance/networking/dns/servers"
                  (dns_payload_nested servers) in
    let put2 := RestUpdateRequest "PUT" "/appliance/networking/dns/servers"
                  (dns_payload_flat servers) in
    let res := run h (vsphereVcenterDNSUpdate d) w in
    match fst (h put1 w) with
    | None => outcome res = Returned None /\ trace res = [put1]
    | Some _ =>
        trace res = [put1; put2] /\
        outcome res =
        Returned match fst (h put2 (snd (h put1 w))) with
                 | None => None
                 | Some e =>
                     Some (Errorf ("error making update request for dns server config: "
                                   +:+ Error e))
                 end
    end /\
    put1 <> put2 /\
    (length (List.filter is_dns_put (trace res)) <= 2)%nat /\
    trace (run h (resourceVSphereVcenterDNSCreate d) w) = trace res /\
    trace (run h (resourceVSphereVcenterDNSUpdate d) w) = trace res.
Proof.
  intros W h w d servers G put1 put2 res.
  assert (T : trace (run h (resourceVSphereVcenterDNSCreate d) w) = trace res
              /\ trace (run h (resourceVSphereVcenterDNSUpdate d) w) = trace res).
  { subst res. unfold resourceVSphereVcenterDNSCreate, resourceVSphereVcenterDNSUpdate.
    rewrite run_bind_Ret, run_bind. cbn [trace].
    destruct (outcome (run h (vsphereVcenterDNSUpdate d) w)) as [[e | ] | out code | ];
      cbn [trace run]; rewrite ?app_nil_r; auto. }
  split; [ | split; [ | split; [ | exact T]]].
  - subst res put1 put2.
    unfold vsphereVcenterDNSUpdate, dns_payload_nested, dns_payload_flat. rewrite G.
    unfold assert_Set_List, call, http_MethodPut, dnsServersPath.
    cbn [bind run outcome trace].
    destruct (h (RestUpdateRequest _ _ (JObject [("config", _)])) w) as [[e1 | ] w1];
      cbn [fst snd bind run outcome trace].
    + destruct (h (RestUpdateRequest _ _ _) w1) as [[e2 | ] w2];
        cbn [fst snd bind run outcome trace]; auto.
    + auto.
  - subst put1 put2. unfold dns_payload_nested, dns_payload_flat. discriminate.
  - subst res. unfold vsphereVcenterDNSUpdate. rewrite G.
    unfold assert_Set_List, call. cbn [bind run trace].
    match goal with |- context [h ?rq w] => destruct (h rq w) as [[e1 | ] w1] end;
      cbn [fst snd bind run trace].
    + match goal with |- context [h ?rq w1] => destruct (h rq w1) as [[e2 | ] w2] end;
        cbn [fst snd bind run trace]; simpl; lia.
    + simpl. lia.
Qed.


(** *** What a successful resolution returns *)

Lemma value_err_of_inl {A : Type} (res : A + error) (x : A) :
  value_of res = Some x -> err_of res = None -> res = inl x.
Proof. destruct res; simpl; congruence. Qed.

Lemma FromHostnameOrID_success (W : Type) (h : Handler W) (w : W)
    (client : Client) (d : ResourceData) (x : HostSystem) (hr : HostReturn) :
  outcome (run h (FromHostnameOrID client d) w) = Returned (Some x, hr, None) ->
  (IDName hr = "host_system_id" /\
   Get d "host_system_id" = Some (VString (Value hr)) /\
   outcome (run h (FromID client (Value hr)) w) = Returned (inl x))
  \/
  (IDName hr = "hostname" /\
   attr_present d "host_system_id" = false /\
   Get d "hostname" = Some (VString (Value hr)) /\
   outcome (run h (FromHostname client (Value hr)) w) = Returned (inl x)).
Proof.
  unfold FromHostnameOrID.
  destruct (attr_present d "host_system_id") eqn:Ai.
  - destruct (Get d "host_system_id") as [[id | l] | ] eqn:G;
      cbn [assert_string bind]; try (cbn; discriminate).
    rewrite run_bind_Ret. cbn [outcome].
    destruct (outcome (run h (FromID client id) w)) as [res | | ] eqn:O;
      try discriminate.
    intros E. inversion E; subst. left. cbn [IDName Value].
    rewrite O. rewrite (value_err_of_inl res x); auto.
  - destruct (attr_present d "hostname") eqn:Ah; [ | cbn; discriminate].
    destruct (Get d "hostname") as [[hn | l] | ] eqn:G;
      cbn [assert_string bind]; try (cbn; discriminate).
    rewrite run_bind_Ret. cbn [outcome].
    destruct (outcome (run h (FromHostname client hn) w)) as [res | | ] eqn:O;
      try discriminate.
    intros E. inversion E; subst. right. cbn [IDName Value].
    rewrite O. rewrite (value_err_of_inl res x); auto.
Qed.

Lemma CheckIfHostnameOrID_success (W : Type) (h : Handler W) (w : W)
    (client : Client) (tfID : string) (x : HostSystem) (hr : HostReturn) :
  outcome (run h (CheckIfHostnameOrID IsManagedObjectNotFoundError Name client tfID) w)
  = Returned (Some x, hr, None) ->
  (hr = {| IDName := "host_system_id"; Value := ref_Value (Reference x) |} /\
   outcome (run h (FromID client tfID) w) = Returned (inl x))
  \/
  (hr = {| IDName := "hostname"; Value := Name x |} /\
   (exists err, outcome (run h (FromID client tfID) w) = Returned (inr err) /\
                IsManagedObjectNotFoundError err = true) /\
   outcome (run h (FromHostname client tfID) (final (run h (FromID client tfID) w)))
   = Returned (inl x)).
Proof.
  generalize (run_CheckIfHostnameOrID W h w client tfID). cbv zeta.
  set (res := run h (CheckIfHostnameOrID _ _ _ _) w). clearbody res.
  rewrite run_FromID. cbn [outcome final].
  destruct (h (Finder_Element (host_ref tfID)) w) as [[el | err] w1];
    cbn [fst snd].
  - intros (O & _) E. rewrite O in E. inversion E; subst. left. auto.
  - destruct (IsManagedObjectNotFoundError (FromApi err)) eqn:C.
    + intros (O & _) E. rewrite O in E.
      destruct (outcome (run h (FromHostname client tfID) w1))
        as [[y | err2] | out code | ]; try discriminate E.
      * cbn [after_hostname] in E. inversion E; subst. right.
        split; [reflexivity | split; [ | reflexivity]].
        exists (FromApi err). auto.
      * unfold after_hostname in E.
        destruct (negb (errors_Is err2 ErrHostnameNotFound)); discriminate E.
    + intros (O & _) E. rewrite O in E. discriminate E.
Qed.


Lemma Get_Set_eq (d : ResourceData) (key : string) (v : tfvalue) :
  Get (Set_ d key v) key = Some v.
Proof. unfold Get, Set_. cbn [rd_Attrs]. apply lookup_insert_eq. Qed.

Lemma Get_Set_ne (d : ResourceData) (key key' : string) (v : tfvalue) :
  key <> key' -> Get (Set_ d key v) key' = Get d key'.
Proof. intros N. unfold Get, Set_. cbn [rd_Attrs]. apply lookup_insert_ne. exact N. Qed.

Lemma Get_SetId (d : ResourceData) (id key : string) :
  Get (SetId d id) key = Get d key.
Proof. reflexivity. Qed.

(** A successful import went through a successful [CheckIfHostnameOrID]
    on the part of the ID before the colon. *)
Lemma import_success (W : Type) (h : Handler W) (w : W) (client : Client)
    (d : ResourceData) (ds : list ResourceData) :
  outcome (run h (resourceVSphereIscsiSoftwareAdapterImport
                    IsManagedObjectNotFoundError Name GetIscsiSoftwareAdater client d) w)
  = Returned (inl ds) ->
  exists x hr adapter,
    outcome (run h (CheckIfHostnameOrID IsManagedObjectNotFoundError Name client
                      (nth 0 (strings_Split_colon (rd_Id d)) "")) w)
    = Returned (Some x, hr, None) /\
    ds = [imported d hr adapter].
Proof.
  unfold resourceVSphereIscsiSoftwareAdapterImport.
  destruct (negb (Nat.eqb (length (strings_Split_colon (rd_Id d))) 2));
    [cbn; discriminate | ].
  rewrite run_bind.
  destruct (outcome (run h (CheckIfHostnameOrID _ _ client _) w))
    as [[[[x | ] hr] [err | ]] | out code | ]; try (cbn; discriminate).
  cbv zeta. cbn [outcome]. rewrite run_bind.
  destruct (outcome (run h (GetHostStorageSystemPropertiesFromHost Name client x) _))
    as [[hssProps | err] | out code | ]; try (cbn; discriminate).
  cbv zeta. cbn [outcome].
  destruct (GetIscsiSoftwareAdater hssProps (Name x)) as [adapter | err];
    [ | cbn; discriminate].
  cbn [run outcome]. intros E. inversion E; subst.
  exists x, hr, adapter. split; reflexivity.
Qed.

(** The import returns the changed resource data as soon as the host is
    resolved, its storage system is read and the adapter is found. *)
Lemma import_runs (W : Type) (h : Handler W) (w : W) (client : Client)
    (d : ResourceData) (x : HostSystem) (hr : HostReturn)
    (p : mo_HostStorageSystem) (adapter : IscsiAdapter) :
  length (strings_Split_colon (rd_Id d)) = 2%nat ->
  outcome (run h (CheckIfHostnameOrID IsManagedObjectNotFoundError Name client
                    (nth 0 (strings_Split_colon (rd_Id d)) "")) w)
  = Returned (Some x, hr, None) ->
  outcome (run h (GetHostStorageSystemPropertiesFromHost Name client x)
             (final (run h (CheckIfHostnameOrID IsManagedObjectNotFoundError Name client
                              (nth 0 (strings_Split_colon (rd_Id d)) "")) w)))
  = Returned (inl p) ->
  GetIscsiSoftwareAdater p (Name x) = inl adapter ->
  outcome (run h (resourceVSphereIscsiSoftwareAdapterImport
                    IsManagedObjectNotFoundError Name GetIscsiSoftwareAdater client d) w)
  = Returned (inl [imported d hr adapter]).
Proof.
  intros L O P A. unfold resourceVSphereIscsiSoftwareAdapterImport. cbv zeta.
  rewrite L. cbn [Nat.eqb negb]. rewrite run_bind, O. cbv zeta. cbn [outcome].
  rewrite run_bind, P. cbv zeta. cbn [outcome]. rewrite A. reflexivity.
Qed.

(** The attributes of the imported resource data. *)
Lemma imported_attributes (W : Type) (h : Handler W) (w : W) (client : Client)
    (d : ResourceData) (tfID : string) (x : HostSystem) (hr : HostReturn)
    (adapter : IscsiAdapter) :
  outcome (run h (CheckIfHostnameOrID IsManagedObjectNotFoundError Name client tfID) w)
  = Returned (Some x, hr, None) ->
  Get (imported d hr adapter) (IDName hr) = Some (VString (Value hr)) /\
  (forall key, key <> IDName hr -> Get (imported d hr adapter) key = Get d key) /\
  (attr_present d "host_system_id" = false ->
   attr_present d "hostname" = false ->
   Value hr <> "" ->
   FromHostnameOrID client (imported d hr adapter) = lookup_by client hr).
Proof.
  intros O. split; [ | split].
  - apply Get_Set_eq.
  - intros key N. unfold imported. rewrite Get_Set_ne by congruence.
    apply Get_SetId.
  - intros Ai Ah V.
    destruct (CheckIfHostnameOrID_success W h w client _ x hr O)
      as [(Hr & _) | (Hr & _)]; rewrite Hr in *; cbn [IDName Value] in *.
    + apply FromHostnameOrID_by_id; [apply Get_Set_eq | exact V].
    + apply FromHostnameOrID_by_hostname; [ | apply Get_Set_eq | exact V].
      unfold attr_present, imported. cbn [IDName Value].
      rewrite Get_Set_ne by discriminate. rewrite Get_SetId. exact Ai.
Qed.

(** C4: a successful resolution returns, next to the host, the name of
    the identifier that found it and the value of that identifier:
    ["host_system_id"] with the ID after a lookup by ID, ["hostname"] with
    the hostname after a search by hostname.  After the search by hostname
    of [CheckIfHostnameOrID] the value is the name of the handle, which is
    the requested hostname when the names of handles agree with the names
    under which the hosts are listed.  The import of the iSCSI software
    adapter, once the host is resolved, its storage system read and the
    adapter found, returns the resource data with exactly that attribute
    stored, and a later [FromHostnameOrID] on the imported data is the
    lookup of that same identifier. *)
Theorem HostReturn_records_flavor :
  (forall (W : Type) (h : Handler W) (w : W) (client : Client)
          (d : ResourceData) (x : HostSystem) (hr : HostReturn),
     outcome (run h (FromHostnameOrID client d) w) = Returned (Some x, hr, None) ->
     (IDName hr = "host_system_id" /\
      Get d "host_system_id" = Some (VString (Value hr)) /\
      outcome (run h (FromID client (Value hr)) w) = Returned (inl x) /\
      ref_Value (Reference x) = Value hr)
     \/
     (IDName hr = "hostname" /\
      Get d "hostname" = Some (VString (Value hr)) /\
      outcome (run h (FromHostname client (Value hr)) w) = Returned (inl x))) /\
  (forall (W : Type) (h : Handler W) (w : W) (client : Client)
          (tfID : string) (x : HostSystem) (hr : HostReturn),
     outcome (run h (CheckIfHostnameOrID IsManagedObjectNotFoundError Name client tfID) w)
     = Returned (Some x, hr, None) ->
     (hr = {| IDName := "host_system_id"; Value := ref_Value (Reference x) |} /\
      outcome (run h (FromID client tfID) w) = Returned (inl x) /\
      ref_Value (Reference x) = tfID)
     \/
     (hr = {| IDName := "hostname"; Value := Name x |} /\
      outcome (run h (FromHostname client tfID) (final (run h (FromID client tfID) w)))
      = Returned (inl x))) /\
  (forall (W : Type) (h : Handler W) (w : W) (client : Client)
          (d : ResourceData) (ds : list ResourceData),
     outcome (run h (resourceVSphereIscsiSoftwareAdapterImport
                       IsManagedObjectNotFoundError Name GetIscsiSoftwareAdater client d) w)
     = Returned (inl ds) ->
     exists x hr d',
       outcome (run h (CheckIfHostnameOrID IsManagedObjectNotFoundError Name client
                         (nth 0 (strings_Split_colon (rd_Id d)) "")) w)
       = Returned (Some x, hr, None) /\
       ds = [d'] /\
       Get d' (IDName hr) = Some (VString (Value hr)) /\
       (forall key, key <> IDName hr -> Get d' key = Get d key) /\
       (attr_present d "host_system_id" = false ->
        attr_present d "hostname" = false ->
        Value hr <> "" ->
        FromHostnameOrID client d' = lookup_by client hr)) /\
  (forall (o : Oracle) (client : Client) (tfID : string)
          (x : HostSystem) (hr : HostReturn),
     outcome (run (static o)
                (CheckIfHostnameOrID IsManagedObjectNotFoundError Name client tfID) tt)
     = Returned (Some x, hr, None) ->
     IDName hr = "hostname" ->
     (forall hs, visible_hosts o = Some hs -> names_agree Name o client hs) ->
     Value hr = tfID /\
     outcome (run (static o) (FromHostname client (Value hr)) tt) = Returned (inl x)) /\
  (forall (W : Type) (h : Handler W) (w : W) (client : Client)
          (d : ResourceData) (x : HostSystem) (hr : HostReturn)
          (p : mo_HostStorageSystem) (adapter : IscsiAdapter),
     length (strings_Split_colon (rd_Id d)) = 2%nat ->
     outcome (run h (CheckIfHostnameOrID IsManagedObjectNotFoundError Name client
                       (nth 0 (strings_Split_colon (rd_Id d)) "")) w)
     = Returned (Some x, hr, None) ->
     outcome (run h (GetHostStorageSystemPropertiesFromHost Name client x)
                (final (run h (CheckIfHostnameOrID IsManagedObjectNotFoundError Name client
                                 (nth 0 (strings_Split_colon (rd_Id d)) "")) w)))
     = Returned (inl p) ->
     GetIscsiSoftwareAdater p (Name x) = inl adapter ->
     exists d',
       outcome (run h (resourceVSphereIscsiSoftwareAdapterImport
                         IsManagedObjectNotFoundError Name GetIscsiSoftwareAdater
                         client d) w)
       = Returned (inl [d']) /\
       rd_Id d' = Value hr +:+ ":" +:+ Device adapter /\
       Get d' (IDName hr) = Some (VString (Value hr)) /\
       (forall key, key <> IDName hr -> Get d' key = Get d key) /\
       (attr_present d "host_system_id" = false ->
        attr_present d "hostname" = false ->
        Value hr <> "" ->
        FromHostnameOrID client d' = lookup_by client hr)).
Proof.
  split; [ | split; [ | split; [ | split]]].
  - intros W h w client d x hr E.
    destruct (FromHostnameOrID_success W h w client d x hr E)
      as [(Hi & G & O) | (Hi & _ & G & O)]; [left | right]; repeat split; auto.
    rewrite run_FromID in O. cbn [outcome] in O.
    destruct (fst (h (Finder_Element (host_ref (Value hr))) w));
      inversion O; subst. reflexivity.
  - intros W h w client tfID x hr E.
    destruct (CheckIfHostnameOrID_success W h w client tfID x hr E)
      as [(Hi & O) | (Hi & _ & O)]; [left | right]; repeat split; auto.
    rewrite run_FromID in O. cbn [outcome] in O.
    destruct (fst (h (Finder_Element (host_ref tfID)) w));
      inversion O; subst. reflexivity.
  - intros W h w client d ds E.
    destruct (import_success W h w client d ds E) as (x & hr & adapter & O & ->).
    destruct (imported_attributes W h w client d _ x hr adapter O) as (G & K & F).
    exists x, hr, (imported d hr adapter).
    split; [exact O | split; [reflexivity | split; [exact G | split; [exact K | exact F]]]].
  - intros o client tfID x hr E Hi A.
    destruct (CheckIfHostnameOrID_success unit (static o) tt client tfID x hr E)
      as [(Hr & _) | (Hr & _ & O)].
    + rewrite Hr in Hi. cbn [IDName] in Hi. discriminate Hi.
    + destruct (final (run (static o) (FromID client tfID) tt)).
      destruct (FromHostname_handle o client tfID x O)
        as (hs & m & e & V & M & Nm & L & Hx).
      assert (Vl : Value hr = tfID).
      { rewrite Hr. cbn [Value]. rewrite Hx, (A hs V m e M L). exact Nm. }
      split; [exact Vl | rewrite Vl; exact O].
  - intros W h w client d x hr p adapter L O P A.
    destruct (imported_attributes W h w client d _ x hr adapter O) as (G & K & F).
    exists (imported d hr adapter).
    split; [exact (import_runs W h w client d x hr p adapter L O P A) | ].
    split; [reflexivity | split; [exact G | split; [exact K | exact F]]].
Qed.


End Correctness.

(** ** The properties on the sample vCenter *)

(** C3: [FromHostname] does not return an error for every failure of the
    API.  When the container view of a datacenter cannot be created, it
    prints the error and ends the process with status 1; no error reaches
    the caller, and [CheckIfHostnameOrID] ends the same way. *)
Theorem FromHostname_exits_when_view_fails :
  outcome (run (Sample.server Sample.broken_views)
             (FromHostname Sample.client "esxi-01") tt)
  = Exited "error trying to create container: connection reset by peer" 1 /\
  outcome (run (Sample.server Sample.broken_views)
             (CheckIfHostnameOrID Sample.IsManagedObjectNotFoundError Sample.Name
                Sample.client "esxi-01") tt)
  = Exited "error trying to create container: connection reset by peer" 1.
Proof. split; reflexivity. Qed.

(** C2: [FromHostname] does not return an error for every hostname that
    more than one listed host carries.  The sample vCenter has three
    datacenters, a host named ["esxi-01"] in the first and in the third,
    and the container view of the second cannot be created.  The search
    then ends the process with status 1 before it reads the second host of
    that name: no error and no host is returned, and
    [CheckIfHostnameOrID] ends the same way. *)
Theorem FromHostname_exits_between_duplicates :
  Sample.outage_between (Finder_DatacenterList "*")
  = inl [Sample.dcEast; Sample.dcMid; Sample.dcWest] /\
  named "esxi-01" (listed_hosts Sample.outage_between)
  = [Sample.mkHost "host-10" "esxi-01" false; Sample.mkHost "host-20" "esxi-01" false] /\
  outcome (run (static Sample.outage_between)
             (FromHostname Sample.client "esxi-01") tt)
  = Exited "error trying to create container: connection reset by peer" 1 /\
  outcome (run (static Sample.outage_between)
             (CheckIfHostnameOrID Sample.IsManagedObjectNotFoundError Sample.Name
                Sample.client "esxi-01") tt)
  = Exited "error trying to create container: connection reset by peer" 1.
Proof. split; [ | split; [ | split]]; reflexivity. Qed.

(** C7 as stated fails: against a vCenter that refuses the nested payload
    the first PUT fails, a second PUT follows, and no error is returned. *)
Lemma vsphereVcenterDNSUpdate_puts_twice :
  fst (Sample.server Sample.lab Sample.dns_put_nested tt)
  = Some (Errorf "400 Bad Request") /\
  hd_error (trace (run (Sample.server Sample.lab)
                     (vsphereVcenterDNSUpdate Sample.dns) tt))
  = Some Sample.dns_put_nested /\
  ~ (length (List.filter is_dns_put
               (trace (run (Sample.server Sample.lab)
                         (vsphereVcenterDNSUpdate Sample.dns) tt))) <= 1)%nat /\
  outcome (run (Sample.server Sample.lab) (vsphereVcenterDNSUpdate Sample.dns) tt)
  = Returned None.
Proof.
  split; [reflexivity | split; [reflexivity | split; [ | reflexivity]]].
  vm_compute. intros H. inversion H as [ | ? H']. inversion H'.
Qed.

(** On the sample vCenter: the name ["esxi-03"] is not an ID, so the
    search by hostname follows the lookup by ID; when the finder cannot be
    reached, the lookup by ID is the only request. *)
Lemma CheckIfHostnameOrID_id_first_witness :
  In (Finder_DatacenterList "*")
     (trace (run (Sample.server Sample.lab)
               (CheckIfHostnameOrID Sample.IsManagedObjectNotFoundError Sample.Name
                  Sample.client "esxi-03") tt)) /\
  trace (run (Sample.server Sample.lab)
           (CheckIfHostnameOrID Sample.IsManagedObjectNotFoundError Sample.Name
              Sample.client "esxi-03") tt)
  = Finder_Element (host_ref "esxi-03")
    :: trace (run (Sample.server Sample.lab) (FromHostname Sample.client "esxi-03") tt) /\
  (outcome (run (Sample.server Sample.unreachable)
              (CheckIfHostnameOrID Sample.IsManagedObjectNotFoundError Sample.Name
                 Sample.client "host-10") tt)
   = Returned (None, HostReturn_zero, Some (FromApi (ApiError "connection reset by peer"))) /\
   trace (run (Sample.server Sample.unreachable)
            (CheckIfHostnameOrID Sample.IsManagedObjectNotFoundError Sample.Name
               Sample.client "host-10") tt)
   = [Finder_Element (host_ref "host-10")]).
Proof.
  pose proof (CheckIfHostnameOrID_id_first Sample.IsManagedObjectNotFoundError
                Sample.Name unit (Sample.server Sample.lab) tt Sample.client "esxi-03") as L.
  pose proof (CheckIfHostnameOrID_id_first Sample.IsManagedObjectNotFoundError
                Sample.Name unit (Sample.server Sample.unreachable) tt Sample.client "host-10") as U.
  cbv zeta in L, U.
  destruct L as (_ & [_ L2] & L3 & _). destruct U as (_ & _ & _ & U4).
  split; [ | split].
  - apply L2. exists (ApiError "ManagedObjectNotFound"). split; reflexivity.
  - apply (L3 (ApiError "ManagedObjectNotFound")); reflexivity.
  - apply (U4 (ApiError "connection reset by peer")); reflexivity.
Defined.

(** The host found for ["esxi-03"] and the host found for ["host-11"]. *)
Lemma resolution_matches_identifier_witness :
  (exists hs m,
     visible_hosts (Sample.simulate Sample.lab) = Some hs /\
     named "esxi-03" hs = [m] /\ mo_Name m = "esxi-03" /\
     Reference (Sample.mkHandle "host-20" "esxi-03") = Self m) /\
  (ref_Type (Reference (Sample.mkHandle "host-11" "esxi-02")) = "HostSystem" /\
   ref_Value (Reference (Sample.mkHandle "host-11" "esxi-02")) = "host-11").
Proof.
  split.
  - apply (proj1 resolution_matches_identifier (Sample.simulate Sample.lab)
             Sample.client "esxi-03" (Sample.mkHandle "host-20" "esxi-03")).
    reflexivity.
  - apply (proj2 resolution_matches_identifier unit (Sample.server Sample.lab) tt
             Sample.client "host-11" (Sample.mkHandle "host-11" "esxi-02")).
    reflexivity.
Defined.

(** Resource data with both attributes, and with none. *)
Lemma FromHostnameOrID_id_precedence_witness :
  (trace (run (Sample.server Sample.lab) (FromHostnameOrID Sample.client Sample.by_id) tt)
   = [Finder_Element (host_ref "host-10")] /\
   FromHostnameOrID Sample.client (Set_ Sample.by_id "hostname" (VString "esxi-03"))
   = FromHostnameOrID Sample.client Sample.by_id) /\
  trace (run (Sample.server Sample.lab) (FromHostnameOrID Sample.client Sample.by_nothing) tt)
  = [].
Proof.
  destruct FromHostnameOrID_id_precedence as [P1 P2].
  split.
  - destruct (P1 unit (Sample.server Sample.lab) tt Sample.client Sample.by_id
                "host-10" "esxi-02") as (T & _ & S);
      [reflexivity | discriminate | reflexivity | discriminate | ].
    split; [exact T | ]. apply S. reflexivity.
  - destruct (P2 unit (Sample.server Sample.lab) tt Sample.client Sample.by_nothing)
      as (T & _); [right; reflexivity | left; reflexivity | exact T].
Defined.

(** The DNS update against a vCenter that wants the flat payload. *)
Lemma vsphereVcenterDNSUpdate_two_payloads_witness :
  Get Sample.dns "servers" = Some (VSet Sample.dns_servers) /\
  trace (run (Sample.server Sample.lab) (vsphereVcenterDNSUpdate Sample.dns) tt)
  = [RestUpdateRequest "PUT" "/appliance/networking/dns/servers"
       (dns_payload_nested Sample.dns_servers);
     RestUpdateRequest "PUT" "/appliance/networking/dns/servers"
       (dns_payload_flat Sample.dns_servers)] /\
  outcome (run (Sample.server Sample.lab) (vsphereVcenterDNSUpdate Sample.dns) tt)
  = Returned None.
Proof.
  assert (G : Get Sample.dns "servers" = Some (VSet Sample.dns_servers)) by reflexivity.
  split; [exact G | ].
  exact (proj1 (vsphereVcenterDNSUpdate_two_payloads unit (Sample.server Sample.lab) tt
                  Sample.dns Sample.dns_servers G)).
Defined.

(** Failed resolutions: an unknown identifier, an unknown ID, an unknown
    hostname. *)
Lemma HostReturn_next_to_error_witness :
  (None = @None HostSystem /\ IDName HostReturn_zero = "" /\ Value HostReturn_zero = "") /\
  outcome (run (Sample.server Sample.lab)
             (FromHostnameOrID Sample.client Sample.by_unknown_id) tt)
  = Returned (None, {| IDName := "host_system_id"; Value := "host-99" |},
              Some (FromApi (ApiError "ManagedObjectNotFound"))) /\
  outcome (run (Sample.server Sample.twins)
             (FromHostnameOrID Sample.client Sample.by_hostname) tt)
  = Returned (None, {| IDName := "hostname"; Value := "esxi-03" |},
              Some ErrHostnameNotFound).
Proof.
  destruct (HostReturn_next_to_error Sample.IsManagedObjectNotFoundError Sample.Name)
    as (P1 & P2 & P3).
  split; [ | split].
  - apply (P1 unit (Sample.server Sample.lab) tt Sample.client "esxi-09"
             None HostReturn_zero ErrHostnameOrIDNotFound).
    reflexivity.
  - apply (P2 unit (Sample.server Sample.lab) tt Sample.client Sample.by_unknown_id
             "host-99" (FromApi (ApiError "ManagedObjectNotFound")));
      [reflexivity | discriminate | reflexivity].
  - apply (P3 unit (Sample.server Sample.twins) tt Sample.client Sample.by_hostname
             "esxi-03" ErrHostnameNotFound);
      [right; reflexivity | reflexivity | discriminate | reflexivity].
Defined.

(** ["host-10"] is in maintenance mode, ["host-11"] is not. *)
Lemma maintenance_mode_idempotent_witness :
  (outcome (run (Sample.server Sample.lab)
              (EnterMaintenanceMode Sample.VimValidateVirtualCenter Sample.int32_Seconds
                 (Sample.mkHandle "host-10" "esxi-01") 30000000000 true) tt)
   = Returned None /\
   trace (run (Sample.server Sample.lab)
            (EnterMaintenanceMode Sample.VimValidateVirtualCenter Sample.int32_Seconds
               (Sample.mkHandle "host-10" "esxi-01") 30000000000 true) tt)
   = [HostSystem_Properties (host_ref "host-10")]) /\
  (outcome (run (Sample.server Sample.lab)
              (ExitMaintenanceMode Sample.int32_Seconds
                 (Sample.mkHandle "host-11" "esxi-02") 30000000000) tt)
   = Returned None /\
   trace (run (Sample.server Sample.lab)
            (ExitMaintenanceMode Sample.int32_Seconds
               (Sample.mkHandle "host-11" "esxi-02") 30000000000) tt)
   = [HostSystem_Properties (host_ref "host-11")]).
Proof.
  destruct (maintenance_mode_idempotent Sample.VimValidateVirtualCenter
              Sample.int32_Seconds) as [P1 P2].
  split.
  - destruct (P1 unit (Sample.server Sample.lab) tt (Sample.mkHandle "host-10" "esxi-01")
                30000000000 true (Sample.mkHost "host-10" "esxi-01" true))
      as (O & T & _); [reflexivity | reflexivity | ].
    split; [exact O | exact T].
  - destruct (P2 unit (Sample.server Sample.lab) tt (Sample.mkHandle "host-11" "esxi-02")
                30000000000 (Sample.mkHost "host-11" "esxi-02" false))
      as (O & T & _); [reflexivity | reflexivity | ].
    split; [exact O | exact T].
Defined.

(** Resolution by ID, resolution by hostname, and the import of
    ["esxi-03:vmhba64"], which returns the resource data with the ID
    ["esxi-03:vmhba64"] and the attribute ["hostname"]. *)
Lemma HostReturn_records_flavor_witness :
  (ref_Value (Reference (Sample.mkHandle "host-10" "esxi-01")) = "host-10" \/
   Get Sample.by_id "hostname" = Some (VString "host-10")) /\
  ({| IDName := "hostname"; Value := "esxi-03" |}
   = {| IDName := "host_system_id";
        Value := ref_Value (Reference (Sample.mkHandle "host-20" "esxi-03")) |} \/
   {| IDName := "hostname"; Value := "esxi-03" |}
   = {| IDName := "hostname"; Value := Sample.Name (Sample.mkHandle "host-20" "esxi-03") |}) /\
  (outcome (run (Sample.server Sample.lab)
              (resourceVSphereIscsiSoftwareAdapterImport
                 Sample.IsManagedObjectNotFoundError Sample.Name
                 Sample.GetIscsiSoftwareAdater Sample.client Sample.to_import) tt)
   = Returned (inl [Sample.imported_by_name]) /\
   exists x hr d',
     outcome (run (Sample.server Sample.lab)
                (CheckIfHostnameOrID Sample.IsManagedObjectNotFoundError Sample.Name
                   Sample.client (nth 0 (strings_Split_colon (rd_Id Sample.to_import)) "")) tt)
     = Returned (Some x, hr, None) /\
     [Sample.imported_by_name] = [d'] /\
     Get d' (IDName hr) = Some (VString (Value hr)) /\
     (forall key, key <> IDName hr -> Get d' key = Get Sample.to_import key) /\
     (attr_present Sample.to_import "host_system_id" = false ->
      attr_present Sample.to_import "hostname" = false ->
      Value hr <> "" ->
      FromHostnameOrID Sample.client d' = lookup_by Sample.client hr)) /\
  ((forall hs, visible_hosts (Sample.simulate Sample.lab) = Some hs ->
               names_agree Sample.Name (Sample.simulate Sample.lab) Sample.client hs) /\
   outcome (run (static (Sample.simulate Sample.lab))
              (CheckIfHostnameOrID Sample.IsManagedObjectNotFoundError Sample.Name
                 Sample.client "esxi-03") tt)
   = Returned (Some (Sample.mkHandle "host-20" "esxi-03"),
               {| IDName := "hostname"; Value := "esxi-03" |}, None) /\
   outcome (run (static (Sample.simulate Sample.lab))
              (FromHostname Sample.client "esxi-03") tt)
   = Returned (inl (Sample.mkHandle "host-20" "esxi-03"))) /\
  (exists d',
     outcome (run (Sample.server Sample.lab)
                (resourceVSphereIscsiSoftwareAdapterImport
                   Sample.IsManagedObjectNotFoundError Sample.Name
                   Sample.GetIscsiSoftwareAdater Sample.client Sample.to_import) tt)
     = Returned (inl [d']) /\
     rd_Id d' = "esxi-03:vmhba64" /\
     Get d' "hostname" = Some (VString "esxi-03") /\
     (forall key, key <> "hostname" -> Get d' key = Get Sample.to_import key) /\
     (attr_present Sample.to_import "host_system_id" = false ->
      attr_present Sample.to_import "hostname" = false ->
      "esxi-03" <> "" ->
      FromHostnameOrID Sample.client d'
      = lookup_by Sample.client {| IDName := "hostname"; Value := "esxi-03" |})).
Proof.
  destruct (HostReturn_records_flavor Sample.IsManagedObjectNotFoundError Sample.Name
              Sample.GetIscsiSoftwareAdater) as (P1 & P2 & P3 & P4 & P5).
  assert (A : forall hs, visible_hosts (Sample.simulate Sample.lab) = Some hs ->
                names_agree Sample.Name (Sample.simulate Sample.lab) Sample.client hs).
  { intros hs V. vm_compute in V. injection V as <-.
    intros m e M L. simpl in M.
    destruct M as [<- | [<- | [<- | []]]];
      vm_compute in L; injection L as <-; reflexivity. }
  split; [ | split; [ | split; [ | split]]].
  - destruct (P1 unit (Sample.server Sample.lab) tt Sample.client Sample.by_id
                (Sample.mkHandle "host-10" "esxi-01")
                {| IDName := "host_system_id"; Value := "host-10" |})
      as [(_ & _ & _ & V) | (_ & G & _)]; [reflexivity | left; exact V | right; exact G].
  - destruct (P2 unit (Sample.server Sample.lab) tt Sample.client "esxi-03"
                (Sample.mkHandle "host-20" "esxi-03")
                {| IDName := "hostname"; Value := "esxi-03" |})
      as [(E & _) | (E & _)]; [reflexivity | left; exact E | right; exact E].
  - split; [reflexivity | ].
    apply (P3 unit (Sample.server Sample.lab) tt Sample.client Sample.to_import
              [Sample.imported_by_name]).
    reflexivity.
  - split; [exact A | split; [reflexivity | ]].
    apply (P4 (Sample.simulate Sample.lab) Sample.client "esxi-03"
              (Sample.mkHandle "host-20" "esxi-03")
              {| IDName := "hostname"; Value := "esxi-03" |});
      [reflexivity | reflexivity | exact A].
  - apply (P5 unit (Sample.server Sample.lab) tt Sample.client Sample.to_import
              (Sample.mkHandle "host-20" "esxi-03")
              {| IDName := "hostname"; Value := "esxi-03" |}
              Sample.storage_20 Sample.vmhba64); reflexivity.
Defined.

(** ** Further properties of the provider *)

Section MoreProperties.

Variable IsManagedObjectNotFoundError : error -> bool.
Variable VimValidateVirtualCenter : Client -> option error.
Variable Name : HostSystem -> string.
Variable int32_Seconds : Z -> Z.
Variable GetIscsiSoftwareAdater :
  mo_HostStorageSystem -> string -> IscsiAdapter + error.

#[local] Set Default Proof Using "Type".

(** *** The import ID *)

Lemma strings_Split_colon_not_nil (s : string) : strings_Split_colon s <> [].
Proof.
  destruct s as [ | ch rest]; simpl; [discriminate | ].
  destruct (Ascii.eqb ch ":"); [discriminate | ].
  destruct (strings_Split_colon rest); discriminate.
Qed.

Lemma strings_Split_colon_length (s : string) :
  length (strings_Split_colon s) = S (colons s).
Proof.
  induction s as [ | ch rest IH]; simpl; [reflexivity | ].
  destruct (Ascii.eqb ch ":"); simpl.
  - rewrite IH. reflexivity.
  - destruct (strings_Split_colon rest) as [ | x xs] eqn:E.
    + exfalso. exact (strings_Split_colon_not_nil rest E).
    + simpl in *. exact IH.
Qed.

Lemma strings_Split_colon_plain (s : string) :
  colons s = 0%nat -> strings_Split_colon s = [s].
Proof.
  induction s as [ | ch rest IH]; simpl; [reflexivity | ].
  destruct (Ascii.eqb ch ":"); simpl; [discriminate | ].
  intros C. rewrite (IH C). reflexivity.
Qed.

Lemma strings_Split_colon_app (v t : string) :
  colons v = 0%nat ->
  strings_Split_colon (v +:+ ":" +:+ t) = v :: strings_Split_colon t.
Proof.
  induction v as [ | ch rest IH]; simpl; [reflexivity | ].
  destruct (Ascii.eqb ch ":"); simpl; [discriminate | ].
  intros C. rewrite (IH C). reflexivity.
Qed.

Lemma colons_app (v t : string) : colons (v +:+ t) = (colons v + colons t)%nat.
Proof.
  induction v as [ | ch rest IH]; simpl; [reflexivity | ].
  rewrite IH. destruct (Ascii.eqb ch ":"); reflexivity.
Qed.

Lemma trace_CheckIfHostnameOrID (W : Type) (h : Handler W) (w : W)
    (client : Client) (tfID : string) :
  exists rest,
    trace (run h (CheckIfHostnameOrID IsManagedObjectNotFoundError Name client tfID) w)
    = Finder_Element (host_ref tfID) :: rest.
Proof.
  generalize (run_CheckIfHostnameOrID IsManagedObjectNotFoundError Name W h w client tfID).
  cbv zeta. set (res := run h _ w). clearbody res.
  destruct (h (Finder_Element (host_ref tfID)) w) as [[e | err] w1]; cbn [fst snd].
  - intros (_ & T & _). rewrite T. eexists. reflexivity.
  - destruct (IsManagedObjectNotFoundError (FromApi err));
      intros (_ & T & _); rewrite T; eexists; reflexivity.
Qed.

(** X1: the import of the iSCSI software adapter accepts an ID with exactly
    one colon.  With any other number of colons it returns the format
    error and requests nothing; with one colon its first request is the
    lookup, as an ID, of the part before the colon. *)
Theorem import_id_format :
  forall (W : Type) (h : Handler W) (w : W) (client : Client) (d : ResourceData),
    let res := run h (resourceVSphereIscsiSoftwareAdapterImport
                        IsManagedObjectNotFoundError Name GetIscsiSoftwareAdater
                        client d) w in
    (colons (rd_Id d) <> 1%nat ->
     outcome res = Returned (inr (Errorf "invalid import format.  Format should be <host_system_id | hostname>:<adapter_name>"))
     /\ trace res = []) /\
    (colons (rd_Id d) = 1%nat ->
     exists rest,
       trace res
       = Finder_Element (host_ref (nth 0 (strings_Split_colon (rd_Id d)) "")) :: rest).
Proof.
  intros W h w client d res. subst res.
  unfold resourceVSphereIscsiSoftwareAdapterImport.
  rewrite strings_Split_colon_length. split.
  - intros C. destruct (Nat.eqb (S (colons (rd_Id d))) 2) eqn:E.
    + apply Nat.eqb_eq in E. exfalso. apply C. lia.
    + simpl. auto.
  - intros C. rewrite C. cbn [Nat.eqb negb]. rewrite run_bind. cbn [trace].
    destruct (trace_CheckIfHostnameOrID W h w client
                (nth 0 (strings_Split_colon (rd_Id d)) "")) as [rest T].
    destruct (outcome (run h (CheckIfHostnameOrID _ _ client _) w));
      cbn [trace]; rewrite T; eexists; reflexivity.
Qed.

(** X2: the import never looks at the part of the ID after the colon: two
    imports that differ in the adapter name only are the same program. *)
Theorem import_ignores_adapter_name :
  forall (client : Client) (d1 d2 : ResourceData) (hostPart a1 a2 : string),
    strings_Split_colon (rd_Id d1) = [hostPart; a1] ->
    strings_Split_colon (rd_Id d2) = [hostPart; a2] ->
    rd_Attrs d1 = rd_Attrs d2 ->
    resourceVSphereIscsiSoftwareAdapterImport
      IsManagedObjectNotFoundError Name GetIscsiSoftwareAdater client d1
    = resourceVSphereIscsiSoftwareAdapterImport
        IsManagedObjectNotFoundError Name GetIscsiSoftwareAdater client d2.
Proof.
  intros client [id1 attrs1] [id2 attrs2] hostPart a1 a2 S1 S2 A.
  cbn [rd_Id rd_Attrs] in *. subst attrs2.
  unfold resourceVSphereIscsiSoftwareAdapterImport. cbn [rd_Id].
  rewrite S1, S2. reflexivity.
Qed.

(** X3: once the host is resolved, its storage system read and the
    adapter found, the import returns resource data whose ID is
    [<value>:<device>].  That ID splits back into exactly these two parts
    when neither part holds a colon; when one of them holds a colon, an
    import of the returned data is refused with the format error. *)
Theorem written_id_parses_back :
  forall (W : Type) (h : Handler W) (w : W) (client : Client)
         (d : ResourceData) (x : HostSystem) (hr : HostReturn)
         (p : mo_HostStorageSystem) (adapter : IscsiAdapter),
    length (strings_Split_colon (rd_Id d)) = 2%nat ->
    outcome (run h (CheckIfHostnameOrID IsManagedObjectNotFoundError Name client
                      (nth 0 (strings_Split_colon (rd_Id d)) "")) w)
    = Returned (Some x, hr, None) ->
    outcome (run h (GetHostStorageSystemPropertiesFromHost Name client x)
               (final (run h (CheckIfHostnameOrID IsManagedObjectNotFoundError Name client
                                (nth 0 (strings_Split_colon (rd_Id d)) "")) w)))
    = Returned (inl p) ->
    GetIscsiSoftwareAdater p (Name x) = inl adapter ->
    exists d',
      outcome (run h (resourceVSphereIscsiSoftwareAdapterImport
                        IsManagedObjectNotFoundError Name GetIscsiSoftwareAdater
                        client d) w)
      = Returned (inl [d']) /\
      rd_Id d' = Value hr +:+ ":" +:+ Device adapter /\
      (colons (Value hr) = 0%nat -> colons (Device adapter) = 0%nat ->
       strings_Split_colon (rd_Id d') = [Value hr; Device adapter]) /\
      (length (strings_Split_colon (rd_Id d')) = 2%nat <->
       colons (Value hr) = 0%nat /\ colons (Device adapter) = 0%nat) /\
      ((colons (Value hr) + colons (Device adapter))%nat <> 0%nat ->
       forall (W' : Type) (h' : Handler W') (w' : W') (client' : Client),
         outcome (run h' (resourceVSphereIscsiSoftwareAdapterImport
                            IsManagedObjectNotFoundError Name GetIscsiSoftwareAdater
                            client' d') w')
         = Returned (inr (Errorf "invalid import format.  Format should be <host_system_id | hostname>:<adapter_name>"))).
Proof.
  intros W h w client d x hr p adapter L O P A.
  exists (imported d hr adapter).
  assert (Ln : length (strings_Split_colon (rd_Id (imported d hr adapter)))
               = (2 + (colons (Value hr) + colons (Device adapter)))%nat).
  { unfold imported, Set_, SetId. cbn [rd_Id].
    rewrite strings_Split_colon_length, !colons_app. simpl. lia. }
  split; [ | split; [ | split; [ | split]]].
  - exact (import_runs IsManagedObjectNotFoundError Name GetIscsiSoftwareAdater
             W h w client d x hr p adapter L O P A).
  - reflexivity.
  - intros Cv Cd. unfold imported, Set_, SetId. cbn [rd_Id].
    rewrite (strings_Split_colon_app _ _ Cv).
    rewrite (strings_Split_colon_plain _ Cd). reflexivity.
  - rewrite Ln. lia.
  - intros C W' h' w' client'. unfold resourceVSphereIscsiSoftwareAdapterImport.
    cbv zeta. rewrite Ln.
    destruct (Nat.eqb (2 + (colons (Value hr) + colons (Device adapter))) 2) eqn:E.
    + apply Nat.eqb_eq in E. lia.
    + reflexivity.
Qed.


(** *** The search by hostname *)

(** X4: against a server without state, [FromHostname] returns the error
    [ErrHostnameNotFound] exactly when all datacenters can be listed and no
    listed host has the name; every other error it returns is either the
    error of the datacenter listing or an error made on the spot, never one
    of the two sentinels. *)
Theorem FromHostname_errors :
  forall (o : Oracle) (client : Client) (hostname : string),
    (outcome (run (static o) (FromHostname client hostname) tt)
     = Returned (inr ErrHostnameNotFound) <->
     exists hs, visible_hosts o = Some hs /\ named hostname hs = []) /\
    (forall e,
       outcome (run (static o) (FromHostname client hostname) tt) = Returned (inr e) ->
       e <> ErrHostnameNotFound ->
       (exists err, o (Finder_DatacenterList "*") = inr err /\ e = FromApi err)
       \/ (exists msg, e = Errorf msg)).
Proof.
  intros o client hostname. split.
  - exact (FromHostname_not_found_iff o client hostname).
  - intros e E N.
    pose proof (eval_FromHostname o client hostname) as H. unfold eval in H.
    rewrite E in H.
    destruct (o (Finder_DatacenterList "*")) as [dcs | err].
    + destruct H as [[-> _] | [M _]]; [contradiction | right; exact M].
    + left. exists err. auto.
Qed.

(** X5: [FromHostname] ends the process only with status 1, and only when
    the datacenters were listed and the hosts of one of them could not be;
    when all hosts can be listed and every entry refers to a host, it
    returns. *)
Theorem FromHostname_exit_only_on_view_failure :
  forall (o : Oracle) (client : Client) (hostname : string),
    (forall out code,
       outcome (run (static o) (FromHostname client hostname) tt) = Exited out code ->
       code = 1 /\ visible_hosts o = None /\
       exists dcs, o (Finder_DatacenterList "*") = inl dcs) /\
    (forall hs,
       visible_hosts o = Some hs -> host_typed hs ->
       exists res,
         outcome (run (static o) (FromHostname client hostname) tt) = Returned res).
Proof.
  intros o client hostname.
  pose proof (eval_FromHostname o client hostname) as H. unfold eval in H. split.
  - intros out code E. rewrite E in H. exact H.
  - intros hs V T.
    destruct (outcome (run (static o) (FromHostname client hostname) tt))
      as [res | out code | ].
    + exists res. reflexivity.
    + destruct H as (_ & V' & _). congruence.
    + exfalso. exact (ill_typed_match_not_typed _ _ (H hs V) T).
Qed.


Lemma lookups_app (t1 t2 : list Request) :
  lookups (t1 ++ t2) = (lookups t1 + lookups t2)%nat.
Proof. unfold lookups. rewrite List.filter_app, length_app. reflexivity. Qed.

Lemma lookups_nil : lookups [] = 0%nat.
Proof. reflexivity. Qed.

Lemma lookups_skip (rq : Request) (t : list Request) :
  is_Element rq = false -> lookups (rq :: t) = lookups t.
Proof. intros E. unfold lookups. simpl. rewrite E. reflexivity. Qed.

Lemma lookups_hit (ref : ManagedObjectReference) (t : list Request) :
  lookups (Finder_Element ref :: t) = S (lookups t).
Proof. reflexivity. Qed.

(** The inner loop stays within the budget of lookups and hands the rest
    of the budget on. *)
Lemma hosts_lookup_budget (W : Type) (h : Handler W) (client : Client)
    (hostname : string) :
  forall (ms : list mo_HostSystem) (st : scan) (w : W),
    0 <= counter st ->
    (lookups (trace (run h (FromHostname_hosts client hostname ms st) w))
     <= lookup_budget st)%nat /\
    forall st',
      outcome (run h (FromHostname_hosts client hostname ms st) w)
      = Returned (Continue st') ->
      0 <= counter st' /\
      (lookups (trace (run h (FromHostname_hosts client hostname ms st) w))
       + lookup_budget st' <= lookup_budget st)%nat.
Proof.
  induction ms as [ | m rest IH]; intros st w C.
  - cbn [FromHostname_hosts run trace outcome]. rewrite lookups_nil.
    split; [lia | ]. intros st' E. inversion E; subst. split; [exact C | lia].
  - cbn [FromHostname_hosts].
    destruct (String.eqb (mo_Name m) hostname); [ | exact (IH st w C)].
    destruct (counter st + 1 >? 1) eqn:G.
    + cbn [run trace outcome]. rewrite lookups_nil.
      split; [lia | ]. intros st' E. discriminate E.
    + rewrite Z.gtb_ltb in G. apply Z.ltb_ge in G.
      assert (B : lookup_budget st = 1%nat).
      { unfold lookup_budget. destruct (1 <=? counter st)%Z eqn:L; [ | reflexivity].
        apply Z.leb_le in L. lia. }
      rewrite B. unfold finder_ObjectReference, call.
      cbn [bind run trace outcome]. rewrite lookups_hit.
      destruct (h (Finder_Element (Self m)) w) as [[e | err] w1]; cbn [fst snd bind].
      * unfold assert_HostSystem. cbn [r].
        destruct (String.eqb (ref_Type (Self m)) "HostSystem"); cbn [bind].
        -- set (st1 := {| counter := counter st + 1; host := _ |}).
           assert (C1 : 0 <= counter st1) by (subst st1; cbn [counter]; lia).
           destruct (IH st1 w1 C1) as [I1 I2].
           assert (B1 : lookup_budget st1 = 0%nat).
           { unfold lookup_budget. subst st1. cbn [counter].
             destruct (1 <=? counter st + 1)%Z eqn:L; [reflexivity | ].
             apply Z.leb_gt in L. lia. }
           rewrite B1 in I1, I2.
           split; [lia | ]. intros st' E. destruct (I2 st' E) as [C' I3].
           split; [exact C' | lia].
        -- cbn [run trace outcome]. rewrite lookups_nil.
           split; [lia | ]. intros st' E. discriminate E.
      * cbn [run trace outcome]. rewrite lookups_nil.
        split; [lia | ]. intros st' E. discriminate E.
Qed.

(** So does the outer loop. *)
Lemma datacenters_lookup_budget (W : Type) (h : Handler W) (client : Client)
    (hostname : string) :
  forall (dcs : list Datacenter) (st : scan) (w : W),
    0 <= counter st ->
    (lookups (trace (run h (FromHostname_datacenters client hostname dcs st) w))
     <= lookup_budget st)%nat /\
    forall st',
      outcome (run h (FromHostname_datacenters client hostname dcs st) w)
      = Returned (Continue st') ->
      0 <= counter st' /\
      (lookups (trace (run h (FromHostname_datacenters client hostname dcs st) w))
       + lookup_budget st' <= lookup_budget st)%nat.
Proof.
  induction dcs as [ | dc rest IH]; intros st w C.
  - cbn [FromHostname_datacenters run trace outcome]. rewrite lookups_nil.
    split; [lia | ]. intros st' E. inversion E; subst. split; [exact C | lia].
  - cbn [FromHostname_datacenters]. unfold call. cbn [bind run trace outcome].
    rewrite lookups_skip by reflexivity.
    destruct (h (CreateContainerView (dc_Reference dc) ["HostSystem"] true) w)
      as [[dcView | err] w1]; cbn [fst snd bind run trace outcome].
    + rewrite lookups_skip by reflexivity.
      destruct (h (RetrieveWithFilter dcView ["HostSystem"] ["name"]) w1)
        as [[moHosts | err] w2]; cbn [fst snd bind run trace outcome].
      * rewrite run_bind.
        destruct (hosts_lookup_budget W h client hostname moHosts st w2 C) as [H1 H2].
        destruct (outcome (run h (FromHostname_hosts client hostname moHosts st) w2))
          as [[st1 | e] | out code | ] eqn:O; cbn [outcome trace].
        -- destruct (H2 st1 eq_refl) as [C1 H3].
           destruct (IH st1 (final (run h (FromHostname_hosts client hostname moHosts st) w2)) C1)
             as [I1 I2].
           rewrite lookups_app. split; [lia | ].
           intros st' E. destruct (I2 st' E) as [C' I3]. split; [exact C' | lia].
        -- cbn [run trace outcome]. rewrite app_nil_r.
           split; [exact H1 | ]. intros st' E. discriminate E.
        -- split; [exact H1 | ]. intros st' E. discriminate E.
        -- split; [exact H1 | ]. intros st' E. discriminate E.
      * rewrite lookups_nil. split; [lia | ]. intros st' E. discriminate E.
    + rewrite lookups_nil. split; [lia | ]. intros st' E. discriminate E.
Qed.

(** X6: whatever the server answers, [FromHostname] looks up at most one
    host object; a second host with the name ends the search before its
    object is looked up. *)
Theorem FromHostname_one_lookup :
  forall (W : Type) (h : Handler W) (w : W) (client : Client) (hostname : string),
    (lookups (trace (run h (FromHostname client hostname) w)) <= 1)%nat.
Proof.
  intros W h w client hostname. unfold FromHostname, call.
  cbn [bind run trace]. rewrite lookups_skip by reflexivity.
  destruct (h (Finder_DatacenterList "*") w) as [[dcs | err] w1]; cbn [fst snd bind].
  - rewrite run_bind.
    destruct (datacenters_lookup_budget W h client hostname dcs
                {| counter := 0; host := None |} w1) as [H _]; [cbn; lia | ].
    change (lookup_budget {| counter := 0; host := None |}) with 1%nat in H.
    destruct (outcome (run h (FromHostname_datacenters client hostname dcs _) w1))
      as [[st | e] | out code | ]; cbn [trace outcome]; try exact H.
    + destruct (host st); cbn [run trace]; rewrite app_nil_r; exact H.
    + cbn [run trace]. rewrite app_nil_r. exact H.
  - cbn [run trace]. rewrite lookups_nil. lia.
Qed.


(** Hosts with another name leave the scan as it is. *)
Lemma scan_hosts_no_match (o : Oracle) (client : Client) (hostname : string) :
  forall (ms : list mo_HostSystem) (st : scan),
    named hostname ms = [] ->
    eval o (FromHostname_hosts client hostname ms st) = Returned (Continue st).
Proof.
  induction ms as [ | m rest IH]; intros st N; [reflexivity | ].
  cbn [FromHostname_hosts].
  destruct (String.eqb (mo_Name m) hostname) eqn:E.
  - rewrite (named_cons_eq _ _ _ E) in N. discriminate N.
  - rewrite (named_cons_ne _ _ _ E) in N. exact (IH st N).
Qed.

(** The one host with the name is looked up and kept. *)
Lemma scan_hosts_one_match (o : Oracle) (client : Client) (hostname : string)
    (m : mo_HostSystem) (e : Element) :
  ref_Type (Self m) = "HostSystem" ->
  o (Finder_Element (Self m)) = inl e ->
  forall (ms : list mo_HostSystem) (st : scan),
    counter st = 0 ->
    named hostname ms = [m] ->
    eval o (FromHostname_hosts client hostname ms st)
    = Returned (Continue {| counter := 1; host := Some (handle client (Self m) e) |}).
Proof.
  intros T L. induction ms as [ | m' rest IH]; intros st C N; [discriminate N | ].
  cbn [FromHostname_hosts].
  destruct (String.eqb (mo_Name m') hostname) eqn:E.
  - rewrite (named_cons_eq _ _ _ E) in N. injection N as -> N.
    rewrite C. change (0 + 1 >? 1) with false. cbv iota.
    unfold finder_ObjectReference. rewrite !eval_bind, eval_call, L, !eval_Ret.
    unfold assert_HostSystem. cbn [r]. rewrite T. cbn [String.eqb Ascii.eqb Bool.eqb].
    rewrite eval_bind, eval_Ret.
    exact (scan_hosts_no_match o client hostname rest _ N).
  - rewrite (named_cons_ne _ _ _ E) in N. exact (IH st C N).
Qed.

Lemma scan_datacenters_no_match (o : Oracle) (client : Client) (hostname : string) :
  forall (dcs : list Datacenter) (hs : list mo_HostSystem) (st : scan),
    hosts_of_datacenters o dcs = Some hs ->
    named hostname hs = [] ->
    eval o (FromHostname_datacenters client hostname dcs st) = Returned (Continue st).
Proof.
  induction dcs as [ | dc rest IH]; intros hs st V N; [reflexivity | ].
  cbn [FromHostname_datacenters hosts_of_datacenters] in *.
  rewrite eval_bind, eval_call.
  destruct (o (CreateContainerView (dc_Reference dc) ["HostSystem"] true))
    as [dcView | err]; [ | discriminate V].
  rewrite eval_bind, eval_call.
  destruct (o (RetrieveWithFilter dcView ["HostSystem"] ["name"]))
    as [moHosts | err]; [ | discriminate V].
  destruct (hosts_of_datacenters o rest) as [more | ] eqn:R; [ | discriminate V].
  injection V as <-. rewrite named_app in N. apply app_eq_nil in N.
  destruct N as [N1 N2].
  rewrite eval_bind, (scan_hosts_no_match o client hostname moHosts st N1).
  exact (IH more st eq_refl N2).
Qed.

Lemma scan_datacenters_one_match (o : Oracle) (client : Client) (hostname : string)
    (m : mo_HostSystem) (e : Element) :
  ref_Type (Self m) = "HostSystem" ->
  o (Finder_Element (Self m)) = inl e ->
  forall (dcs : list Datacenter) (hs : list mo_HostSystem) (st : scan),
    counter st = 0 ->
    hosts_of_datacenters o dcs = Some hs ->
    named hostname hs = [m] ->
    eval o (FromHostname_datacenters client hostname dcs st)
    = Returned (Continue {| counter := 1; host := Some (handle client (Self m) e) |}).
Proof.
  intros T L. induction dcs as [ | dc rest IH]; intros hs st C V N.
  - cbn in V. injection V as <-. discriminate N.
  - cbn [FromHostname_datacenters hosts_of_datacenters] in *.
    rewrite eval_bind, eval_call.
    destruct (o (CreateContainerView (dc_Reference dc) ["HostSystem"] true))
      as [dcView | err]; [ | discriminate V].
    rewrite eval_bind, eval_call.
    destruct (o (RetrieveWithFilter dcView ["HostSystem"] ["name"]))
      as [moHosts | err]; [ | discriminate V].
    destruct (hosts_of_datacenters o rest) as [more | ] eqn:R; [ | discriminate V].
    injection V as <-. rewrite named_app in N. rewrite eval_bind.
    destruct (named hostname moHosts) as [ | m1 l1] eqn:N1.
    + rewrite (scan_hosts_no_match o client hostname moHosts st N1).
      exact (IH more st C eq_refl N).
    + injection N as -> N. apply app_eq_nil in N. destruct N as [-> N2].
      rewrite (scan_hosts_one_match o client hostname m e T L moHosts st C N1).
      exact (scan_datacenters_no_match o client hostname rest more _ R N2).
Qed.

Lemma eval_FromHostname_unique (o : Oracle) (client : Client) (hostname : string)
    (hs : list mo_HostSystem) (m : mo_HostSystem) (e : Element) :
  visible_hosts o = Some hs ->
  named hostname hs = [m] ->
  ref_Type (Self m) = "HostSystem" ->
  o (Finder_Element (Self m)) = inl e ->
  eval o (FromHostname client hostname) = Returned (inl (handle client (Self m) e)).
Proof.
  intros V N T L.
  unfold FromHostname, visible_hosts in *. rewrite eval_bind, eval_call.
  destruct (o (Finder_DatacenterList "*")) as [dcs | err]; [ | discriminate V].
  rewrite eval_bind.
  rewrite (scan_datacenters_one_match o client hostname m e T L dcs hs
             {| counter := 0; host := None |} eq_refl V N).
  reflexivity.
Qed.

(** X7: against a server without state that lists exactly one host with
    the requested name, [FromHostname] returns the handle of that host as
    soon as the entry refers to a host and its object can be looked up. *)
Theorem FromHostname_finds_unique_host :
  forall (o : Oracle) (client : Client) (hostname : string)
         (hs : list mo_HostSystem) (m : mo_HostSystem) (e : Element),
    visible_hosts o = Some hs ->
    named hostname hs = [m] ->
    ref_Type (Self m) = "HostSystem" ->
    o (Finder_Element (Self m)) = inl e ->
    outcome (run (static o) (FromHostname client hostname) tt)
    = Returned (inl (handle client (Self m) e)).
Proof.
  intros o client hostname hs m e V N T L.
  exact (eval_FromHostname_unique o client hostname hs m e V N T L).
Qed.


(** *** Identifiers that are an ID or a hostname *)

(** [CheckIfHostnameOrID] against a server without state. *)
Lemma eval_CheckIfHostnameOrID (o : Oracle) (client : Client) (tfID : string) :
  eval o (CheckIfHostnameOrID IsManagedObjectNotFoundError Name client tfID) =
  match o (Finder_Element (host_ref tfID)) with
  | inl e =>
      Returned (Some (handle client (host_ref tfID) e),
                {| IDName := "host_system_id"; Value := tfID |}, None)
  | inr err =>
      if IsManagedObjectNotFoundError (FromApi err) then
        match eval o (FromHostname client tfID) with
        | Returned res2 => Returned (after_hostname Name res2)
        | Exited out code => Exited out code
        | Panicked => Panicked
        end
      else Returned (None, HostReturn_zero, Some (FromApi err))
  end.
Proof.
  generalize (run_CheckIfHostnameOrID IsManagedObjectNotFoundError Name
                unit (static o) tt client tfID).
  cbv zeta. unfold eval. cbn [static fst snd].
  destruct (o (Finder_Element (host_ref tfID))) as [e | err].
  - intros (O & _). exact O.
  - destruct (IsManagedObjectNotFoundError (FromApi err)); intros (O & _); exact O.
Qed.

(** X8: against a server without state, [CheckIfHostnameOrID] returns
    [ErrHostnameOrIDNotFound] exactly when the lookup by ID fails with an
    error classified as "managed object not found", all datacenters can be
    listed, and no listed host has the identifier as its name. *)
Theorem CheckIfHostnameOrID_not_found_iff :
  forall (o : Oracle) (client : Client) (tfID : string),
    (exists host hr,
       outcome (run (static o)
                  (CheckIfHostnameOrID IsManagedObjectNotFoundError Name client tfID) tt)
       = Returned (host, hr, Some ErrHostnameOrIDNotFound))
    <->
    (exists err, o (Finder_Element (host_ref tfID)) = inr err /\
                 IsManagedObjectNotFoundError (FromApi err) = true) /\
    (exists hs, visible_hosts o = Some hs /\ named tfID hs = []).
Proof.
  intros o client tfID.
  change (outcome (run (static o)
            (CheckIfHostnameOrID IsManagedObjectNotFoundError Name client tfID) tt))
    with (eval o (CheckIfHostnameOrID IsManagedObjectNotFoundError Name client tfID)).
  rewrite eval_CheckIfHostnameOrID.
  pose proof (eval_FromHostname o client tfID) as F.
  pose proof (FromHostname_not_found_iff o client tfID) as S.
  destruct (o (Finder_Element (host_ref tfID))) as [e | err] eqn:A.
  - split.
    + intros (host & hr & E). discriminate E.
    + intros [(err & E & _) _]. discriminate E.
  - destruct (IsManagedObjectNotFoundError (FromApi err)) eqn:C.
    + split.
      * intros (host & hr & E). split; [exists err; auto | ].
        apply S.
        destruct (eval o (FromHostname client tfID)) as [[x | e2] | out code | ];
          try discriminate E.
        unfold after_hostname in E.
        destruct e2 as [ | | msg | ae]; cbn in E; try discriminate E; try reflexivity.
        exfalso.
        destruct (o (Finder_DatacenterList "*")).
        -- destruct F as [[F _] | [[msg F] _]]; discriminate F.
        -- discriminate F.
      * intros [_ V]. apply S in V. rewrite V. cbn. eexists _, _. reflexivity.
    + split.
      * intros (host & hr & E). discriminate E.
      * intros [(err' & E & C') _]. injection E as <-. congruence.
Qed.

(** X9: the fallback from end to end, against a server without state: when
    the identifier is not found as an ID and exactly one listed host has it
    as its name, [CheckIfHostnameOrID] returns the handle of that host and
    a [HostReturn] with the attribute ["hostname"] and the name of the
    handle. *)
Theorem CheckIfHostnameOrID_resolves_hostname :
  forall (o : Oracle) (client : Client) (tfID : string) (err : api_error)
         (hs : list mo_HostSystem) (m : mo_HostSystem) (e : Element),
    o (Finder_Element (host_ref tfID)) = inr err ->
    IsManagedObjectNotFoundError (FromApi err) = true ->
    visible_hosts o = Some hs ->
    named tfID hs = [m] ->
    ref_Type (Self m) = "HostSystem" ->
    o (Finder_Element (Self m)) = inl e ->
    outcome (run (static o)
               (CheckIfHostnameOrID IsManagedObjectNotFoundError Name client tfID) tt)
    = Returned (Some (handle client (Self m) e),
                {| IDName := "hostname"; Value := Name (handle client (Self m) e) |},
                None).
Proof.
  intros o client tfID err hs m e A C V N T L.
  change (eval o (CheckIfHostnameOrID IsManagedObjectNotFoundError Name client tfID)
          = Returned (Some (handle client (Self m) e),
                      {| IDName := "hostname"; Value := Name (handle client (Self m) e) |},
                      None)).
  rewrite eval_CheckIfHostnameOrID, A, C.
  rewrite (eval_FromHostname_unique o client tfID hs m e V N T L). reflexivity.
Qed.


(** *** Maintenance mode *)

(** X10: every request of [EnterMaintenanceMode] to change the mode is for
    the host itself, with the timeout in whole seconds, and with the
    evacuation flag of the caller on vCenter but [false] on a connection
    that is not to a vCenter. *)
Theorem EnterMaintenanceMode_request :
  forall (W : Type) (h : Handler W) (w : W) (host : HostSystem) (timeout : Z)
         (evacuate : bool) (ref : ManagedObjectReference) (t : Z) (ev : bool),
    In (HostSystem_EnterMaintenanceMode ref t ev)
       (trace (run h (EnterMaintenanceMode VimValidateVirtualCenter int32_Seconds
                        host timeout evacuate) w)) ->
    ref = Reference host /\ t = int32_Seconds timeout /\
    ev = match VimValidateVirtualCenter (Client_of host) with
         | Some _ => false
         | None => evacuate
         end.
Proof.
  intros W h w host timeout evacuate ref t ev.
  unfold EnterMaintenanceMode, HostInMaintenance, Properties, call.
  cbn [bind run trace].
  destruct (h (HostSystem_Properties (Reference host)) w) as [[p | err] w1];
    cbn [fst snd bind run trace];
    [ | intros [I | []]; discriminate I].
  destruct (Runtime_InMaintenanceMode p); cbn [bind run trace];
    [intros [I | []]; discriminate I | ].
  match goal with
  | |- context [h ?rq w1] => destruct (h rq w1) as [[task | err] w2]
  end; cbn [fst snd bind run trace].
  - destruct (h (Task_Wait task) w2) as [[err | ] w3]; cbn [fst snd bind run trace].
    + intros [I | [I | [I | []]]]; try discriminate I.
      injection I as <- <- <-. auto.
    + destruct (h (Task_Properties task) w3) as [[to | err] w4];
        cbn [fst snd bind run trace];
        [destruct (negb (String.eqb (Info_State to) "success")); cbn [run trace] | ];
        intros [I | [I | [I | [I | []]]]]; try discriminate I;
        injection I as <- <- <-; auto.
  - intros [I | [I | []]]; try discriminate I.
    injection I as <- <- <-. auto.
Qed.

(** X11: against a server without state [EnterMaintenanceMode] always
    returns, and it returns [nil] exactly when the host reports to be in
    maintenance mode already, or the task is created, waited for, read,
    and is in state ["success"]. *)
Theorem EnterMaintenanceMode_nil_iff :
  forall (o : Oracle) (host : HostSystem) (timeout : Z) (evacuate : bool),
    let ev := match VimValidateVirtualCenter (Client_of host) with
              | Some _ => false
              | None => evacuate
              end in
    let res := outcome (run (static o)
                          (EnterMaintenanceMode VimValidateVirtualCenter int32_Seconds
                             host timeout evacuate) tt) in
    (exists r, res = Returned r) /\
    (res = Returned None <->
     exists p,
       o (HostSystem_Properties (Reference host)) = inl p /\
       (Runtime_InMaintenanceMode p = true \/
        exists task to,
          o (HostSystem_EnterMaintenanceMode (Reference host)
               (int32_Seconds timeout) ev) = inl task /\
          o (Task_Wait task) = None /\
          o (Task_Properties task) = inl to /\
          Info_State to = "success")).
Proof.
  intros o host timeout evacuate ev res. subst res.
  unfold EnterMaintenanceMode, HostInMaintenance, Properties, call.
  fold ev. cbn [bind run outcome static fst snd].
  destruct (o (HostSystem_Properties (Reference host))) as [p | err];
    cbn [bind run outcome static fst snd].
  2: { split; [eexists; reflexivity | ]. split; [discriminate | ].
       intros (p & E & _). discriminate E. }
  destruct (Runtime_InMaintenanceMode p) eqn:M; cbn [bind run outcome static fst snd].
  { split; [eexists; reflexivity | ]. split; [ | reflexivity].
    intros _. exists p. auto. }
  destruct (o (HostSystem_EnterMaintenanceMode (Reference host)
                 (int32_Seconds timeout) ev)) as [task | err];
    cbn [bind run outcome static fst snd].
  2: { split; [eexists; reflexivity | ]. split; [discriminate | ].
       intros (p' & E & [M' | (task & to & E' & _)]).
       - injection E as <-. congruence.
       - discriminate E'. }
  destruct (o (Task_Wait task)) as [err | ] eqn:Wt; cbn [bind run outcome static fst snd].
  { split; [eexists; reflexivity | ]. split; [discriminate | ].
    intros (p' & E & [M' | (task' & to & E' & Wt' & _)]).
    - injection E as <-. congruence.
    - injection E' as <-. congruence. }
  destruct (o (Task_Properties task)) as [to | err] eqn:Tp; cbn [bind run outcome static fst snd].
  2: { split; [eexists; reflexivity | ]. split; [discriminate | ].
       intros (p' & E & [M' | (task' & to & E' & _ & Tp' & _)]).
       - injection E as <-. congruence.
       - injection E' as <-. congruence. }
  destruct (String.eqb (Info_State to) "success") eqn:St; cbn [negb run outcome static fst snd].
  - split; [eexists; reflexivity | ]. split; [ | reflexivity].
    intros _. exists p. split; [reflexivity | right].
    exists task, to. apply String.eqb_eq in St. auto.
  - split; [eexists; reflexivity | ]. split; [discriminate | ].
    intros (p' & E & [M' | (task' & to' & E' & _ & Tp' & St')]).
    + injection E as <-. congruence.
    + injection E' as <-. rewrite Tp in Tp'. injection Tp' as <-.
      apply String.eqb_neq in St. contradiction.
Qed.


(** X12: against a server without state [ExitMaintenanceMode] always
    returns, and it returns [nil] exactly when the host reports not to be
    in maintenance mode, or the task is created, waited for, read, and is
    in state ["success"]. *)
Theorem ExitMaintenanceMode_nil_iff :
  forall (o : Oracle) (host : HostSystem) (timeout : Z),
    let res := outcome (run (static o)
                          (ExitMaintenanceMode int32_Seconds host timeout) tt) in
    (exists r, res = Returned r) /\
    (res = Returned None <->
     exists p,
       o (HostSystem_Properties (Reference host)) = inl p /\
       (Runtime_InMaintenanceMode p = false \/
        exists task to,
          o (HostSystem_ExitMaintenanceMode (Reference host)
               (int32_Seconds timeout)) = inl task /\
          o (Task_Wait task) = None /\
          o (Task_Properties task) = inl to /\
          Info_State to = "success")).
Proof.
  intros o host timeout res. subst res.
  unfold ExitMaintenanceMode, HostInMaintenance, Properties, call.
  cbn [bind run outcome static fst snd].
  destruct (o (HostSystem_Properties (Reference host))) as [p | err];
    cbn [bind run outcome static fst snd].
  2: { split; [eexists; reflexivity | ]. split; [discriminate | ].
       intros (p & E & _). discriminate E. }
  destruct (Runtime_InMaintenanceMode p) eqn:M;
    cbn [negb bind run outcome static fst snd].
  2: { split; [eexists; reflexivity | ]. split; [ | reflexivity].
       intros _. exists p. auto. }
  destruct (o (HostSystem_ExitMaintenanceMode (Reference host)
                 (int32_Seconds timeout))) as [task | err];
    cbn [bind run outcome static fst snd].
  2: { split; [eexists; reflexivity | ]. split; [discriminate | ].
       intros (p' & E & [M' | (task & to & E' & _)]).
       - injection E as <-. congruence.
       - discriminate E'. }
  destruct (o (Task_Wait task)) as [err | ] eqn:Wt;
    cbn [bind run outcome static fst snd].
  { split; [eexists; reflexivity | ]. split; [discriminate | ].
    intros (p' & E & [M' | (task' & to & E' & Wt' & _)]).
    - injection E as <-. congruence.
    - injection E' as <-. congruence. }
  destruct (o (Task_Properties task)) as [to | err] eqn:Tp;
    cbn [bind run outcome static fst snd].
  2: { split; [eexists; reflexivity | ]. split; [discriminate | ].
       intros (p' & E & [M' | (task' & to & E' & _ & Tp' & _)]).
       - injection E as <-. congruence.
       - injection E' as <-. congruence. }
  destruct (String.eqb (Info_State to) "success") eqn:St;
    cbn [negb run outcome static fst snd].
  - split; [eexists; reflexivity | ]. split; [ | reflexivity].
    intros _. exists p. split; [reflexivity | right].
    exists task, to. apply String.eqb_eq in St. auto.
  - split; [eexists; reflexivity | ]. split; [discriminate | ].
    intros (p' & E & [M' | (task' & to' & E' & _ & Tp' & St')]).
    + injection E as <-. congruence.
    + injection E' as <-. rewrite Tp in Tp'. injection Tp' as <-.
      apply String.eqb_neq in St. contradiction.
Qed.

(** *** Names and storage systems of hosts *)

(** X13: [NameOrID] never fails: after its one request, the lookup of the
    ID, it returns the name of the host found, and the ID itself whenever
    that lookup fails. *)
Theorem NameOrID_total :
  forall (W : Type) (h : Handler W) (w : W) (client : Client) (id : string),
    let res := run h (NameOrID Name client id) w in
    trace res = [Finder_Element (host_ref id)] /\
    outcome res =
    Returned match fst (h (Finder_Element (host_ref id)) w) with
             | inl e => Name (handle client (host_ref id) e)
             | inr _ => id
             end.
Proof.
  intros W h w client id res. subst res.
  unfold NameOrID, hostSystemNameFromID.
  rewrite !run_bind, run_FromID. cbn [outcome trace final].
  destruct (h (Finder_Element (host_ref id)) w) as [[e | err] w1];
    cbn [fst snd run outcome trace app]; split; reflexivity.
Qed.

(** X14: [GetHostStorageSystemPropertiesFromHost] reads the properties of
    the host and then those of the storage system that the host names.
    When the host names no storage system, the function panics after the
    first request; an error of either request is returned inside a new
    error that carries the name of the host. *)
Theorem GetHostStorageSystemPropertiesFromHost_run :
  forall (W : Type) (h : Handler W) (w : W) (client : Client) (host : HostSystem),
    let first := HostSystem_Properties (Reference host) in
    let res := run h (GetHostStorageSystemPropertiesFromHost Name client host) w in
    match fst (h first w) with
    | inr err =>
        trace res = [first] /\
        outcome res =
        Returned (inr (Errorf ("error trying to retrieve host system properties for host '"
                               +:+ Name host +:+ "': " +:+ Error (FromApi err))))
    | inl p =>
        match ConfigManager_StorageSystem p with
        | None => trace res = [first] /\ outcome res = Panicked
        | Some ref =>
            trace res = [first; HostStorageSystem_Properties ref] /\
            outcome res =
            Returned match fst (h (HostStorageSystem_Properties ref) (snd (h first w))) with
                     | inl hssProps => inl hssProps
                     | inr err =>
                         inr (Errorf ("error trying to retrieve host storage system properties for host '"
                                      +:+ Name host +:+ "': " +:+ Error (FromApi err)))
                     end
        end
    end.
Proof.
  intros W h w client host first res. subst res first.
  unfold GetHostStorageSystemPropertiesFromHost, GetHostStorageSystemFromHost,
    HostStorageSystemProperties, Properties, call.
  cbn [bind run outcome trace].
  destruct (h (HostSystem_Properties (Reference host)) w) as [[p | err] w1];
    cbn [fst snd bind run outcome trace]; [ | auto].
  destruct (ConfigManager_StorageSystem p) as [ref | ];
    cbn [bind run outcome trace hss_Reference]; [ | auto].
  destruct (h (HostStorageSystem_Properties ref) w1) as [[hp | err] w2];
    cbn [fst snd bind run outcome trace]; auto.
Qed.


(** *** Reading the iSCSI software adapter *)

Lemma FromHostnameOrID_same_attributes (client : Client) (d d' : ResourceData) :
  Get d' "host_system_id" = Get d "host_system_id" ->
  Get d' "hostname" = Get d "hostname" ->
  FromHostnameOrID client d' = FromHostnameOrID client d.
Proof.
  intros Gi Gh. unfold FromHostnameOrID, attr_present. rewrite Gi, Gh. reflexivity.
Qed.

(** X15: a read of the iSCSI software adapter leaves the ID of the resource
    and every attribute but ["iscsi_name"] and ["adapter_id"] as they were,
    so that the next resolution of the host by [FromHostnameOrID] is the
    same program; when the read returns an error, the resource data is
    untouched. *)
Theorem iscsiSoftwareAdapterRead_keeps_identity :
  forall (W : Type) (h : Handler W) (w : W) (client : Client)
         (d : ResourceData) (isDataSource : bool)
         (d' : ResourceData) (err : option error),
    outcome (run h (iscsiSoftwareAdapterRead Name GetIscsiSoftwareAdater
                      client d isDataSource) w)
    = Returned (d', err) ->
    rd_Id d' = rd_Id d /\
    (forall key, key <> "iscsi_name" -> key <> "adapter_id" ->
                 Get d' key = Get d key) /\
    FromHostnameOrID client d' = FromHostnameOrID client d /\
    (err <> None -> d' = d).
Proof.
  intros W h w client d isDataSource d' err.
  assert (Same : rd_Id d = rd_Id d /\
                 (forall key, key <> "iscsi_name" -> key <> "adapter_id" ->
                              Get d key = Get d key) /\
                 FromHostnameOrID client d = FromHostnameOrID client d /\
                 (err <> None -> d = d)) by auto.
  unfold iscsiSoftwareAdapterRead. rewrite run_bind.
  destruct (outcome (run h (FromHostnameOrID client d) w))
    as [[[[host | ] hr] [e | ]] | out code | ]; try (cbn; discriminate).
  - cbn. intros E. inversion E; subst. exact Same.
  - cbv zeta. cbn [outcome]. rewrite run_bind.
    destruct (outcome (run h (GetHostStorageSystemPropertiesFromHost Name client host) _))
      as [[p | e] | out code | ]; try (cbn; discriminate).
    + cbv zeta. cbn [outcome].
      destruct (StorageDeviceInfo p) as [info | ]; [ | cbn; discriminate].
      destruct (SoftwareInternetScsiEnabled info).
      * destruct (GetIscsiSoftwareAdater p (Name host)) as [adapter | e];
          cbn [run outcome]; intros E; inversion E; subst; [ | exact Same].
        assert (G : forall key, key <> "iscsi_name" -> key <> "adapter_id" ->
                      Get (Set_ (Set_ d "iscsi_name" (VString (IScsiName adapter)))
                             "adapter_id" (VString (Device adapter))) key
                      = Get d key).
        { intros key N1 N2. rewrite Get_Set_ne by congruence.
          apply Get_Set_ne. congruence. }
        split; [reflexivity | split; [exact G | split]].
        -- apply FromHostnameOrID_same_attributes; apply G; discriminate.
        -- intros N. contradiction.
      * destruct isDataSource; cbn [run outcome]; intros E; inversion E; subst;
          exact Same.
    + cbn. intros E. inversion E; subst. exact Same.
  - cbn. intros E. inversion E; subst. exact Same.
Qed.

(** X16: once the host is resolved and its storage system read, against a
    server without state: when the answer carries no storage device
    information, the read panics; when the software adapter is disabled,
    the read of the resource returns [nil] and changes nothing while the
    read of the data source returns an error; when it is enabled and the
    adapter is found, the read stores its name and its device. *)
Theorem iscsiSoftwareAdapterRead_by_state :
  forall (o : Oracle) (client : Client) (d : ResourceData) (host : HostSystem)
         (hr : HostReturn) (p : mo_HostStorageSystem),
    eval o (FromHostnameOrID client d) = Returned (Some host, hr, None) ->
    eval o (GetHostStorageSystemPropertiesFromHost Name client host)
    = Returned (inl p) ->
    (StorageDeviceInfo p = None ->
     forall isDataSource,
       eval o (iscsiSoftwareAdapterRead Name GetIscsiSoftwareAdater client d isDataSource)
       = Panicked) /\
    (StorageDeviceInfo p = Some {| SoftwareInternetScsiEnabled := false |} ->
     eval o (resourceVSphereIscsiSoftwareAdapterRead Name GetIscsiSoftwareAdater client d)
     = Returned (d, None) /\
     eval o (iscsiSoftwareAdapterRead Name GetIscsiSoftwareAdater client d true)
     = Returned (d, Some (Errorf ("iscsi software adapter is not enabled for host '"
                                  +:+ Name host +:+ "'")))) /\
    (forall adapter isDataSource,
       StorageDeviceInfo p = Some {| SoftwareInternetScsiEnabled := true |} ->
       GetIscsiSoftwareAdater p (Name host) = inl adapter ->
       exists d',
         eval o (iscsiSoftwareAdapterRead Name GetIscsiSoftwareAdater client d isDataSource)
         = Returned (d', None) /\
         Get d' "iscsi_name" = Some (VString (IScsiName adapter)) /\
         Get d' "adapter_id" = Some (VString (Device adapter))).
Proof.
  intros o client d host hr p R S. split; [ | split].
  - intros Nil isDataSource. unfold iscsiSoftwareAdapterRead.
    rewrite eval_bind, R. cbv zeta. rewrite eval_bind, S, Nil. reflexivity.
  - intros Off. unfold resourceVSphereIscsiSoftwareAdapterRead, iscsiSoftwareAdapterRead.
    rewrite !eval_bind, R. cbv zeta. rewrite !eval_bind, S, Off. split; reflexivity.
  - intros adapter isDataSource On A. unfold iscsiSoftwareAdapterRead.
    rewrite eval_bind, R. cbv zeta. rewrite eval_bind, S, On.
    cbn [SoftwareInternetScsiEnabled]. rewrite A.
    eexists. split; [reflexivity | split].
    + rewrite Get_Set_ne by discriminate. apply Get_Set_eq.
    + apply Get_Set_eq.
Qed.


(** *** The DNS resource *)

(** X17: the creation of the DNS resource sets the fixed ID
    ["tf-vcenter-dns"] exactly when one of the two PUT requests of the
    update succeeds; when both fail, it returns the error and leaves the
    resource data, the ID included, as it was. *)
Theorem resourceVSphereVcenterDNSCreate_id :
  forall (W : Type) (h : Handler W) (w : W) (d : ResourceData)
         (servers : list string),
    Get d "servers" = Some (VSet servers) ->
    let put1 := RestUpdateRequest "PUT" "/appliance/networking/dns/servers"
                  (dns_payload_nested servers) in
    let put2 := RestUpdateRequest "PUT" "/appliance/networking/dns/servers"
                  (dns_payload_flat servers) in
    outcome (run h (resourceVSphereVcenterDNSCreate d) w) =
    Returned match fst (h put1 w), fst (h put2 (snd (h put1 w))) with
             | None, _ => (SetId d "tf-vcenter-dns", None)
             | Some _, None => (SetId d "tf-vcenter-dns", None)
             | Some _, Some e =>
                 (d, Some (Errorf ("error making update request for dns server config: "
                                   +:+ Error e)))
             end.
Proof.
  intros W h w d servers G put1 put2. subst put1 put2.
  unfold resourceVSphereVcenterDNSCreate, vsphereVcenterDNSUpdate,
    dns_payload_nested, dns_payload_flat. rewrite G.
  unfold assert_Set_List, call, http_MethodPut, dnsServersPath, vsphereVcenterDnsID.
  cbn [bind run outcome].
  destruct (h (RestUpdateRequest _ _ (JObject [("config", _)])) w) as [[e1 | ] w1];
    cbn [fst snd bind run outcome]; [ | reflexivity].
  destruct (h (RestUpdateRequest _ _ _) w1) as [[e2 | ] w2];
    cbn [fst snd bind run outcome]; reflexivity.
Qed.

(** X18: the deletion of the DNS resource sends one PUT, the empty server
    list nested under ["config"], and has no second payload: when that
    request fails it returns an error, where the update of an empty server
    list, whose first request is the same, goes on to the flat payload. *)
Theorem resourceVSphereVcenterDNSDelete_one_payload :
  forall (W : Type) (h : Handler W) (w : W),
    let put1 := RestUpdateRequest "PUT" "/appliance/networking/dns/servers"
                  (dns_payload_nested []) in
    let put2 := RestUpdateRequest "PUT" "/appliance/networking/dns/servers"
                  (dns_payload_flat []) in
    trace (run h resourceVSphereVcenterDNSDelete w) = [put1] /\
    outcome (run h resourceVSphereVcenterDNSDelete w) =
    Returned match fst (h put1 w) with
             | None => None
             | Some e => Some (Errorf ("error deleting dns server config: " +:+ Error e))
             end /\
    forall d e,
      Get d "servers" = Some (VSet []) ->
      fst (h put1 w) = Some e ->
      trace (run h (vsphereVcenterDNSUpdate d) w) = [put1; put2].
Proof.
  intros W h w put1 put2. subst put1 put2.
  unfold resourceVSphereVcenterDNSDelete, vsphereVcenterDNSUpdate,
    dns_payload_nested, dns_payload_flat, call, http_MethodPut, dnsServersPath.
  cbn [bind run outcome trace map].
  split; [ | split].
  - destruct (h (RestUpdateRequest _ _ _) w) as [[e1 | ] w1]; reflexivity.
  - destruct (h (RestUpdateRequest _ _ _) w) as [[e1 | ] w1]; reflexivity.
  - intros d e G. rewrite G. unfold assert_Set_List.
    cbn [bind run outcome trace map].
    destruct (h (RestUpdateRequest _ _ _) w) as [[e1 | ] w1];
      cbn [fst snd bind run trace]; [ | discriminate].
    intros _. destruct (h (RestUpdateRequest _ _ _) w1) as [[e2 | ] w2]; reflexivity.
Qed.


(** *** The hosts of a NAS datastore *)

(** X19: the loop that collects the mounted hosts of a NAS datastore adds
    one entry per mount, in the order of the mounts, behind the entries it
    started with.  For the attribute ["host_system_ids"] the entries are
    the IDs of the mounts and nothing is requested. *)
Theorem nasMountedHosts_one_entry_per_mount :
  (forall (client : Client) (mounts : list DatastoreHostMount) (acc : list string),
     nasMountedHosts IsManagedObjectNotFoundError Name client "host_system_ids" mounts acc
     = Ret (inl (acc ++ map (fun mount => ref_Value (Key mount)) mounts)%list)) /\
  (forall (W : Type) (h : Handler W) (client : Client) (hostTfID : string)
          (mounts : list DatastoreHostMount) (acc : list string) (w : W)
          (l : list string),
     outcome (run h (nasMountedHosts IsManagedObjectNotFoundError Name client
                       hostTfID mounts acc) w)
     = Returned (inl l) ->
     exists names, l = (acc ++ names)%list /\ length names = length mounts).
Proof.
  split.
  - intros client mounts. induction mounts as [ | mount rest IH]; intros acc.
    + cbn. rewrite app_nil_r. reflexivity.
    + cbn [nasMountedHosts map]. cbn [String.eqb Ascii.eqb Bool.eqb].
      rewrite IH, <- app_assoc. reflexivity.
  - intros W h client hostTfID mounts.
    induction mounts as [ | mount rest IH]; intros acc w l.
    + cbn. intros E. inversion E; subst. exists []. rewrite app_nil_r. auto.
    + cbn [nasMountedHosts].
      destruct (String.eqb hostTfID "host_system_ids").
      * intros E. destruct (IH _ w l E) as (names & -> & L).
        exists (ref_Value (Key mount) :: names). rewrite <- app_assoc.
        split; [reflexivity | cbn; lia].
      * rewrite run_bind.
        destruct (outcome (run h (CheckIfHostnameOrID _ _ client _) w))
          as [[[[host | ] hr] [e | ]] | out code | ]; try (cbn; discriminate).
        cbv zeta. cbn [outcome]. intros E.
        destruct (IH _ _ l E) as (names & -> & L).
        exists (Name host :: names). rewrite <- app_assoc.
        split; [reflexivity | cbn; lia].
Qed.

(** X20: for the attribute ["hostnames"], against a server without state
    on which every mount key is the ID of a host, the loop returns the
    names of the handles found for these IDs, in the order of the mounts;
    a mount key that is neither an ID nor a hostname makes it return an
    error. *)
Theorem nasMountedHosts_names :
  forall (o : Oracle) (client : Client) (hostTfID : string) (acc : list string),
    String.eqb hostTfID "host_system_ids" = false ->
    (forall (mounts : list DatastoreHostMount) (es : list Element),
       Forall2 (fun mount e =>
                  o (Finder_Element (host_ref (ref_Value (Key mount)))) = inl e)
               mounts es ->
       eval o (nasMountedHosts IsManagedObjectNotFoundError Name client
                 hostTfID mounts acc)
       = Returned
           (inl (acc ++ map (fun me => Name (handle client
                                               (host_ref (ref_Value (Key (fst me))))
                                               (snd me)))
                            (combine mounts es))%list)) /\
    (forall (mount : DatastoreHostMount) (rest : list DatastoreHostMount),
       (exists host hr,
          eval o (CheckIfHostnameOrID IsManagedObjectNotFoundError Name client
                    (ref_Value (Key mount)))
          = Returned (host, hr, Some ErrHostnameOrIDNotFound)) ->
       eval o (nasMountedHosts IsManagedObjectNotFoundError Name client
                 hostTfID (mount :: rest) acc)
       = Returned (inr (Errorf "error finding host for datastore: could not find host based off of id or hostname"))).
Proof.
  intros o client hostTfID acc F. split.
  - intros mounts es A. revert acc.
    induction A as [ | mount e mounts es L A IH]; intros acc.
    + cbn. rewrite app_nil_r. reflexivity.
    + cbn [nasMountedHosts combine map fst snd]. rewrite F.
      rewrite eval_bind, eval_CheckIfHostnameOrID, L. cbv zeta.
      rewrite IH, <- app_assoc. reflexivity.
  - intros mount rest (host & hr & E).
    cbn [nasMountedHosts]. rewrite F, eval_bind, E. destruct host; reflexivity.
Qed.

(** The access mode of an import, once a non-empty mode is settled. *)
Lemma nasImportAccessMode_settled (mounts : list DatastoreHostMount)
    (acc a : string) :
  acc <> "" ->
  (nasImportAccessMode mounts acc = inl a <->
   a = acc /\ Forall (fun mount => MountInfo_AccessMode mount = acc) mounts).
Proof.
  intros N. apply String.eqb_neq in N.
  induction mounts as [ | mount rest IH]; cbn [nasImportAccessMode].
  - split.
    + intros E. inversion E; subst. auto.
    + intros [-> _]. reflexivity.
  - rewrite N. cbn [negb andb].
    destruct (String.eqb acc (MountInfo_AccessMode mount)) eqn:E; cbn [negb].
    + apply String.eqb_eq in E. rewrite IH. split.
      * intros [-> A]. split; [reflexivity | ]. constructor; [symmetry; exact E | exact A].
      * intros [-> A]. inversion A; subst. auto.
    + apply String.eqb_neq in E. split; [discriminate | ].
      intros [_ A]. inversion A; subst. congruence.
Qed.

(** X21: the access mode that the import of a NAS datastore settles on.
    The loop accepts the mounts exactly when, after any number of leading
    mounts with an empty access mode, all mounts have one and the same
    access mode, which it returns; an empty access mode behind a non-empty
    one is rejected like any other difference. *)
Theorem nasImportAccessMode_consistent :
  forall (mounts : list DatastoreHostMount) (a : string),
    nasImportAccessMode mounts "" = inl a <->
    exists blank rest,
      mounts = (blank ++ rest)%list /\
      Forall (fun mount => MountInfo_AccessMode mount = "") blank /\
      Forall (fun mount => MountInfo_AccessMode mount = a) rest /\
      (rest = [] -> a = "").
Proof.
  induction mounts as [ | mount ms IH]; intros a; cbn [nasImportAccessMode].
  - split.
    + intros E. inversion E; subst. exists [], []. auto.
    + intros (blank & rest & E & _ & _ & R).
      symmetry in E. apply app_eq_nil in E. destruct E as [_ ->].
      rewrite (R eq_refl). reflexivity.
  - cbn [String.eqb].
    destruct (String.eqb (MountInfo_AccessMode mount) "") eqn:M.
    + apply String.eqb_eq in M. rewrite M, IH. split.
      * intros (blank & rest & -> & B & R & Z).
        exists (mount :: blank), rest. repeat split; auto.
      * intros ([ | b blank] & rest & E & B & R & Z).
        -- cbn in E. subst rest. inversion R as [ | ? ? Ha Ra].
           rewrite M in Ha. subst a.
           exists [], ms. repeat split; auto.
        -- cbn in E. injection E as <- ->. inversion B; subst.
           exists blank, rest. auto.
    + apply String.eqb_neq in M.
      rewrite (nasImportAccessMode_settled ms _ a M). split.
      * intros [-> A]. exists [], (mount :: ms). repeat split; auto.
        discriminate.
      * intros ([ | b blank] & rest & E & B & R & Z).
        -- cbn in E. subst rest. inversion R; subst. split; [reflexivity | assumption].
        -- cbn in E. injection E as <- ->. inversion B; subst. contradiction.
Qed.


(** *** Host and error of a resolution *)

(** X22: whenever [FromHostnameOrID] or [CheckIfHostnameOrID] returns, it
    returns either a host and no error, or an error and no host; a caller
    that finds the error [nil] can use the host. *)
Theorem resolution_host_xor_error :
  (forall (W : Type) (h : Handler W) (w : W) (client : Client) (d : ResourceData)
          (host : option HostSystem) (hr : HostReturn) (err : option error),
     outcome (run h (FromHostnameOrID client d) w) = Returned (host, hr, err) ->
     (exists x, host = Some x /\ err = None) \/ (host = None /\ exists e, err = Some e)) /\
  (forall (W : Type) (h : Handler W) (w : W) (client : Client) (tfID : string)
          (host : option HostSystem) (hr : HostReturn) (err : option error),
     outcome (run h (CheckIfHostnameOrID IsManagedObjectNotFoundError Name client tfID) w)
     = Returned (host, hr, err) ->
     (exists x, host = Some x /\ err = None) \/ (host = None /\ exists e, err = Some e)).
Proof.
  split.
  - intros W h w client d host hr err. unfold FromHostnameOrID.
    destruct (attr_present d "host_system_id").
    + destruct (Get d "host_system_id") as [[id | l] | ];
        cbn [assert_string bind]; try (cbn; discriminate).
      rewrite run_bind_Ret. cbn [outcome].
      destruct (outcome (run h (FromID client id) w)) as [[x | e] | | ];
        try discriminate; intros E; inversion E; subst; cbn; eauto.
    + destruct (attr_present d "hostname").
      * destruct (Get d "hostname") as [[hn | l] | ];
          cbn [assert_string bind]; try (cbn; discriminate).
        rewrite run_bind_Ret. cbn [outcome].
        destruct (outcome (run h (FromHostname client hn) w)) as [[x | e] | | ];
          try discriminate; intros E; inversion E; subst; cbn; eauto.
      * cbn. intros E. inversion E; subst. eauto.
  - intros W h w client tfID host hr err.
    generalize (run_CheckIfHostnameOrID IsManagedObjectNotFoundError Name W h w client tfID).
    cbv zeta. set (res := run h _ w). clearbody res.
    destruct (h (Finder_Element (host_ref tfID)) w) as [[el | e] w1]; cbn [fst snd].
    + intros (O & _) E. rewrite O in E. inversion E; subst. eauto.
    + destruct (IsManagedObjectNotFoundError (FromApi e)).
      * intros (O & _) E. rewrite O in E.
        destruct (outcome (run h (FromHostname client tfID) w1))
          as [[x | e2] | out code | ]; try discriminate E.
        -- cbn in E. inversion E; subst. eauto.
        -- unfold after_hostname in E.
           destruct (negb (errors_Is e2 ErrHostnameNotFound));
             inversion E; subst; eauto.
      * intros (O & _) E. rewrite O in E. inversion E; subst. eauto.
Qed.


(** *** Duplicates and views that fail *)

Lemma eval_datacenters_app (o : Oracle) (client : Client) (hostname : string) :
  forall (dcs1 dcs2 : list Datacenter) (st : scan),
    eval o (FromHostname_datacenters client hostname (dcs1 ++ dcs2)%list st) =
    match eval o (FromHostname_datacenters client hostname dcs1 st) with
    | Returned (Continue st') =>
        eval o (FromHostname_datacenters client hostname dcs2 st')
    | Returned (Return e) => Returned (Return e)
    | Exited out code => Exited out code
    | Panicked => Panicked
    end.
Proof.
  induction dcs1 as [ | dc rest IH]; intros dcs2 st.
  - reflexivity.
  - cbn [app FromHostname_datacenters]. rewrite !eval_bind, !eval_call.
    destruct (o (CreateContainerView (dc_Reference dc) ["HostSystem"] true))
      as [dcView | err]; [ | reflexivity].
    rewrite !eval_bind, !eval_call.
    destruct (o (RetrieveWithFilter dcView ["HostSystem"] ["name"]))
      as [moHosts | err]; [ | reflexivity].
    rewrite !eval_bind.
    destruct (eval o (FromHostname_hosts client hostname moHosts st))
      as [[st' | e] | out code | ]; try reflexivity.
    apply IH.
Qed.

Lemma hosts_listed (o : Oracle) :
  forall (dcs : list Datacenter) (hs : list mo_HostSystem),
    hosts_of_datacenters o dcs = Some hs -> listed_in o dcs = hs.
Proof.
  induction dcs as [ | dc rest IH]; intros hs V; cbn in *.
  - congruence.
  - destruct (o (CreateContainerView (dc_Reference dc) ["HostSystem"] true))
      as [dcView | err]; [ | discriminate V].
    destruct (o (RetrieveWithFilter dcView ["HostSystem"] ["name"]))
      as [moHosts | err]; [ | discriminate V].
    destruct (hosts_of_datacenters o rest) as [more | ]; [ | discriminate V].
    injection V as <-. rewrite (IH more eq_refl). reflexivity.
Qed.

Lemma visible_listed (o : Oracle) (hs : list mo_HostSystem) :
  visible_hosts o = Some hs -> listed_hosts o = hs.
Proof.
  unfold visible_hosts, listed_hosts.
  destruct (o (Finder_DatacenterList "*")) as [dcs | err]; [ | discriminate].
  apply hosts_listed.
Qed.

(** X23: the counter of [FromHostname] runs over the datacenters in the
    order of the listing.  As soon as the datacenters at the front of the
    listing can be read and hold more than one host with the name, the
    search returns an error made on the spot, whatever the datacenters
    behind them hold and whether or not their views can be created. *)
Theorem FromHostname_rejects_duplicates_read :
  forall (o : Oracle) (client : Client) (hostname : string)
         (dcs1 dcs2 : list Datacenter) (hs1 : list mo_HostSystem),
    o (Finder_DatacenterList "*") = inl (dcs1 ++ dcs2)%list ->
    hosts_of_datacenters o dcs1 = Some hs1 ->
    host_typed hs1 ->
    (1 < length (named hostname hs1))%nat ->
    exists msg,
      outcome (run (static o) (FromHostname client hostname) tt)
      = Returned (inr (Errorf msg)).
Proof.
  intros o client hostname dcs1 dcs2 hs1 L V T N.
  assert (E : exists msg,
             eval o (FromHostname_datacenters client hostname dcs1
                       {| counter := 0; host := None |})
             = Returned (Return (Errorf msg))).
  { pose proof (scan_datacenters o client hostname dcs1 [] _ (scanned_start hostname)) as H.
    destruct (eval o (FromHostname_datacenters client hostname dcs1 _))
      as [[st' | e] | out code | ].
    - exfalso. destruct H as (hs & V' & [_ H]).
      assert (hs = hs1) by congruence. subst hs. cbn [app] in H.
      destruct (host st') as [y | ].
      + destruct H as (m & H & _). rewrite H in N. simpl in N. lia.
      + rewrite H in N. simpl in N. lia.
    - destruct H as [[msg ->] _]. exists msg. reflexivity.
    - destruct H as [_ H]. congruence.
    - exfalso. exact (ill_typed_match_not_typed _ _ (H hs1 V) T). }
  destruct E as [msg E]. exists msg.
  change (eval o (FromHostname client hostname) = Returned (inr (Errorf msg))).
  unfold FromHostname. rewrite eval_bind, eval_call, L, eval_bind.
  rewrite eval_datacenters_app, E. reflexivity.
Qed.

(** X24: when the hosts that can be listed hold more than one host with
    the name, whatever [FromHostname] returns is an error made on the
    spot: it returns no host, not the sentinel [ErrHostnameNotFound] and
    not the error of the datacenter listing. *)
Theorem FromHostname_no_host_among_duplicates :
  forall (o : Oracle) (client : Client) (hostname : string),
    (1 < length (named hostname (listed_hosts o)))%nat ->
    forall res,
      outcome (run (static o) (FromHostname client hostname) tt) = Returned res ->
      exists msg, res = inr (Errorf msg).
Proof.
  intros o client hostname N res E.
  pose proof (eval_FromHostname o client hostname) as H. unfold eval in H.
  rewrite E in H. destruct res as [x | e].
  - exfalso. destruct H as (hs & m & V & Nm & _).
    rewrite (visible_listed o hs V), Nm in N. simpl in N. lia.
  - unfold listed_hosts in N.
    destruct (o (Finder_DatacenterList "*")) as [dcs | err] eqn:L.
    + destruct H as [[_ (hs & V & Nm)] | [[msg ->] _]].
      * exfalso. unfold visible_hosts in V. rewrite L in V.
        rewrite (hosts_listed o dcs hs V), Nm in N. simpl in N. lia.
      * exists msg. reflexivity.
    + simpl in N. lia.
Qed.

(** X25: the import by ID, request by request.  When the part of the ID
    before the colon is the ID of a host, the host names its storage
    system, the properties of both can be read and the adapter is found,
    the import makes exactly three requests and returns the resource data
    with the ID [<id>:<device>] and the attribute ["host_system_id"] set
    to the ID. *)
Theorem import_by_id_returns :
  forall (W : Type) (h : Handler W) (w w1 w2 w3 : W) (client : Client)
         (d : ResourceData) (v a : string) (e : Element) (props : mo_HostSystem)
         (ref : ManagedObjectReference) (p : mo_HostStorageSystem)
         (adapter : IscsiAdapter),
    strings_Split_colon (rd_Id d) = [v; a] ->
    h (Finder_Element (host_ref v)) w = (inl e, w1) ->
    h (HostSystem_Properties (host_ref v)) w1 = (inl props, w2) ->
    ConfigManager_StorageSystem props = Some ref ->
    h (HostStorageSystem_Properties ref) w2 = (inl p, w3) ->
    GetIscsiSoftwareAdater p (Name (handle client (host_ref v) e)) = inl adapter ->
    let res := run h (resourceVSphereIscsiSoftwareAdapterImport
                        IsManagedObjectNotFoundError Name GetIscsiSoftwareAdater
                        client d) w in
    exists d',
      outcome res = Returned (inl [d']) /\
      rd_Id d' = v +:+ ":" +:+ Device adapter /\
      Get d' "host_system_id" = Some (VString v) /\
      (forall key, key <> "host_system_id" -> Get d' key = Get d key) /\
      trace res = [Finder_Element (host_ref v);
                   HostSystem_Properties (host_ref v);
                   HostStorageSystem_Properties ref] /\
      final res = w3.
Proof.
  intros W h w w1 w2 w3 client d v a e props ref p adapter S H1 H2 C H3 A res.
  subst res.
  assert (G : run h (GetHostStorageSystemPropertiesFromHost Name client
                       (handle client (host_ref v) e)) w1
              = {| outcome := Returned (inl p);
                   trace := [HostSystem_Properties (host_ref v);
                             HostStorageSystem_Properties ref];
                   final := w3 |}).
  { unfold GetHostStorageSystemPropertiesFromHost, GetHostStorageSystemFromHost,
      HostStorageSystemProperties, Properties, call.
    cbn [bind run outcome trace Reference handle hs_Common r].
    rewrite H2. cbn [fst snd bind run outcome trace]. rewrite C.
    cbn [bind run outcome trace hss_Reference]. rewrite H3. reflexivity. }
  generalize (run_CheckIfHostnameOrID IsManagedObjectNotFoundError Name W h w client v).
  cbv zeta. rewrite H1. cbn [fst snd]. intros (O & T & F).
  exists (imported d {| IDName := "host_system_id"; Value := v |} adapter).
  unfold resourceVSphereIscsiSoftwareAdapterImport. cbv zeta.
  rewrite S. cbn [length Nat.eqb negb nth].
  rewrite run_bind, O, T, F. cbv beta iota zeta.
  rewrite run_bind, G. cbn [outcome trace final]. rewrite A.
  cbn [run outcome trace final app].
  split; [reflexivity | split; [reflexivity | split; [apply Get_Set_eq | ]]].
  split; [ | split; reflexivity].
  intros key K. unfold imported. cbn [IDName Value].
  rewrite Get_Set_ne by congruence. apply Get_SetId.
Qed.


End MoreProperties.

(** ** The further properties on the sample vCenter *)

(** An empty ID is refused before any request; ["esxi-03:vmhba64"] is
    looked up as the ID ["esxi-03"] first. *)
Lemma import_id_format_witness :
  (outcome (run (Sample.server Sample.lab)
              (resourceVSphereIscsiSoftwareAdapterImport
                 Sample.IsManagedObjectNotFoundError Sample.Name
                 Sample.GetIscsiSoftwareAdater Sample.client Sample.by_nothing) tt)
   = Returned (inr (Errorf "invalid import format.  Format should be <host_system_id | hostname>:<adapter_name>"))
   /\ trace (run (Sample.server Sample.lab)
               (resourceVSphereIscsiSoftwareAdapterImport
                  Sample.IsManagedObjectNotFoundError Sample.Name
                  Sample.GetIscsiSoftwareAdater Sample.client Sample.by_nothing) tt)
      = []) /\
  exists rest,
    trace (run (Sample.server Sample.lab)
             (resourceVSphereIscsiSoftwareAdapterImport
                Sample.IsManagedObjectNotFoundError Sample.Name
                Sample.GetIscsiSoftwareAdater Sample.client Sample.to_import) tt)
    = Finder_Element (host_ref (nth 0 (strings_Split_colon (rd_Id Sample.to_import)) ""))
      :: rest.
Proof.
  pose proof (import_id_format Sample.IsManagedObjectNotFoundError Sample.Name
                Sample.GetIscsiSoftwareAdater unit (Sample.server Sample.lab) tt
                Sample.client Sample.by_nothing) as A.
  pose proof (import_id_format Sample.IsManagedObjectNotFoundError Sample.Name
                Sample.GetIscsiSoftwareAdater unit (Sample.server Sample.lab) tt
                Sample.client Sample.to_import) as B.
  cbv zeta in A, B. destruct A as [A _]. destruct B as [_ B].
  split; [apply A; vm_compute; discriminate | apply B; reflexivity].
Defined.

(** ["esxi-03:vmhba64"] and ["esxi-03:vmhba1"]. *)
Lemma import_ignores_adapter_name_witness :
  resourceVSphereIscsiSoftwareAdapterImport
    Sample.IsManagedObjectNotFoundError Sample.Name Sample.GetIscsiSoftwareAdater
    Sample.client Sample.to_import
  = resourceVSphereIscsiSoftwareAdapterImport
      Sample.IsManagedObjectNotFoundError Sample.Name Sample.GetIscsiSoftwareAdater
      Sample.client Sample.to_import_other.
Proof.
  apply (import_ignores_adapter_name Sample.IsManagedObjectNotFoundError Sample.Name
           Sample.GetIscsiSoftwareAdater Sample.client Sample.to_import
           Sample.to_import_other "esxi-03" "vmhba64" "vmhba1"); reflexivity.
Defined.

(** The import of ["esxi-03:vmhba64"] returns resource data with that ID,
    which parses back into the hostname and the device. *)
Lemma written_id_parses_back_witness :
  exists d',
    outcome (run (Sample.server Sample.lab)
               (resourceVSphereIscsiSoftwareAdapterImport
                  Sample.IsManagedObjectNotFoundError Sample.Name
                  Sample.GetIscsiSoftwareAdater Sample.client Sample.to_import) tt)
    = Returned (inl [d']) /\
    rd_Id d' = "esxi-03:vmhba64" /\
    strings_Split_colon (rd_Id d') = ["esxi-03"; "vmhba64"] /\
    length (strings_Split_colon (rd_Id d')) = 2%nat.
Proof.
  destruct (written_id_parses_back Sample.IsManagedObjectNotFoundError Sample.Name
              Sample.GetIscsiSoftwareAdater unit (Sample.server Sample.lab) tt
              Sample.client Sample.to_import (Sample.mkHandle "host-20" "esxi-03")
              {| IDName := "hostname"; Value := "esxi-03" |}
              Sample.storage_20 Sample.vmhba64 eq_refl eq_refl eq_refl eq_refl)
    as (d' & O & Hid & Sp & Ln & _).
  exists d'.
  split; [exact O | split; [exact Hid | split]].
  - apply Sp; reflexivity.
  - apply Ln. split; reflexivity.
Defined.

(** No host is named ["esxi-09"]; an unreachable finder gives its own
    error. *)
Lemma FromHostname_errors_witness :
  outcome (run (static (Sample.simulate Sample.lab))
             (FromHostname Sample.client "esxi-09") tt)
  = Returned (inr ErrHostnameNotFound) /\
  ((exists err, Sample.simulate Sample.unreachable (Finder_DatacenterList "*") = inr err /\
                FromApi (ApiError "connection reset by peer") = FromApi err)
   \/ exists msg, FromApi (ApiError "connection reset by peer") = Errorf msg).
Proof.
  split.
  - apply (proj1 (FromHostname_errors (Sample.simulate Sample.lab) Sample.client "esxi-09")).
    exists (Sample.vc_hosts Sample.lab). split; reflexivity.
  - apply (proj2 (FromHostname_errors (Sample.simulate Sample.unreachable)
                    Sample.client "esxi-01")
             (FromApi (ApiError "connection reset by peer")));
      [reflexivity | discriminate].
Defined.

(** Views that cannot be created end the process; the lab returns. *)
Lemma FromHostname_exit_only_on_view_failure_witness :
  (1 = 1 /\ visible_hosts (Sample.simulate Sample.broken_views) = None /\
   exists dcs, Sample.simulate Sample.broken_views (Finder_DatacenterList "*") = inl dcs) /\
  exists res,
    outcome (run (static (Sample.simulate Sample.lab))
               (FromHostname Sample.client "esxi-01") tt) = Returned res.
Proof.
  split.
  - apply (proj1 (FromHostname_exit_only_on_view_failure
                    (Sample.simulate Sample.broken_views) Sample.client "esxi-01")
             "error trying to create container: connection reset by peer" 1).
    reflexivity.
  - apply (proj2 (FromHostname_exit_only_on_view_failure
                    (Sample.simulate Sample.lab) Sample.client "esxi-01")
             (Sample.vc_hosts Sample.lab)); [reflexivity | repeat constructor].
Defined.

(** ["esxi-03"] is the name of ["host-20"] only. *)
Lemma FromHostname_finds_unique_host_witness :
  outcome (run (static (Sample.simulate Sample.lab))
             (FromHostname Sample.client "esxi-03") tt)
  = Returned (inl (handle Sample.client (MoRef "HostSystem" "host-20")
                     {| el_Path := "esxi-03" |})).
Proof.
  apply (FromHostname_finds_unique_host (Sample.simulate Sample.lab) Sample.client
           "esxi-03" (Sample.vc_hosts Sample.lab)
           (Sample.mkHost "host-20" "esxi-03" false) {| el_Path := "esxi-03" |});
    reflexivity.
Defined.

(** ["esxi-09"] is neither an ID nor a hostname. *)
Lemma CheckIfHostnameOrID_not_found_iff_witness :
  exists host hr,
    outcome (run (static (Sample.simulate Sample.lab))
               (CheckIfHostnameOrID Sample.IsManagedObjectNotFoundError Sample.Name
                  Sample.client "esxi-09") tt)
    = Returned (host, hr, Some ErrHostnameOrIDNotFound).
Proof.
  apply (proj2 (CheckIfHostnameOrID_not_found_iff Sample.IsManagedObjectNotFoundError
                  Sample.Name (Sample.simulate Sample.lab) Sample.client "esxi-09")).
  split.
  - exists (ApiError "ManagedObjectNotFound"). split; reflexivity.
  - exists (Sample.vc_hosts Sample.lab). split; reflexivity.
Defined.

(** ["esxi-03"] is not an ID, and the name of ["host-20"]. *)
Lemma CheckIfHostnameOrID_resolves_hostname_witness :
  outcome (run (static (Sample.simulate Sample.lab))
             (CheckIfHostnameOrID Sample.IsManagedObjectNotFoundError Sample.Name
                Sample.client "esxi-03") tt)
  = Returned (Some (Sample.mkHandle "host-20" "esxi-03"),
              {| IDName := "hostname"; Value := "esxi-03" |}, None).
Proof.
  apply (CheckIfHostnameOrID_resolves_hostname Sample.IsManagedObjectNotFoundError
           Sample.Name (Sample.simulate Sample.lab) Sample.client "esxi-03"
           (ApiError "ManagedObjectNotFound") (Sample.vc_hosts Sample.lab)
           (Sample.mkHost "host-20" "esxi-03" false) {| el_Path := "esxi-03" |});
    reflexivity.
Defined.

(** On a single ESXi host the evacuation that the caller asks for is
    dropped. *)
Lemma EnterMaintenanceMode_request_witness :
  In (HostSystem_EnterMaintenanceMode (MoRef "HostSystem" "host-11") 30 false)
     (trace (run (Sample.server Sample.lab)
               (EnterMaintenanceMode Sample.VimValidateVirtualCenter Sample.int32_Seconds
                  (Sample.esxiHandle "host-11" "esxi-02") 30000000000 true) tt)) /\
  MoRef "HostSystem" "host-11" = Reference (Sample.esxiHandle "host-11" "esxi-02") /\
  30 = Sample.int32_Seconds 30000000000 /\
  false = match Sample.VimValidateVirtualCenter
                  (Client_of (Sample.esxiHandle "host-11" "esxi-02")) with
          | Some _ => false
          | None => true
          end.
Proof.
  assert (I : In (HostSystem_EnterMaintenanceMode (MoRef "HostSystem" "host-11") 30 false)
                (trace (run (Sample.server Sample.lab)
                          (EnterMaintenanceMode Sample.VimValidateVirtualCenter
                             Sample.int32_Seconds
                             (Sample.esxiHandle "host-11" "esxi-02") 30000000000 true) tt)))
    by (right; left; reflexivity).
  split; [exact I | ].
  exact (EnterMaintenanceMode_request Sample.VimValidateVirtualCenter Sample.int32_Seconds
           unit (Sample.server Sample.lab) tt (Sample.esxiHandle "host-11" "esxi-02")
           30000000000 true (MoRef "HostSystem" "host-11") 30 false I).
Defined.

(** ["host-11"] enters maintenance mode through a task that succeeds. *)
Lemma EnterMaintenanceMode_nil_iff_witness :
  outcome (run (static (Sample.simulate Sample.lab))
             (EnterMaintenanceMode Sample.VimValidateVirtualCenter Sample.int32_Seconds
                (Sample.mkHandle "host-11" "esxi-02") 30000000000 true) tt)
  = Returned None.
Proof.
  pose proof (EnterMaintenanceMode_nil_iff Sample.VimValidateVirtualCenter
                Sample.int32_Seconds (Sample.simulate Sample.lab)
                (Sample.mkHandle "host-11" "esxi-02") 30000000000 true) as H.
  cbv zeta in H. destruct H as [_ [_ H]]. apply H.
  exists (Sample.mkHost "host-11" "esxi-02" false). split; [reflexivity | right].
  exists {| task_Reference := MoRef "Task" "enter-host-11" |},
         {| Info_State := "success"; Info_Error := "" |}.
  repeat split; reflexivity.
Defined.

(** ["host-10"] leaves maintenance mode through a task that succeeds. *)
Lemma ExitMaintenanceMode_nil_iff_witness :
  outcome (run (static (Sample.simulate Sample.lab))
             (ExitMaintenanceMode Sample.int32_Seconds
                (Sample.mkHandle "host-10" "esxi-01") 30000000000) tt)
  = Returned None.
Proof.
  pose proof (ExitMaintenanceMode_nil_iff Sample.int32_Seconds
                (Sample.simulate Sample.lab)
                (Sample.mkHandle "host-10" "esxi-01") 30000000000) as H.
  cbv zeta in H. destruct H as [_ [_ H]]. apply H.
  exists (Sample.mkHost "host-10" "esxi-01" true). split; [reflexivity | right].
  exists {| task_Reference := MoRef "Task" "exit-host-10" |},
         {| Info_State := "success"; Info_Error := "" |}.
  repeat split; reflexivity.
Defined.

(** A read of the adapter of ["host-10"] keeps the host resolvable the same
    way. *)
Lemma iscsiSoftwareAdapterRead_keeps_identity_witness :
  FromHostnameOrID Sample.client
    (Set_ (Set_ Sample.by_id "iscsi_name" (VString "iqn.1998-01.com.vmware:esxi-01"))
       "adapter_id" (VString "vmhba64"))
  = FromHostnameOrID Sample.client Sample.by_id.
Proof.
  apply (iscsiSoftwareAdapterRead_keeps_identity Sample.Name Sample.GetIscsiSoftwareAdater
           unit (Sample.server Sample.lab) tt Sample.client Sample.by_id false
           (Set_ (Set_ Sample.by_id "iscsi_name" (VString "iqn.1998-01.com.vmware:esxi-01"))
              "adapter_id" (VString "vmhba64"))
           None).
  reflexivity.
Defined.

(** The adapter of ["host-10"]: unknown, switched off and switched on. *)
Lemma iscsiSoftwareAdapterRead_by_state_witness :
  eval (Sample.iscsi_unknown (Sample.simulate Sample.lab))
    (iscsiSoftwareAdapterRead Sample.Name Sample.GetIscsiSoftwareAdater
       Sample.client Sample.by_id false)
  = Panicked /\
  (eval (Sample.iscsi_off (Sample.simulate Sample.lab))
     (resourceVSphereIscsiSoftwareAdapterRead Sample.Name Sample.GetIscsiSoftwareAdater
        Sample.client Sample.by_id)
   = Returned (Sample.by_id, None) /\
   eval (Sample.iscsi_off (Sample.simulate Sample.lab))
     (iscsiSoftwareAdapterRead Sample.Name Sample.GetIscsiSoftwareAdater
        Sample.client Sample.by_id true)
   = Returned (Sample.by_id,
               Some (Errorf ("iscsi software adapter is not enabled for host '"
                             +:+ Sample.Name (Sample.mkHandle "host-10" "esxi-01")
                             +:+ "'")))) /\
  exists d',
    eval (Sample.simulate Sample.lab)
      (iscsiSoftwareAdapterRead Sample.Name Sample.GetIscsiSoftwareAdater
         Sample.client Sample.by_id false)
    = Returned (d', None) /\
    Get d' "iscsi_name" = Some (VString "iqn.1998-01.com.vmware:esxi-01") /\
    Get d' "adapter_id" = Some (VString "vmhba64").
Proof.
  split; [ | split].
  - apply (proj1 (iscsiSoftwareAdapterRead_by_state Sample.Name Sample.GetIscsiSoftwareAdater
                    (Sample.iscsi_unknown (Sample.simulate Sample.lab)) Sample.client
                    Sample.by_id (Sample.mkHandle "host-10" "esxi-01")
                    {| IDName := "host_system_id"; Value := "host-10" |}
                    {| hss_Self := MoRef "HostStorageSystem" "storageSystem-host-10";
                       StorageDeviceInfo := None |}
                    eq_refl eq_refl)).
    reflexivity.
  - apply (proj1 (proj2 (iscsiSoftwareAdapterRead_by_state Sample.Name
                    Sample.GetIscsiSoftwareAdater
                    (Sample.iscsi_off (Sample.simulate Sample.lab)) Sample.client
                    Sample.by_id (Sample.mkHandle "host-10" "esxi-01")
                    {| IDName := "host_system_id"; Value := "host-10" |}
                    {| hss_Self := MoRef "HostStorageSystem" "storageSystem-host-10";
                       StorageDeviceInfo := Some {| SoftwareInternetScsiEnabled := false |} |}
                    eq_refl eq_refl))).
    reflexivity.
  - apply (proj2 (proj2 (iscsiSoftwareAdapterRead_by_state Sample.Name
                    Sample.GetIscsiSoftwareAdater
                    (Sample.simulate Sample.lab) Sample.client
                    Sample.by_id (Sample.mkHandle "host-10" "esxi-01")
                    {| IDName := "host_system_id"; Value := "host-10" |}
                    {| hss_Self := MoRef "HostStorageSystem" "storageSystem-host-10";
                       StorageDeviceInfo := Some {| SoftwareInternetScsiEnabled := true |} |}
                    eq_refl eq_refl))
             {| Device := "vmhba64"; IScsiName := "iqn.1998-01.com.vmware:esxi-01" |}
             false); reflexivity.
Defined.

(** The lab refuses the nested payload and accepts the flat one: the
    resource is created. *)
Lemma resourceVSphereVcenterDNSCreate_id_witness :
  outcome (run (Sample.server Sample.lab) (resourceVSphereVcenterDNSCreate Sample.dns) tt)
  = Returned (SetId Sample.dns "tf-vcenter-dns", None).
Proof.
  exact (resourceVSphereVcenterDNSCreate_id unit (Sample.server Sample.lab) tt
           Sample.dns Sample.dns_servers eq_refl).
Defined.

(** On the lab the deletion fails where the update of no servers goes on. *)
Lemma resourceVSphereVcenterDNSDelete_one_payload_witness :
  trace (run (Sample.server Sample.lab) (vsphereVcenterDNSUpdate Sample.dns_none) tt)
  = [RestUpdateRequest "PUT" "/appliance/networking/dns/servers" (dns_payload_nested []);
     RestUpdateRequest "PUT" "/appliance/networking/dns/servers" (dns_payload_flat [])].
Proof.
  pose proof (resourceVSphereVcenterDNSDelete_one_payload unit
                (Sample.server Sample.lab) tt) as H.
  cbv zeta in H. destruct H as (_ & _ & H).
  apply (H Sample.dns_none (Errorf "400 Bad Request")); reflexivity.
Defined.

(** The hosts of the two mounts by name. *)
Lemma nasMountedHosts_one_entry_per_mount_witness :
  exists names,
    ["esxi-01"; "esxi-03"] = ([] ++ names)%list /\
    length names = length Sample.mounts.
Proof.
  apply (proj2 (nasMountedHosts_one_entry_per_mount
                  Sample.IsManagedObjectNotFoundError Sample.Name)
           unit (Sample.server Sample.lab) Sample.client "hostnames"
           Sample.mounts [] tt ["esxi-01"; "esxi-03"]).
  reflexivity.
Defined.

(** The mounts on ["host-10"] and ["host-20"] read as the names of these
    hosts; a mount on the unknown ["host-99"] is an error. *)
Lemma nasMountedHosts_names_witness :
  eval (Sample.simulate Sample.lab)
    (nasMountedHosts Sample.IsManagedObjectNotFoundError Sample.Name Sample.client
       "hostnames" Sample.mounts [])
  = Returned (inl ["esxi-01"; "esxi-03"]) /\
  eval (Sample.simulate Sample.lab)
    (nasMountedHosts Sample.IsManagedObjectNotFoundError Sample.Name Sample.client
       "hostnames" Sample.mounts_unknown [])
  = Returned (inr (Errorf "error finding host for datastore: could not find host based off of id or hostname")).
Proof.
  destruct (nasMountedHosts_names Sample.IsManagedObjectNotFoundError Sample.Name
              (Sample.simulate Sample.lab) Sample.client "hostnames" [] eq_refl)
    as [P1 P2].
  split.
  - apply (P1 Sample.mounts [ {| el_Path := "esxi-01" |}; {| el_Path := "esxi-03" |} ]).
    repeat constructor.
  - apply (P2 {| Key := MoRef "HostSystem" "host-99"; MountInfo_AccessMode := "readWrite" |} []).
    eexists _, _. reflexivity.
Defined.

(** An empty access mode in front of ["readOnly"] is accepted. *)
Lemma nasImportAccessMode_consistent_witness :
  nasImportAccessMode Sample.mounts_late_mode "" = inl "readOnly".
Proof.
  apply (proj2 (nasImportAccessMode_consistent Sample.mounts_late_mode "readOnly")).
  exists [ {| Key := MoRef "HostSystem" "host-10"; MountInfo_AccessMode := "" |} ],
         [ {| Key := MoRef "HostSystem" "host-20"; MountInfo_AccessMode := "readOnly" |} ].
  split; [reflexivity | split; [repeat constructor | split; [repeat constructor | discriminate]]].
Defined.

(** The resolution of ["host-10"], and of the unknown ["esxi-09"]. *)
Lemma resolution_host_xor_error_witness :
  ((exists x, Some (Sample.mkHandle "host-10" "esxi-01") = Some x /\ @None error = None)
   \/ (Some (Sample.mkHandle "host-10" "esxi-01") = None /\
       exists e, @None error = Some e)) /\
  ((exists x, @None HostSystem = Some x /\ Some ErrHostnameOrIDNotFound = None)
   \/ (@None HostSystem = None /\ exists e, Some ErrHostnameOrIDNotFound = Some e)).
Proof.
  destruct (resolution_host_xor_error Sample.IsManagedObjectNotFoundError Sample.Name)
    as [P1 P2].
  split.
  - apply (P1 unit (Sample.server Sample.lab) tt Sample.client Sample.by_id
             (Some (Sample.mkHandle "host-10" "esxi-01"))
             {| IDName := "host_system_id"; Value := "host-10" |} None).
    reflexivity.
  - apply (P2 unit (Sample.server Sample.lab) tt Sample.client "esxi-09"
             None HostReturn_zero (Some ErrHostnameOrIDNotFound)).
    reflexivity.
Defined.

(** Two hosts named ["esxi-01"] in the first two datacenters; the view of
    the third datacenter cannot be created, and the error of the search is
    the one for duplicates. *)
Lemma FromHostname_rejects_duplicates_read_witness :
  Sample.outage_behind (Finder_DatacenterList "*")
  = inl ([Sample.dcEast; Sample.dcMid] ++ [Sample.dcWest])%list /\
  hosts_of_datacenters Sample.outage_behind [Sample.dcWest] = None /\
  exists msg,
    outcome (run (static Sample.outage_behind) (FromHostname Sample.client "esxi-01") tt)
    = Returned (inr (Errorf msg)).
Proof.
  split; [reflexivity | split; [reflexivity | ]].
  apply (FromHostname_rejects_duplicates_read Sample.outage_behind Sample.client "esxi-01"
           [Sample.dcEast; Sample.dcMid] [Sample.dcWest]
           [Sample.mkHost "host-10" "esxi-01" false; Sample.mkHost "host-15" "esxi-01" false]).
  - reflexivity.
  - reflexivity.
  - repeat constructor.
  - vm_compute. lia.
Defined.

(** The same vCenter: what the search returns is the error for
    duplicates. *)
Lemma FromHostname_no_host_among_duplicates_witness :
  (1 < length (named "esxi-01" (listed_hosts Sample.outage_behind)))%nat /\
  outcome (run (static Sample.outage_behind) (FromHostname Sample.client "esxi-01") tt)
  = Returned (inr (Errorf "more than one host with hostname 'esxi-01' was found")) /\
  exists msg,
    @inr HostSystem error
      (Errorf "more than one host with hostname 'esxi-01' was found")
    = inr (Errorf msg).
Proof.
  assert (N : (1 < length (named "esxi-01" (listed_hosts Sample.outage_behind)))%nat)
    by (vm_compute; lia).
  split; [exact N | split; [reflexivity | ]].
  apply (FromHostname_no_host_among_duplicates Sample.outage_behind Sample.client
           "esxi-01" N).
  reflexivity.
Defined.

(** The import of ["host-20:vmhba64"] on the sample vCenter. *)
Lemma import_by_id_returns_witness :
  exists d',
    outcome (run (Sample.server Sample.lab)
               (resourceVSphereIscsiSoftwareAdapterImport
                  Sample.IsManagedObjectNotFoundError Sample.Name
                  Sample.GetIscsiSoftwareAdater Sample.client Sample.to_import_by_id) tt)
    = Returned (inl [d']) /\
    rd_Id d' = "host-20:vmhba64" /\
    Get d' "host_system_id" = Some (VString "host-20") /\
    (forall key, key <> "host_system_id" -> Get d' key = Get Sample.to_import_by_id key) /\
    trace (run (Sample.server Sample.lab)
             (resourceVSphereIscsiSoftwareAdapterImport
                Sample.IsManagedObjectNotFoundError Sample.Name
                Sample.GetIscsiSoftwareAdater Sample.client Sample.to_import_by_id) tt)
    = [Finder_Element (host_ref "host-20");
       HostSystem_Properties (host_ref "host-20");
       HostStorageSystem_Properties (MoRef "HostStorageSystem" "storageSystem-host-20")] /\
    final (run (Sample.server Sample.lab)
             (resourceVSphereIscsiSoftwareAdapterImport
                Sample.IsManagedObjectNotFoundError Sample.Name
                Sample.GetIscsiSoftwareAdater Sample.client Sample.to_import_by_id) tt)
    = tt.
Proof.
  apply (import_by_id_returns Sample.IsManagedObjectNotFoundError Sample.Name
           Sample.GetIscsiSoftwareAdater unit (Sample.server Sample.lab) tt tt tt tt
           Sample.client Sample.to_import_by_id "host-20" "vmhba64"
           {| el_Path := "esxi-03" |} (Sample.mkHost "host-20" "esxi-03" false)
           (MoRef "HostStorageSystem" "storageSystem-host-20")
           Sample.storage_20 Sample.vmhba64); reflexivity.
Defined.
